(** * sendconfig: update strategies of the ingress controller

    A shallow embedding of [internal/dataplane/sendconfig/inmemory.go]
    (the whole-state strategy [UpdateStrategyInMemory] and the diff-apply
    strategy [UpdateStrategyDBMode] with its event consumer [HandleEvents]
    and the classifier [resourceErrorFromEntityAction]), followed by the
    properties of the specification that were checked against it. *)

From Stdlib Require Import String Ascii ZArith List Lia Bool.
From stdpp Require Import base gmap strings list option.

Local Open Scope string_scope.
Local Open Scope list_scope.
Set Warnings "-register-all".

(* ===================================================================== *)
(** ** Go values the package handles                                      *)
(* ===================================================================== *)

(** A Go call either returns or panics. *)
Inductive outcome (A : Type) : Type :=
| Returned (a : A)
| Panicked (msg : string).
Arguments Returned {A} a.
Arguments Panicked {A} msg.

Definition obind {A B : Type} (m : outcome A) (f : A -> outcome B) : outcome B :=
  match m with
  | Returned a => f a
  | Panicked msg => Panicked msg
  end.

Declare Scope go_scope.
Delimit Scope go_scope with go.
Notation "'let!' x ':=' m 'in' k" := (obind m (fun x => k))
  (at level 10, x name, m at level 100, k at level 200) : go_scope.
Local Open Scope go_scope.

(** An error value whose type is declared outside the package (by the
    orchestrator, the admin client, encoding/json ...).  The package tests
    such a value against nil, prints it and wraps it; it is represented by
    the text its [Error] method returns. *)
Record opaqueError : Type := { Error : string }.

(** A fragment of Go's dynamically typed values, enough for what an entity
    snapshot of type [any] can show to the reflect calls of the classifier:
    scalars, the two string slice types (a slice is nil or has elements, a
    [*string] element is nil or points at a string), named struct types with
    their fields in declaration order, and pointers. *)
Inductive Value : Type :=
| VBool (b : bool)
| VInt (n : Z)
| VString (s : string)
| VStrings (elems : option (list string))
| VStringPtrs (elems : option (list (option string)))
| VStruct (typ : string) (fields : list (string * Value))
| VPtr (typ : string) (target : option Value).

(** A value of interface type [any]: nil, or a dynamic value. *)
Definition any : Type := option Value.

Module reflect.

Inductive Kind : Type :=
  | Invalid | Bool | Int | String_ | Slice | Pointer | Struct.

(** [Kind.String] *)
Definition Kind_String (k : Kind) : string :=
  match k with
  | Invalid => "invalid"
  | Bool => "bool"
  | Int => "int"
  | String_ => "string"
  | Slice => "slice"
  | Pointer => "ptr"
  | Struct => "struct"
  end.

(** A [reflect.Value]: the zero Value ([None]) or a handle on a value. *)
Definition rValue : Type := option Value.

(** [reflect.ValueOf]: the zero Value for a nil interface. *)
Definition ValueOf (i : any) : rValue := i.

(** [Value.Kind]: Invalid for the zero Value. *)
Definition KindOf (v : rValue) : Kind :=
  match v with
  | None => Invalid
  | Some (VBool _) => Bool
  | Some (VInt _) => Int
  | Some (VString _) => String_
  | Some (VStrings _) => Slice
  | Some (VStringPtrs _) => Slice
  | Some (VStruct _ _) => Struct
  | Some (VPtr _ _) => Pointer
  end.

(** [reflect.Indirect]: the value a pointer points to (the zero Value for
    a nil pointer); any other value is returned unchanged. *)
Definition Indirect (v : rValue) : rValue :=
  match v with
  | Some (VPtr _ target) => target
  | _ => v
  end.

Fixpoint lookupField (name : string) (fields : list (string * Value)) : rValue :=
  match fields with
  | [] => None
  | (n, v) :: rest => if String.eqb n name then Some v else lookupField name rest
  end.

(** [Value.FieldByName]: panics unless the kind is Struct; the zero Value
    when the struct has no field of that name. *)
Definition FieldByName (v : rValue) (name : string) : outcome rValue :=
  match v with
  | Some (VStruct _ fields) => Returned (lookupField name fields)
  | _ => Panicked ("reflect: call of reflect.Value.FieldByName on "
                     +:+ Kind_String (KindOf v) +:+ " Value")
  end.

Fixpoint isZeroValue (v : Value) : bool :=
  match v with
  | VBool b => negb b
  | VInt n => Z.eqb n 0
  | VString s => String.eqb s ""
  | VStrings elems => match elems with None => true | Some _ => false end
  | VStringPtrs elems => match elems with None => true | Some _ => false end
  | VStruct _ fields =>
      (fix all (fs : list (string * Value)) : bool :=
         match fs with
         | [] => true
         | (_, f) :: rest => isZeroValue f && all rest
         end) fields
  | VPtr _ target => match target with None => true | Some _ => false end
  end.

(** [Value.IsZero]: whether the value is the zero value of its type; it
    panics on the zero Value. *)
Definition IsZero (v : rValue) : outcome bool :=
  match v with
  | None => Panicked "reflect: call of reflect.Value.IsZero on zero Value"
  | Some x => Returned (isZeroValue x)
  end.

(** [reflect.TypeOf(x).String()] for a non-nil interface value. *)
Definition TypeString (v : Value) : string :=
  match v with
  | VBool _ => "bool"
  | VInt _ => "int"
  | VString _ => "string"
  | VStrings _ => "[]string"
  | VStringPtrs _ => "[]*string"
  | VStruct typ _ => typ
  | VPtr typ _ => "*" +:+ typ
  end.

Definition TypeOf (i : any) : string :=
  match i with
  | None => "%!s(<nil>)"
  | Some v => TypeString v
  end.

End reflect.

(** [v.Interface().([]*string)] on a valid Value: the comma-ok assertion
    holds exactly for a value of dynamic type [[]*string]. *)
Definition assertStringPtrs (v : Value) : option (list (option string)) * bool :=
  match v with
  | VStringPtrs elems => (elems, true)
  | _ => (None, false)
  end.

(** A slice as [range] and [len] see it: a nil slice has no elements. *)
Definition elements {A : Type} (s : option (list A)) : list A :=
  match s with
  | None => []
  | Some l => l
  end.

(** [*s] for [s : *string]: a nil pointer dereference panics. *)
Definition deref (s : option string) : outcome string :=
  match s with
  | Some x => Returned x
  | None => Panicked "runtime error: invalid memory address or nil pointer dereference"
  end.

(** [Value.Interface]: the value as an [any]; it panics on the zero Value. *)
Definition Interface (v : reflect.rValue) : outcome Value :=
  match v with
  | Some x => Returned x
  | None => Panicked "reflect: call of reflect.Value.Interface on zero Value"
  end.

(* ===================================================================== *)
(** ** Data model                                                         *)
(* ===================================================================== *)

(** Modelled from the spec: the declaration of [ResourceError] is not in
    the file; the record has the four fields the data model gives it,
    {name, kind, tags, problems}, where problems maps a field path (the
    empty string for the whole entity) to a message. *)
Module ResourceError.
Record t : Type := mk {
  Name : string;
  Kind : string;
  Tags : list string;
  Problems : gmap string string
}.
(** The zero value [ResourceError{}]. *)
Definition zero : t := mk "" "" [] ∅.
End ResourceError.

(** [rawResourceError], with the fields the classifier fills in. *)
Module rawResourceError.
Record t : Type := mk {
  Name : string;
  Tags : list string;
  Problems : gmap string string
}.
End rawResourceError.

(** Go's [error] values built or passed on by the package: an error of a
    collaborator; [errors.New]; [fmt.Errorf], kept as the format with its
    printed operands and the operands it wraps with [%w], in order; the
    struct literals [deckerrors.ConfigConflictError{Err: err}] and
    [deckutils.ErrArray{Errors: errs}]; and the aggregate that
    [NewUpdateError] builds (see below). *)
Inductive error : Type :=
| Opaque (e : opaqueError)
| errorString (text : string)
| Errorf (format : string) (operands : list string) (wrapped : list error)
| ConfigConflictError (Err : error)
| ErrArray (Errors : list error)
| UpdateError (resourceFailures : list ResourceError.t) (err : error).

(** The operands an error built by [fmt.Errorf] wraps with [%w], which is
    what its [Unwrap] method returns; [None] for an error built otherwise. *)
Definition fmtWrapped (e : error) : option (list error) :=
  match e with
  | Errorf _ _ wrapped => Some wrapped
  | _ => None
  end.

(** The type switch a caller uses to tell a conflict from other errors. *)
Definition isConfigConflictError (e : error) : bool :=
  match e with
  | ConfigConflictError _ => true
  | _ => false
  end.

(** [diff.Entity] and [diff.EntityAction] of the orchestrator, as quoted in
    the file. The error of an event is the orchestrator's, hence of a type
    declared outside the package. *)
Module Entity.
Record t : Type := mk {
  Name : string;
  Kind : string;
  Old : any;
  New : any
}.
End Entity.

Module EntityAction.
Record t : Type := mk {
  Action : string;
  Entity : Entity.t;
  Diff : string;
  Error : option opaqueError
}.
End EntityAction.

(** [fmt.Sprintf("%s", err)] for an error of the orchestrator. *)
Definition Sprintf_s (err : option opaqueError) : string :=
  match err with
  | Some e => Error e
  | None => "%!s(<nil>)"
  end.

Definition Kind_eqb (a b : reflect.Kind) : bool :=
  match a, b with
  | reflect.Invalid, reflect.Invalid
  | reflect.Bool, reflect.Bool
  | reflect.Int, reflect.Int
  | reflect.String_, reflect.String_
  | reflect.Slice, reflect.Slice
  | reflect.Pointer, reflect.Pointer
  | reflect.Struct, reflect.Struct => true
  | _, _ => false
  end.

(** Modelled from the spec: [parseRawResourceError] is called by the
    classifier but defined elsewhere in the package. The classification
    algorithm ends with "Return ResourceError{name, kind, tags, problems}":
    name, tags and problems are those of the raw record. The raw record has
    no kind (the classifier fills in Name, Tags and Problems only), so kind
    is left at its zero value. *)
Definition parseRawResourceError_spec (raw : rawResourceError.t)
  : ResourceError.t * option error :=
  (ResourceError.mk (rawResourceError.Name raw) ""
                    (rawResourceError.Tags raw)
                    (rawResourceError.Problems raw),
   None).

(* ===================================================================== *)
(** ** Error classification                                               *)
(* ===================================================================== *)

(** The loop [for _, s := range tags { actualTags = append(actualTags, *s) }]. *)
Fixpoint derefTags (tags : list (option string)) (actualTags : list string)
  : outcome (list string) :=
  match tags with
  | [] => Returned actualTags
  | s :: rest => let! x := deref s in derefTags rest (actualTags ++ [x])
  end.

Section Classification.

(** The parser of raw resource errors, defined elsewhere in the package. *)
Variable parseRawResourceError :
  rawResourceError.t -> ResourceError.t * option error.

Definition resourceErrorFromEntityAction (event : EntityAction.t)
  : outcome (ResourceError.t * option error) :=
  let entity := EntityAction.Entity event in
  let subj : any :=
    match Entity.New entity with
    | Some n => Some n
    | None => Entity.Old entity
    end in
  let reflected := reflect.Indirect (reflect.ValueOf subj) in
  if negb (Kind_eqb (reflect.KindOf reflected) reflect.Struct) then
    Returned (ResourceError.zero,
              Some (Errorf "entity %s/%s is %s, not Struct"
                           [Entity.Kind entity; Entity.Name entity;
                            reflect.Kind_String (reflect.KindOf reflected)] []))
  else
    let! tagsValue := reflect.FieldByName reflected "Tags" in
    let! zero := reflect.IsZero tagsValue in
    if zero then
      Returned (ResourceError.zero,
                Some (Errorf "entity %s/%s of type %s lacks 'Tags' field"
                             [Entity.Kind entity; Entity.Name entity;
                              reflect.TypeOf subj] []))
    else
      let! iface := Interface tagsValue in
      let '(tags, ok) := assertStringPtrs iface in
      if negb ok then
        Returned (ResourceError.zero,
                  Some (Errorf "entity %s/%s Tags field is not []*string"
                               [Entity.Kind entity; Entity.Name entity] []))
      else
        let! actualTags := derefTags (elements tags) [] in
        let raw := rawResourceError.mk
                     (Entity.Name entity)
                     actualTags
                     {[ "" := Sprintf_s (EntityAction.Error event) ]} in
        Returned (parseRawResourceError raw).

End Classification.

(* ===================================================================== *)
(** ** Shared declarations of the two strategies                          *)
(* ===================================================================== *)

(** A fallible call of a collaborator: [(v, nil)] or [(_, err)]. *)
Inductive result (A : Type) : Type :=
| Ok (v : A)
| Err (err : error).
Arguments Ok {A} v.
Arguments Err {A} err.

(** [ContentWithHash]: the desired state and its fingerprint. *)
Record ContentWithHash (Content : Type) : Type := {
  Content_ : Content;
  Hash : string
}.
Arguments Content_ {Content} c.
Arguments Hash {Content} c.

(** [metrics.Protocol] *)
Inductive Protocol : Type := ProtocolDBLess | ProtocolDeck.

(** What the logger was handed, in order. *)
Inductive logEntry : Type :=
| LogInfo (msg : string) (keysAndValues : list string)
| LogError (err : error) (msg : string) (keysAndValues : list string).

(* ===================================================================== *)
(** ** Whole-state strategy                                               *)
(* ===================================================================== *)

Module InMemory.
Section InMemory.

Context {Content DBLessConfig FlatEntityError : Type}.

(** The interface [ConfigService]; the reader is given by its bytes. *)
Record ConfigService : Type := {
  ReloadDeclarativeRawConfig :
    list Byte.byte -> bool -> bool -> option (list Byte.byte) * option error
}.

(** The interface [ContentToDBLessConfigConverter]. *)
Record ContentToDBLessConfigConverter : Type := {
  Convert : Content -> DBLessConfig
}.

Record UpdateStrategyInMemory : Type := {
  configService : ConfigService;
  configConverter : ContentToDBLessConfigConverter
}.

Definition NewUpdateStrategyInMemory
    (configService : ConfigService)
    (configConverter : ContentToDBLessConfigConverter) : UpdateStrategyInMemory :=
  {| configService := configService; configConverter := configConverter |}.

(** [json.Marshal] on the converted configuration. *)
Variable json_Marshal : DBLessConfig -> result (list Byte.byte).

(** The parser of flattened error bodies, defined elsewhere in the
    package: the entity errors (possibly nil) and an error. *)
Variable parseFlatEntityErrors :
  option (list Byte.byte) -> option (list FlatEntityError) * option error.

(** [UpdateStrategyInMemory.Update]: (err, resourceErrors, rawErrBody). *)
Definition Update (s : UpdateStrategyInMemory) (targetState : ContentWithHash Content)
  : option error * option (list FlatEntityError) * option (list Byte.byte) :=
  let dblessConfig := Convert (configConverter s) (Content_ targetState) in
  match json_Marshal dblessConfig with
  | Err err =>
      (Some (Errorf "constructing kong configuration: %w" [] [err]), None, None)
  | Ok config =>
      match ReloadDeclarativeRawConfig (configService s) config true true with
      | (errBody, Some reloadErr) =>
          match parseFlatEntityErrors errBody with
          | (_, Some err) =>
              (Some (Errorf "failed to parse config error: %w: %w" [] [reloadErr; err]),
               None, errBody)
          | (entityErrs, None) => (Some reloadErr, entityErrs, errBody)
          end
      | (_, None) => (None, None, None)
      end
  end.

Definition MetricsProtocol (s : UpdateStrategyInMemory) : Protocol := ProtocolDBLess.

Definition Type_ (s : UpdateStrategyInMemory) : string := "InMemory".

End InMemory.
End InMemory.

(* ===================================================================== *)
(** ** Diagnostics records                                                *)
(* ===================================================================== *)

(** Modelled from the spec: [diagnostics.EntityDiff] is declared in
    another package of the repository; an entity diff of the diagnostics
    record is {diffText, action}. *)
Module EntityDiff.
Record t : Type := mk { Diff : string; Action : string }.
End EntityDiff.

(** Modelled from the spec: [diagnostics.NewEntityDiff] is defined in the
    same other package; it makes the entity-diff record of a diff text and
    an action. *)
Definition NewEntityDiff (diff action : string) : EntityDiff.t :=
  EntityDiff.mk diff action.

(** Modelled from the spec: [diagnostics.ConfigDiff] is declared in the
    same other package; the diagnostics record is
    {hash, entities: ordered sequence of entity diffs}. *)
Module ConfigDiff.
Record t : Type := mk { Hash : string; Entities : list EntityDiff.t }.
End ConfigDiff.

(** [diagnostics.ClientDiagnostic]: the holder of the channel [Diffs]; what
    has been sent on the channel is kept in the run state below. *)
Inductive ClientDiagnostic : Type := mkClientDiagnostic.

(** Modelled from the spec: [resourceErrorsToResourceFailures] is defined
    elsewhere in the package. The data model gives UpdateError as
    {resourceErrors: sequence of ResourceError, cause}, so what the
    aggregate carries is the resource list itself. *)
Definition resourceErrorsToResourceFailures (resourceErrors : list ResourceError.t)
  : list ResourceError.t := resourceErrors.

(** Modelled from the spec: [NewUpdateError] is defined elsewhere in the
    package; it makes the UpdateError {resourceErrors, cause}. *)
Definition NewUpdateError (resourceFailures : list ResourceError.t) (err : error) : error :=
  UpdateError resourceFailures err.

(* ===================================================================== *)
(** ** Diff-apply strategy                                                *)
(* ===================================================================== *)

Module DBMode.
Section DBMode.

(** Types of the orchestrator library and of the admin client. *)
Context {Client DumpConfig Version Content RawState KongState Syncer : Type}.

(** [UpdateStrategyDBMode]. Its [logger] is represented by the log of the
    run state below, its [resourceErrorLock] (a pointer, hence one mutex
    for an instance and all its copies) by the mutex of the run state. *)
Record UpdateStrategyDBMode : Type := {
  client : Client;
  dumpConfig : DumpConfig;
  version : Version;
  concurrency : Z;
  diagnostic : option ClientDiagnostic;
  isKonnect : bool;
  resourceErrors : list ResourceError.t
}.

Definition NewUpdateStrategyDBMode
    (client : Client) (dumpConfig : DumpConfig) (version : Version)
    (concurrency : Z) (diagnostic : option ClientDiagnostic) : UpdateStrategyDBMode :=
  {| client := client;
     dumpConfig := dumpConfig;
     version := version;
     concurrency := concurrency;
     diagnostic := diagnostic;
     isKonnect := false;
     resourceErrors := [] |}.

(** [s.isKonnect = b] *)
Definition set_isKonnect (s : UpdateStrategyDBMode) (b : bool) : UpdateStrategyDBMode :=
  {| client := client s;
     dumpConfig := dumpConfig s;
     version := version s;
     concurrency := concurrency s;
     diagnostic := diagnostic s;
     isKonnect := b;
     resourceErrors := resourceErrors s |}.

(** [s.resourceErrors = l] *)
Definition set_resourceErrors (s : UpdateStrategyDBMode) (l : list ResourceError.t)
  : UpdateStrategyDBMode :=
  {| client := client s;
     dumpConfig := dumpConfig s;
     version := version s;
     concurrency := concurrency s;
     diagnostic := diagnostic s;
     isKonnect := isKonnect s;
     resourceErrors := l |}.

Definition NewUpdateStrategyDBModeKonnect
    (client : Client) (dumpConfig : DumpConfig) (version : Version)
    (concurrency : Z) (diagnostic : option ClientDiagnostic) : UpdateStrategyDBMode :=
  let s := NewUpdateStrategyDBMode client dumpConfig version concurrency diagnostic in
  set_isKonnect s true.

Definition MetricsProtocol (s : UpdateStrategyDBMode) : Protocol := ProtocolDeck.

Definition Type_ (s : UpdateStrategyDBMode) : string := "DBMode".

(** [file.RenderConfig] and [diff.SyncerOpts], with the fields set here. *)
Record RenderConfig : Type := {
  CurrentState : KongState;
  KongVersion : Version
}.

Record SyncerOpts : Type := {
  so_CurrentState : KongState;
  so_TargetState : KongState;
  so_KongClient : Client;
  so_SilenceWarnings : bool;
  so_IsKonnect : bool;
  so_IncludeLicenses : bool;
  so_EnableEntityActions : bool
}.

(** The collaborators of one call: the admin client and the orchestrator
    library as they answer during that call. [Solve] is given by the
    events it sends on the result channel, in order, and the errors it
    returns (a nil or a non-nil slice); [resultChanCap] is the capacity of
    the channel [GetResultChan] returns (0 for an unbuffered one). *)
Record Collaborators : Type := {
  BaseRootURL : Client -> string;
  dump_Get : Client -> DumpConfig -> result RawState;
  state_Get : RawState -> result KongState;
  file_Get : Content -> RenderConfig -> DumpConfig -> Client -> result RawState;
  diff_NewSyncer : SyncerOpts -> result Syncer;
  Solve : Syncer -> Z -> bool -> bool -> list EntityAction.t * option (list error);
  resultChanCap : Syncer -> nat
}.

Variable env : Collaborators.

Definition currentState (s : UpdateStrategyDBMode) : result KongState :=
  match dump_Get env (client s) (dumpConfig s) with
  | Err err => Err (Errorf "loading configuration from kong: %w" [] [err])
  | Ok rawState => state_Get env rawState
  end.

Definition targetState (s : UpdateStrategyDBMode) (currentState : KongState)
    (targetContent : Content) : result KongState :=
  match file_Get env targetContent
          {| CurrentState := currentState; KongVersion := version s |}
          (dumpConfig s) (client s) with
  | Err err => Err err
  | Ok rawState => state_Get env rawState
  end.

(** The parser of raw resource errors, defined elsewhere in the package. *)
Variable parseRawResourceError :
  rawResourceError.t -> ResourceError.t * option error.

(** *** The event consumer *)

(** What [HandleEvents] owns or shares while it runs: the strategy it was
    called on (through its pointer receiver), its local [diff], the log. *)
Record consumer : Type := {
  c_s : UpdateStrategyDBMode;
  c_diff : ConfigDiff.t;
  c_log : list logEntry
}.

Definition eventKeysAndValues (event : EntityAction.t) : list string :=
  ["action"; EntityAction.Action event;
   "kind"; Entity.Kind (EntityAction.Entity event);
   "name"; Entity.Name (EntityAction.Entity event)].

(** The body of [case event := <-events]. *)
Definition handleEvent (c : consumer) (event : EntityAction.t) : outcome consumer :=
  match EntityAction.Error event with
  | None =>
      let log := c_log c ++ [LogInfo "updated gateway entity" (eventKeysAndValues event)] in
      let eventDiff := NewEntityDiff (EntityAction.Diff event) (EntityAction.Action event) in
      Returned {| c_s := c_s c;
                  c_diff := ConfigDiff.mk (ConfigDiff.Hash (c_diff c))
                                          (ConfigDiff.Entities (c_diff c) ++ [eventDiff]);
                  c_log := log |}
  | Some eventError =>
      let log := c_log c ++ [LogError (Opaque eventError) "failed updating gateway entity"
                                      (eventKeysAndValues event)] in
      let! r := resourceErrorFromEntityAction parseRawResourceError event in
      match r with
      | (_, Some err) =>
          Returned {| c_s := c_s c;
                      c_diff := c_diff c;
                      c_log := log ++ [LogError err "could not parse entity update error" []] |}
      | (parsed, None) =>
          Returned {| c_s := set_resourceErrors (c_s c) (resourceErrors (c_s c) ++ [parsed]);
                      c_diff := c_diff c;
                      c_log := log |}
      end
  end.

(** The body of [case <-ctx.Done()] up to the unlock: what has been sent
    on [diagnostic.Diffs] afterwards. *)
Definition flushOnDone (diagnostic : option ClientDiagnostic) (c : consumer)
    (Diffs : list ConfigDiff.t) : list ConfigDiff.t :=
  match diagnostic with
  | Some _ => Diffs ++ [c_diff c]
  | None => Diffs
  end.

(** [HandleEvents] on its own, for a select that delivers [events] in
    order before the cancellation. *)
Fixpoint handleAll (c : consumer) (events : list EntityAction.t) : outcome consumer :=
  match events with
  | [] => Returned c
  | event :: rest => let! c' := handleEvent c event in handleAll c' rest
  end.

(** *** One call of [Update]: its goroutine, the consumer, the orchestrator

    From [go s.HandleEvents(...)] on, [Update] runs next to the consumer it
    has started, and [Solve] sends events while it runs. The interleaving
    is given by a schedule: the list of steps taken, each by one of the
    three. The model starts with the mutex free, leaves the context of the
    caller uncancelled (only [cancel()] closes [ctx.Done()]), and lets a
    send on [diagnostic.Diffs] go through. *)

Inductive updatePC : Type :=
| InSolve                      (* inside syncer.Solve *)
| AtCancel                     (* Solve has returned, before cancel() *)
| AtLock                       (* before s.resourceErrorLock.Lock() *)
| AtAggregate                  (* holding the lock *)
| HasReturned (err : option error).

Inductive consumerPC : Type :=
| Spawned                      (* go s.HandleEvents(...): not yet at Lock() *)
| InSelect                     (* holding the lock, at the select *)
| Terminated                   (* returned after <-ctx.Done() *)
| Crashed (msg : string).      (* panicked: the process is gone *)

Record runState : Type := {
  r_update : updatePC;
  r_consumer : consumerPC;
  r_c : consumer;                          (* s, diff and the log *)
  r_locked : bool;                         (* resourceErrorLock *)
  r_cancelled : bool;                      (* ctx.Done() is closed *)
  r_unsent : list EntityAction.t;          (* events Solve has yet to send *)
  r_events : list EntityAction.t;          (* the buffer of the result channel *)
  r_Diffs : list ConfigDiff.t              (* sent on diagnostic.Diffs *)
}.

(** The steps a schedule is made of. *)
Inductive action : Type :=
| ConsumerLock       (* HandleEvents takes the lock and initialises diff *)
| Send               (* Solve puts its next event into the channel buffer *)
| Handoff            (* Solve hands its next event to the consumer waiting in select *)
| Receive            (* select takes an event from the buffer *)
| SolveReturn        (* Solve has sent its events and returns *)
| CancelCtx          (* cancel() *)
| ConsumerDone       (* select takes <-ctx.Done(): flush, unlock, return *)
| UpdateLock         (* Update takes the lock *)
| UpdateAggregate.   (* Update reads s.resourceErrors and returns; deferred unlock *)

Definition alive (st : runState) : bool :=
  match r_consumer st with
  | Crashed _ => false
  | _ => true
  end.

(** The consumer takes [event] out of the channel and runs the body of the
    receive case; a panic in its goroutine ends the process. *)
Definition consume (st : runState) (event : EntityAction.t)
    (unsent events : list EntityAction.t) : runState :=
  match handleEvent (r_c st) event with
  | Returned c =>
      {| r_update := r_update st; r_consumer := InSelect; r_c := c;
         r_locked := r_locked st; r_cancelled := r_cancelled st;
         r_unsent := unsent; r_events := events; r_Diffs := r_Diffs st |}
  | Panicked msg =>
      {| r_update := r_update st; r_consumer := Crashed msg; r_c := r_c st;
         r_locked := r_locked st; r_cancelled := r_cancelled st;
         r_unsent := unsent; r_events := events; r_Diffs := r_Diffs st |}
  end.

(** Lines 188 to 207 of [Update], once the lock is held. *)
Definition aggregate (s : UpdateStrategyDBMode) (errs : option (list error))
  : option error :=
  let resourceFailures := resourceErrorsToResourceFailures (resourceErrors s) in
  match errs with
  | Some errs => Some (NewUpdateError resourceFailures (ErrArray errs))
  | None =>
      if Nat.ltb 0 (length resourceFailures) then
        Some (NewUpdateError resourceFailures
                (errorString "go-database-reconciler found resource errors"))
      else None
  end.

Section Run.

(** Fixed during one call: the capacity of the result channel, what [Solve]
    returns, and the arguments of [HandleEvents]. *)
Variable cap : nat.
Variable errs : option (list error).
Variable diagnostic_ : option ClientDiagnostic.
Variable hash : string.

(** One step; [None] when the step is not enabled in the state. *)
Definition step (a : action) (st : runState) : option runState :=
  match a with
  | ConsumerLock =>
      match r_consumer st, r_locked st with
      | Spawned, false =>
          Some {| r_update := r_update st; r_consumer := InSelect;
                  r_c := {| c_s := c_s (r_c st);
                            c_diff := ConfigDiff.mk hash [];
                            c_log := c_log (r_c st) |};
                  r_locked := true; r_cancelled := r_cancelled st;
                  r_unsent := r_unsent st; r_events := r_events st;
                  r_Diffs := r_Diffs st |}
      | _, _ => None
      end
  | Send =>
      match r_update st, r_unsent st with
      | InSolve, event :: rest =>
          if Nat.ltb (length (r_events st)) cap then
            Some {| r_update := r_update st; r_consumer := r_consumer st;
                    r_c := r_c st;
                    r_locked := r_locked st; r_cancelled := r_cancelled st;
                    r_unsent := rest; r_events := r_events st ++ [event];
                    r_Diffs := r_Diffs st |}
          else None
      | _, _ => None
      end
  | Handoff =>
      match r_update st, r_unsent st, r_consumer st, r_events st with
      | InSolve, event :: rest, InSelect, [] => Some (consume st event rest [])
      | _, _, _, _ => None
      end
  | Receive =>
      match r_consumer st, r_events st with
      | InSelect, event :: rest => Some (consume st event (r_unsent st) rest)
      | _, _ => None
      end
  | SolveReturn =>
      match r_update st, r_unsent st with
      | InSolve, [] =>
          Some {| r_update := AtCancel; r_consumer := r_consumer st;
                  r_c := r_c st;
                  r_locked := r_locked st; r_cancelled := r_cancelled st;
                  r_unsent := []; r_events := r_events st;
                  r_Diffs := r_Diffs st |}
      | _, _ => None
      end
  | CancelCtx =>
      match r_update st with
      | AtCancel =>
          Some {| r_update := AtLock; r_consumer := r_consumer st;
                  r_c := r_c st;
                  r_locked := r_locked st; r_cancelled := true;
                  r_unsent := r_unsent st; r_events := r_events st;
                  r_Diffs := r_Diffs st |}
      | _ => None
      end
  | ConsumerDone =>
      match r_consumer st, r_cancelled st with
      | InSelect, true =>
          Some {| r_update := r_update st; r_consumer := Terminated;
                  r_c := r_c st;
                  r_locked := false; r_cancelled := true;
                  r_unsent := r_unsent st; r_events := r_events st;
                  r_Diffs := flushOnDone diagnostic_ (r_c st) (r_Diffs st) |}
      | _, _ => None
      end
  | UpdateLock =>
      match r_update st, r_locked st with
      | AtLock, false =>
          Some {| r_update := AtAggregate; r_consumer := r_consumer st;
                  r_c := r_c st;
                  r_locked := true; r_cancelled := r_cancelled st;
                  r_unsent := r_unsent st; r_events := r_events st;
                  r_Diffs := r_Diffs st |}
      | _, _ => None
      end
  | UpdateAggregate =>
      match r_update st with
      | AtAggregate =>
          Some {| r_update := HasReturned (aggregate (c_s (r_c st)) errs);
                  r_consumer := r_consumer st;
                  r_c := r_c st;
                  r_locked := false; r_cancelled := r_cancelled st;
                  r_unsent := r_unsent st; r_events := r_events st;
                  r_Diffs := r_Diffs st |}
      | _ => None
      end
  end.

(** A schedule, step by step. Nothing runs once the process has crashed; a
    schedule that asks for a step that is not enabled cannot be run. *)
Fixpoint run (schedule : list action) (st : runState) : option runState :=
  match schedule with
  | [] => Some st
  | a :: rest =>
      if negb (alive st) then Some st else
      match step a st with
      | Some st' => run rest st'
      | None => None
      end
  end.

End Run.

(** The state right after [go s.HandleEvents(...)]: [s] is the copy of the
    strategy that [Update], a method with a value receiver, works on; the
    consumer gets its address. [Diffs] is what the diagnostics channel has
    been sent before the call. *)
Definition spawn (s : UpdateStrategyDBMode) (hash : string)
    (events : list EntityAction.t) (log : list logEntry)
    (Diffs : list ConfigDiff.t) : runState :=
  {| r_update := InSolve; r_consumer := Spawned;
     r_c := {| c_s := s; c_diff := ConfigDiff.mk hash []; c_log := log |};
     r_locked := false; r_cancelled := false;
     r_unsent := events; r_events := [];
     r_Diffs := Diffs |}.

(** [Update] up to the syncer: lines 158 to 179, with their early returns. *)
Definition prepare (s : UpdateStrategyDBMode) (targetContent : ContentWithHash Content)
  : result Syncer :=
  match currentState s with
  | Err err =>
      Err (Errorf "failed getting current state for %s: %w"
                  [BaseRootURL env (client s)] [err])
  | Ok cs =>
      match targetState s cs (Content_ targetContent) with
      | Err err => Err (ConfigConflictError err)
      | Ok ts =>
          match diff_NewSyncer env
                  {| so_CurrentState := cs;
                     so_TargetState := ts;
                     so_KongClient := client s;
                     so_SilenceWarnings := true;
                     so_IsKonnect := isKonnect s;
                     so_IncludeLicenses := true;
                     so_EnableEntityActions := true |} with
          | Err err =>
              Err (Errorf "creating a new syncer for %s: %w"
                          [BaseRootURL env (client s)] [err])
          | Ok syncer => Ok syncer
          end
      end
  end.

(** [Update] from line 181 on, under a schedule: the state the schedule
    leads to, if it can be run. *)
Definition execute (s : UpdateStrategyDBMode) (targetContent : ContentWithHash Content)
    (syncer : Syncer) (schedule : list action) : option runState :=
  let '(events, errs) := Solve env syncer (concurrency s) false false in
  run (resultChanCap env syncer) errs (diagnostic s) (Hash targetContent)
      schedule
      (spawn s (Hash targetContent) events [] []).

(** What a call of [Update] comes to under a schedule. *)
Inductive updateResult : Type :=
| Returns (err : option error)
| ProcessCrashed (msg : string)
| NotReturned.

Definition resultOf (st : option runState) : updateResult :=
  match st with
  | None => NotReturned
  | Some st =>
      match r_update st, r_consumer st with
      | HasReturned err, _ => Returns err
      | _, Crashed msg => ProcessCrashed msg
      | _, _ => NotReturned
      end
  end.

(** [UpdateStrategyDBMode.Update]. The receiver is a value: the call works
    on a copy of the strategy and hands nothing but the error back to the
    caller. *)
Definition Update (s : UpdateStrategyDBMode) (targetContent : ContentWithHash Content)
    (schedule : list action) : updateResult :=
  match prepare s targetContent with
  | Err err => Returns (Some err)
  | Ok syncer => resultOf (execute s targetContent syncer schedule)
  end.

(** The schedule in which the consumer is at its select before [Solve]
    sends, takes every event as it is sent, and has returned before
    [Update] asks for the lock. *)
Definition drained (events : list EntityAction.t) : list action :=
  ConsumerLock :: List.map (fun _ => Handoff) events
    ++ [SolveReturn; CancelCtx; ConsumerDone; UpdateLock; UpdateAggregate].

End DBMode.
End DBMode.

(* ===================================================================== *)
(** ** Vocabulary of the properties                                       *)
(* ===================================================================== *)

(** The snapshot the classifier looks at: the new one if present, else the
    old one. *)
Definition selectedSnapshot (event : EntityAction.t) : any :=
  match Entity.New (EntityAction.Entity event) with
  | Some n => Some n
  | None => Entity.Old (EntityAction.Entity event)
  end.

(** The selected snapshot is a structured record (a struct, or a pointer to
    one) with these fields. *)
Definition structuredRecord (event : EntityAction.t) (typ : string)
    (fields : list (string * Value)) : Prop :=
  reflect.Indirect (reflect.ValueOf (selectedSnapshot event)) = Some (VStruct typ fields).

(** The record's field "Tags" is a [[]*string] with these elements. *)
Definition tagList (fields : list (string * Value)) (tags : list (option string)) : Prop :=
  reflect.lookupField "Tags" fields = Some (VStringPtrs (Some tags)).

(** The raw record the classifier hands to the parser. *)
Definition rawOf (event : EntityAction.t) (values : list string) : rawResourceError.t :=
  rawResourceError.mk (Entity.Name (EntityAction.Entity event)) values
                      {[ "" := Sprintf_s (EntityAction.Error event) ]}.

(** What the specification says classification returns for an event: a
    resource error with the event's entity name and kind, the given tags
    and the one problem {"": text}. *)
Definition classifiedAsClaimed
    (parse : rawResourceError.t -> ResourceError.t * option error)
    (event : EntityAction.t) (values : list string) (text : string) : Prop :=
  exists re,
    resourceErrorFromEntityAction parse event = Returned (re, None)
    /\ ResourceError.Name re = Entity.Name (EntityAction.Entity event)
    /\ ResourceError.Kind re = Entity.Kind (EntityAction.Entity event)
    /\ ResourceError.Tags re = values
    /\ ResourceError.Problems re = {[ "" := text ]}.

(** *** Sample snapshots and events *)

Definition strp (s : string) : Value := VPtr "string" (Some (VString s)).

Definition sampleService (tags : option (list (option string))) : Value :=
  VPtr "kong.Service"
    (Some (VStruct "kong.Service"
             [("Host", strp "svc-1.example"); ("Name", strp "svc-1");
              ("Tags", VStringPtrs tags)])).

Definition sampleRoute (tags : option (list (option string))) : Value :=
  VPtr "kong.Route"
    (Some (VStruct "kong.Route"
             [("Name", strp "svc-1"); ("Tags", VStringPtrs tags)])).

(** A license has no field "Tags". *)
Definition sampleLicense : Value :=
  VPtr "kong.License"
    (Some (VStruct "kong.License"
             [("ID", strp "0b2f"); ("Payload", strp "...")])).

Definition teamTags : list string := ["team-a"; "team-a/svc-1"].

Definition failed (action kind name : string) (old new : any) (text : string)
  : EntityAction.t :=
  EntityAction.mk action (Entity.mk name kind old new) "" (Some {| Error := text |}).

Definition applied (action kind name diff : string) (old new : any) : EntityAction.t :=
  EntityAction.mk action (Entity.mk name kind old new) diff None.

Definition failedServiceUpdate : EntityAction.t :=
  failed "update" "service" "svc-1"
         (Some (sampleService None))
         (Some (sampleService (Some (List.map Some teamTags))))
         "schema violation".

Definition failedRouteCreate : EntityAction.t :=
  failed "create" "route" "svc-1"
         None
         (Some (sampleRoute (Some (List.map Some teamTags))))
         "schema violation".

Definition failedServiceNilTag : EntityAction.t :=
  failed "update" "service" "svc-1"
         None
         (Some (sampleService (Some [Some "team-a"; None; Some "team-a/svc-1"])))
         "schema violation".

Definition failedLicenseCreate : EntityAction.t :=
  failed "create" "license" "0b2f" None (Some sampleLicense) "invalid license".

Definition failedNoSnapshotDelete : EntityAction.t :=
  failed "delete" "service" "svc-1" (Some (VString "svc-1")) None "not found".

(** *** Words of the specification about a drained run *)

(** The error-free events, in arrival order, as entity diffs. *)
Definition errorFreeDiffs (events : list EntityAction.t) : list EntityDiff.t :=
  List.map (fun event => NewEntityDiff (EntityAction.Diff event) (EntityAction.Action event))
           (List.filter (fun event => match EntityAction.Error event with
                                      | None => true
                                      | Some _ => false
                                      end) events).

(** The resource errors of the events that carry an error and are
    classified successfully, in arrival order. *)
Definition classifiedErrors
    (parse : rawResourceError.t -> ResourceError.t * option error)
    (events : list EntityAction.t) : list ResourceError.t :=
  List.flat_map
    (fun event =>
       match EntityAction.Error event with
       | None => []
       | Some _ =>
           match resourceErrorFromEntityAction parse event with
           | Returned (parsed, None) => [parsed]
           | _ => []
           end
       end) events.

(** *** Sample strategies and collaborators *)

Definition gatewayStrategy : @DBMode.UpdateStrategyDBMode unit unit unit :=
  DBMode.NewUpdateStrategyDBMode tt tt tt 10 (Some mkClientDiagnostic).

Definition konnectStrategy : @DBMode.UpdateStrategyDBMode unit unit unit :=
  DBMode.NewUpdateStrategyDBModeKonnect tt tt tt 10 (Some mkClientDiagnostic).

Definition freshConsumer (s : @DBMode.UpdateStrategyDBMode unit unit unit) (hash : string)
  : DBMode.consumer :=
  {| DBMode.c_s := s; DBMode.c_diff := ConfigDiff.mk hash []; DBMode.c_log := [] |}.

(** Collaborators that answer every call and whose [Solve] sends [events]
    on a result channel of capacity [cap] and returns [errs]. *)
Definition collaborators (events : list EntityAction.t) (errs : option (list error))
    (cap : nat) : @DBMode.Collaborators unit unit unit unit unit unit unit :=
  {| DBMode.BaseRootURL := fun _ => "http://kong:8001";
     DBMode.dump_Get := fun _ _ => Ok tt;
     DBMode.state_Get := fun _ => Ok tt;
     DBMode.file_Get := fun _ _ _ _ => Ok tt;
     DBMode.diff_NewSyncer := fun _ => Ok tt;
     DBMode.Solve := fun _ _ _ _ => (events, errs);
     DBMode.resultChanCap := fun _ => cap |}.

(** Collaborators whose rendering of the target state fails. *)
Definition conflictingCollaborators : @DBMode.Collaborators unit unit unit unit unit unit unit :=
  {| DBMode.BaseRootURL := fun _ => "http://kong:8001";
     DBMode.dump_Get := fun _ _ => Ok tt;
     DBMode.state_Get := fun _ => Ok tt;
     DBMode.file_Get := fun _ _ _ _ =>
       Err (Opaque {| Error := "service svc-1: upstream not found" |});
     DBMode.diff_NewSyncer := fun _ => Ok tt;
     DBMode.Solve := fun _ _ _ _ => ([], None);
     DBMode.resultChanCap := fun _ => 0 |}.

Definition target (hash : string) : ContentWithHash unit :=
  {| Content_ := tt; Hash := hash |}.

(** The error the classifier's sample service event is turned into. *)
Definition sampleResourceError : ResourceError.t :=
  ResourceError.mk "svc-1" "" teamTags {[ "" := "schema violation" ]}.

(** Two successive calls [s.Update(ctx, t1); s.Update(ctx, t2)] on one
    strategy value, each with the collaborators as they answer during that
    call and its own schedule. [Update] has a value receiver, so each call
    is given the strategy as the caller holds it. *)
Definition UpdateTwice
    {Client DumpConfig Version Content RawState KongState Syncer : Type}
    (env1 env2 : @DBMode.Collaborators Client DumpConfig Version Content RawState KongState Syncer)
    (parse : rawResourceError.t -> ResourceError.t * option error)
    (s : DBMode.UpdateStrategyDBMode)
    (t1 t2 : ContentWithHash Content)
    (schedule1 schedule2 : list DBMode.action)
  : DBMode.updateResult * DBMode.updateResult :=
  let first := DBMode.Update env1 parse s t1 schedule1 in
  let second := DBMode.Update env2 parse s t2 schedule2 in
  (first, second).

(** *** Invariants of a run *)

(** The diagnostics channel has been sent nothing until the consumer
    returns on cancellation; from then on it holds what the flush sent. *)
Definition flushDiscipline {Client DumpConfig Version : Type}
    (diag : option ClientDiagnostic) (hash : string)
    (st : @DBMode.runState Client DumpConfig Version) : Prop :=
  ConfigDiff.Hash (DBMode.c_diff (DBMode.r_c st)) = hash
  /\ match DBMode.r_consumer st with
     | DBMode.Terminated =>
         DBMode.r_cancelled st = true
         /\ DBMode.r_Diffs st = DBMode.flushOnDone diag (DBMode.r_c st) []
     | _ => DBMode.r_Diffs st = []
     end.

(** What [Update] has returned, if it has, is an aggregate. *)
Definition returnsAggregate {Client DumpConfig Version : Type}
    (errs : option (list error))
    (st : @DBMode.runState Client DumpConfig Version) : Prop :=
  forall err, DBMode.r_update st = DBMode.HasReturned err ->
              exists s : @DBMode.UpdateStrategyDBMode Client DumpConfig Version,
                err = DBMode.aggregate s errs.

Definition appliedRouteCreate : EntityAction.t :=
  applied "create" "route" "r-1" "+ route r-1" None (Some (sampleRoute None)).

(** *** Sample whole-state collaborators *)

Definition bytesOf (s : string) : list Byte.byte := list_byte_of_string s.

Definition flattenedBody : option (list Byte.byte) :=
  Some (bytesOf "{'flattened_errors':[{'entity_name':'svc1'}]}").

(** A config service whose reload fails with the flattened body. *)
Definition failingService : InMemory.ConfigService :=
  {| InMemory.ReloadDeclarativeRawConfig := fun _ _ _ =>
       (flattenedBody, Some (Opaque {| Error := "HTTP status 400" |})) |}.

(** A config service whose reload succeeds. *)
Definition acceptingService : InMemory.ConfigService :=
  {| InMemory.ReloadDeclarativeRawConfig := fun _ _ _ => (None, None) |}.

Definition identityConverter : @InMemory.ContentToDBLessConfigConverter string string :=
  {| InMemory.Convert := fun content => content |}.

Definition marshalString (config : string) : result (list Byte.byte) := Ok (bytesOf config).

(** Stand-ins for the parser of flattened errors: one that reads the body
    as a single entity error, one that fails. *)
Definition parseAsOne (body : option (list Byte.byte)) : option (list string) * option error :=
  (Some ["svc1"], None).

Definition parseFails (body : option (list Byte.byte)) : option (list string) * option error :=
  (None, Some (errorString "could not unmarshal config error")).

Definition wholeStateTarget : ContentWithHash string :=
  {| Content_ := "{}"; Hash := "abc123" |}.

(** *** Further sample events *)

(** The event with another old snapshot. *)
Definition withOld (event : EntityAction.t) (old : any) : EntityAction.t :=
  EntityAction.mk (EntityAction.Action event)
    (Entity.mk (Entity.Name (EntityAction.Entity event))
               (Entity.Kind (EntityAction.Entity event))
               old
               (Entity.New (EntityAction.Entity event)))
    (EntityAction.Diff event)
    (EntityAction.Error event).

(** A failed update whose new snapshot is a nil [*kong.Service] held in the
    interface, next to a good old snapshot. *)
Definition failedNilNewUpdate : EntityAction.t :=
  failed "update" "service" "svc-1"
         (Some (sampleService (Some (List.map Some teamTags))))
         (Some (VPtr "kong.Service" None))
         "schema violation".

(** A failed update of a service whose tags are a nil slice. *)
Definition failedUntaggedUpdate : EntityAction.t :=
  failed "update" "service" "svc-1" None (Some (sampleService None)) "schema violation".

(** A record whose field "Tags" is a [[]string]. *)
Definition samplePlainTags : Value :=
  VPtr "konnect.Service"
    (Some (VStruct "konnect.Service"
             [("Name", strp "svc-1"); ("Tags", VStrings (Some ["team-a"]))])).

Definition failedPlainTagsUpdate : EntityAction.t :=
  failed "update" "service" "svc-1" None (Some samplePlainTags) "schema violation".

(** *** Further invariants of a run *)

Section RunInvariants.

Context {Client DumpConfig Version : Type}.
Variable parse : rawResourceError.t -> ResourceError.t * option error.
Variable cap : nat.
Variable errs : option (list error).
Variable hash : string.
Variable s : @DBMode.UpdateStrategyDBMode Client DumpConfig Version.
Variable log : list logEntry.
Variable events : list EntityAction.t.

(** The consumer as [HandleEvents] starts its loop. *)
Definition consumerAtStart : DBMode.consumer :=
  {| DBMode.c_s := s; DBMode.c_diff := ConfigDiff.mk hash []; DBMode.c_log := log |}.

(** The mutex is locked exactly while the consumer is in its loop (or has
    panicked there) or [Update] is between its Lock and its return, and
    these two never hold at once. *)
Definition lockDiscipline (st : @DBMode.runState Client DumpConfig Version) : Prop :=
  match DBMode.r_consumer st, DBMode.r_update st with
  | (DBMode.InSelect | DBMode.Crashed _), DBMode.AtAggregate => False
  | (DBMode.InSelect | DBMode.Crashed _), _ => DBMode.r_locked st = true
  | _, DBMode.AtAggregate => DBMode.r_locked st = true
  | _, _ => DBMode.r_locked st = false
  end.

(** The context is cancelled once [Update] is past [cancel()], not before;
    [Solve] returns with nothing left to send; the consumer returns only on
    a cancelled context. *)
Definition phaseDiscipline (st : @DBMode.runState Client DumpConfig Version) : Prop :=
  match DBMode.r_update st with
  | DBMode.InSolve => DBMode.r_cancelled st = false
  | DBMode.AtCancel => DBMode.r_cancelled st = false /\ DBMode.r_unsent st = []
  | _ => DBMode.r_cancelled st = true /\ DBMode.r_unsent st = []
  end
  /\ (DBMode.r_consumer st = DBMode.Terminated -> DBMode.r_cancelled st = true).

(** The events of the run are, in order: those the consumer has handled,
    those in the channel, those still to be sent; and the consumer is in
    the state that handling the first ones in order leads to. The channel
    holds no more than its capacity. *)
Definition orderDiscipline (st : @DBMode.runState Client DumpConfig Version) : Prop :=
  (length (DBMode.r_events st) <= cap)%nat
  /\ match DBMode.r_consumer st with
     | DBMode.Spawned =>
         DBMode.r_c st = consumerAtStart
         /\ events = DBMode.r_events st ++ DBMode.r_unsent st
     | DBMode.InSelect | DBMode.Terminated =>
         exists handled,
           events = handled ++ DBMode.r_events st ++ DBMode.r_unsent st
           /\ DBMode.handleAll parse consumerAtStart handled = Returned (DBMode.r_c st)
     | DBMode.Crashed msg =>
         exists handled event,
           events = handled ++ event :: DBMode.r_events st ++ DBMode.r_unsent st
           /\ DBMode.handleAll parse consumerAtStart handled = Returned (DBMode.r_c st)
           /\ DBMode.handleEvent parse (DBMode.r_c st) event = Panicked msg
     end.

(** What [Update] has returned is the aggregate over what the consumer had
    collected from a first part of the events; on an unbuffered channel,
    from all of them. *)
Definition reportDiscipline (st : @DBMode.runState Client DumpConfig Version) : Prop :=
  forall err,
    DBMode.r_update st = DBMode.HasReturned err ->
    exists handled rest c,
      events = handled ++ rest
      /\ DBMode.handleAll parse consumerAtStart handled = Returned c
      /\ err = DBMode.aggregate (DBMode.c_s c) errs
      /\ (cap = 0%nat -> rest = []).

Definition runDiscipline (st : @DBMode.runState Client DumpConfig Version) : Prop :=
  lockDiscipline st /\ phaseDiscipline st /\ orderDiscipline st /\ reportDiscipline st.


End RunInvariants.

(** *** Sample runs *)

(** A run with a failed and an applied event on a channel of capacity one,
    stopped when the consumer has handled the first and the second is in
    the channel. *)
Definition twoEvents : list EntityAction.t := [failedServiceUpdate; appliedRouteCreate].

Definition midRun : list DBMode.action :=
  [DBMode.ConsumerLock; DBMode.Send; DBMode.Receive; DBMode.Send].

(** The schedule in which the select takes the cancellation while the one
    event of the run is in the channel. *)
Definition cancelledEarly : list DBMode.action :=
  [DBMode.ConsumerLock; DBMode.Send; DBMode.SolveReturn; DBMode.CancelCtx;
   DBMode.ConsumerDone; DBMode.UpdateLock; DBMode.UpdateAggregate].

(** *** Further sample collaborators *)

(** A config service that fails unless asked to check the hash and to
    flatten the errors. *)
Definition pickyService : InMemory.ConfigService :=
  {| InMemory.ReloadDeclarativeRawConfig := fun _ checkHash flattenErrors =>
       if checkHash && flattenErrors then (None, None)
       else (None, Some (Opaque {| Error := "unexpected flags" |})) |}.

Definition marshalFails (config : string) : result (list Byte.byte) :=
  Err (Opaque {| Error := "json: unsupported value" |}).

(** Collaborators whose dump of the live configuration fails. *)
Definition unreachableCollaborators
  : @DBMode.Collaborators unit unit unit unit unit unit unit :=
  {| DBMode.BaseRootURL := fun _ => "http://kong:8001";
     DBMode.dump_Get := fun _ _ => Err (Opaque {| Error := "connection refused" |});
     DBMode.state_Get := fun _ => Ok tt;
     DBMode.file_Get := fun _ _ _ _ => Ok tt;
     DBMode.diff_NewSyncer := fun _ => Ok tt;
     DBMode.Solve := fun _ _ _ _ => ([], None);
     DBMode.resultChanCap := fun _ => 0%nat |}.

(** Collaborators over raw states that are either well formed or not:
    [state.Get] fails on the others; the dump and the rendering hand back
    the raw states given here. *)
Definition stagedCollaborators (dumped rendered : bool)
  : @DBMode.Collaborators unit unit unit unit bool unit unit :=
  {| DBMode.BaseRootURL := fun _ => "http://kong:8001";
     DBMode.dump_Get := fun _ _ => Ok dumped;
     DBMode.state_Get := fun raw =>
       if raw then Ok tt else Err (Opaque {| Error := "building state: duplicate id" |});
     DBMode.file_Get := fun _ _ _ _ => Ok rendered;
     DBMode.diff_NewSyncer := fun _ => Ok tt;
     DBMode.Solve := fun _ _ _ _ => ([], None);
     DBMode.resultChanCap := fun _ => 0%nat |}.

(** *** The same run for another strategy or hash *)

Section Relabelling.

Context {Client DumpConfig Version : Type}.
Variable onStrategy :
  @DBMode.UpdateStrategyDBMode Client DumpConfig Version ->
  @DBMode.UpdateStrategyDBMode Client DumpConfig Version.
Variable hash : string.

Definition relabelDiff (d : ConfigDiff.t) : ConfigDiff.t :=
  ConfigDiff.mk hash (ConfigDiff.Entities d).

Definition relabelConsumer (c : @DBMode.consumer Client DumpConfig Version)
  : DBMode.consumer :=
  {| DBMode.c_s := onStrategy (DBMode.c_s c);
     DBMode.c_diff := relabelDiff (DBMode.c_diff c);
     DBMode.c_log := DBMode.c_log c |}.

(** The state of a run with the strategy and the hash of the diagnostics
    record replaced, everything else as it is. *)
Definition relabel (st : @DBMode.runState Client DumpConfig Version) : DBMode.runState :=
  {| DBMode.r_update := DBMode.r_update st;
     DBMode.r_consumer := DBMode.r_consumer st;
     DBMode.r_c := relabelConsumer (DBMode.r_c st);
     DBMode.r_locked := DBMode.r_locked st;
     DBMode.r_cancelled := DBMode.r_cancelled st;
     DBMode.r_unsent := DBMode.r_unsent st;
     DBMode.r_events := DBMode.r_events st;
     DBMode.r_Diffs := List.map relabelDiff (DBMode.r_Diffs st) |}.

(** A change of the strategy that leaves its resource errors alone. *)
Definition keepsResourceErrors : Prop :=
  (forall s, DBMode.resourceErrors (onStrategy s) = DBMode.resourceErrors s)
  /\ (forall s l, onStrategy (DBMode.set_resourceErrors s l)
                  = DBMode.set_resourceErrors (onStrategy s) l).

End Relabelling.

(* ===================================================================== *)
(** ** crds: controllers that wait for their CustomResourceDefinitions    *)
(* ===================================================================== *)

(** The loops of [github.com/samber/lo] the package calls. *)
Module lo.
Section lo.

Context {A R S : Type}.

(** [lo.EveryBy]: false at the first element the predicate rejects. *)
Fixpoint EveryBy (collection : list A) (predicate : A -> bool) : bool :=
  match collection with
  | [] => true
  | x :: rest => if negb (predicate x) then false else EveryBy rest predicate
  end.

(** [lo.ContainsBy], for a predicate that may panic: true at the first
    element the predicate accepts; the elements after it are not looked
    at. *)
Fixpoint ContainsBy (collection : list A) (predicate : A -> outcome bool) : outcome bool :=
  match collection with
  | [] => Returned false
  | x :: rest =>
      let! found := predicate x in
      if found then Returned true else ContainsBy rest predicate
  end.

(** [lo.FilterMap], for a callback that acts on a state: the loop from
    index [i] on, appending to [result]. *)
Fixpoint FilterMap_loop (i : nat) (collection : list A)
    (callback : A -> nat -> S -> S * (R * bool)) (st : S) (result : list R)
  : S * list R :=
  match collection with
  | [] => (st, result)
  | x :: rest =>
      match callback x i st with
      | (st', (r, true)) => FilterMap_loop (i + 1) rest callback st' (result ++ [r])
      | (st', (_, false)) => FilterMap_loop (i + 1) rest callback st' result
      end
  end.

Definition FilterMap (collection : list A)
    (callback : A -> nat -> S -> S * (R * bool)) (st : S) : S * list R :=
  FilterMap_loop 0 collection callback st [].

End lo.
End lo.

Module crds.

(** An error as the package sees it: a value of a type declared elsewhere,
    or what [errors.Join] makes. *)
Inductive error : Type :=
| Foreign (err : opaqueError)
| joinError (errs : list error).

(** [errors.Join]: nil values are discarded; nil if nothing is left. *)
Definition errors_Join (errs : list (option error)) : option error :=
  match omap id errs with
  | [] => None
  | e :: es => Some (joinError (e :: es))
  end.

(** [schema.GroupVersionResource]. *)
Record GroupVersionResource : Type := {
  Group : string;
  Version : string;
  Resource : string
}.

(** [apiextensionsv1.CustomResourceDefinition], with the fields read here:
    [Spec.Group], [Spec.Versions[i].Name], [Status.AcceptedNames.Plural]. *)
Record CustomResourceDefinitionVersion : Type := { crdv_Name : string }.

Record CustomResourceDefinition : Type := {
  Spec_Group : string;
  Spec_Versions : list CustomResourceDefinitionVersion;
  Status_AcceptedNames_Plural : string
}.

(** A [client.Object] as the type assertion of [isOneOfRequiredCRDs] sees
    it: the nil interface, a [*CustomResourceDefinition] (nil or not), a
    value of another type. *)
Inductive Object : Type :=
| NilObject
| CRDObject (crd : option CustomResourceDefinition)
| OtherObject (typeName : string).

(** [types.NamespacedName], [ctrl.Request] and [ctrl.Result]. *)
Record NamespacedName : Type := { Namespace : string; Name : string }.

Record Request : Type := { req_NamespacedName : NamespacedName }.

Record Result : Type := { Requeue : bool; RequeueAfter : Z }.

(** [ctrl.Result{}] *)
Definition zeroResult : Result := {| Requeue := false; RequeueAfter := 0 |}.

(** A call of the logger: its verbosity ([r.Log.Info] is [V(0)]), the
    values it was given by [WithValues], the message and its keys and
    values. *)
Inductive verbosity : Type := V0 | VInfoLevel | VDebugLevel.

Inductive logValue : Type :=
| ofString (s : string)
| ofNamespacedName (n : NamespacedName).

Record logLine : Type := {
  line_V : verbosity;
  line_values : list (string * logValue);
  line_msg : string;
  line_keysAndValues : list (string * logValue)
}.

Section crds.

(** A manager is a reference; what it refers to, the registrations made
    with it and the cluster its client talks to, is in the world. *)
Context {Mgr World Duration Handle : Type}.

(** The interface [Controller]. *)
Record Controller : Type := {
  SetupWithManager : Mgr -> World -> World * option error
}.

(** [DynamicController]. [Log] holds the calls made to the logger so far,
    [startControllersOnce] whether the [sync.Once] is done. *)
Record DynamicController : Type := {
  Log : list logLine;
  Manager : Mgr;
  CacheSyncTimeout : Duration;
  Controllers : list Controller;
  RequiredCRDs : list GroupVersionResource;
  startControllersOnce : bool
}.

(** [r.Log] after one more call. *)
Definition logged (r : DynamicController) (line : logLine) : DynamicController :=
  {| Log := Log r ++ [line];
     Manager := Manager r;
     CacheSyncTimeout := CacheSyncTimeout r;
     Controllers := Controllers r;
     RequiredCRDs := RequiredCRDs r;
     startControllersOnce := startControllersOnce r |}.

(** [r.startControllersOnce] once [Do] has run its function. *)
Definition done (r : DynamicController) : DynamicController :=
  {| Log := Log r;
     Manager := Manager r;
     CacheSyncTimeout := CacheSyncTimeout r;
     Controllers := Controllers r;
     RequiredCRDs := RequiredCRDs r;
     startControllersOnce := true |}.

(** What the package calls outside itself: [utils.CRDExists] on the REST
    mapper of a manager's client, [Get] on that client (the object it
    fetches is not looked at), [apierrors.IsNotFound], [controller.New]
    (with the name, the manager and the timeout of its options) and
    [Watch] on the controller it returns (with the predicate). *)
Record Runtime : Type := {
  CRDExists : World -> Mgr -> GroupVersionResource -> bool;
  client_Get : World -> Mgr -> NamespacedName -> option error;
  IsNotFound : error -> bool;
  controller_New : string -> Mgr -> Duration -> World -> World * (Handle + error);
  Watch : Handle -> (Object -> outcome bool) -> World -> World * option error
}.

Variable rt : Runtime.

Definition allRequiredCRDsInstalled (r : DynamicController) (w : World) : bool :=
  lo.EveryBy (RequiredCRDs r) (fun gvr => CRDExists rt w (Manager r) gvr).

Definition isOneOfRequiredCRDs (r : DynamicController) (obj : Object) : outcome bool :=
  match obj with
  | CRDObject crd =>
      lo.ContainsBy (RequiredCRDs r) (fun gvr =>
        match crd with
        | None => Panicked "runtime error: invalid memory address or nil pointer dereference"
        | Some crd =>
            let! versionMatches :=
              lo.ContainsBy (Spec_Versions crd) (fun crdv =>
                Returned (String.eqb (crdv_Name crdv) (Version gvr))) in
            Returned (String.eqb (Spec_Group crd) (Group gvr)
                      && String.eqb (Status_AcceptedNames_Plural crd) (Resource gvr)
                      && versionMatches)
        end)
  | NilObject | OtherObject _ => Returned false
  end.

Definition setupControllers (r : DynamicController) (mgr : Mgr) (w : World)
  : World * option error :=
  let '(w', errs) :=
    lo.FilterMap (Controllers r) (fun c _ w =>
      match SetupWithManager c mgr w with
      | (w', Some err) => (w', (Some err, true))
      | (w', None) => (w', (None, false))
      end) w in
  (w', errors_Join errs).


(** [startControllersOnce.Do(f)], for an [f] that writes its error to a
    variable that starts as nil. *)
Definition Once_Do (r : DynamicController) (w : World)
    (f : DynamicController -> World -> DynamicController * World * option error)
  : DynamicController * World * option error :=
  if startControllersOnce r then (r, w, None)
  else let '(r, w, err) := f r w in (done r, w, err).

Definition Reconcile (r : DynamicController) (w : World) (req : Request)
  : DynamicController * World * (Result * option error) :=
  let values := [("CustomResourceDefinition", ofNamespacedName (req_NamespacedName req))] in
  let name := [("name", ofString (Name (req_NamespacedName req)))] in
  match client_Get rt w (Manager r) (req_NamespacedName req) with
  | Some err =>
      if IsNotFound rt err then
        let r := logged r {| line_V := VDebugLevel; line_values := values;
                             line_msg := "Object enqueued no longer exists, skipping";
                             line_keysAndValues := name |} in
        (r, w, (zeroResult, None))
      else (r, w, (zeroResult, Some err))
  | None =>
      let r := logged r {| line_V := VInfoLevel; line_values := values;
                           line_msg := "Processing CustomResourceDefinition";
                           line_keysAndValues := name |} in
      if negb (allRequiredCRDsInstalled r w) then
        let r := logged r {| line_V := VInfoLevel; line_values := values;
                             line_msg := "Still not all required CustomResourceDefinitions are installed, waiting";
                             line_keysAndValues := [] |} in
        (r, w, (zeroResult, None))
      else
        let '(r, w, startControllersErr) :=
          Once_Do r w (fun r w =>
            let r := logged r {| line_V := V0; line_values := values;
                                 line_msg := "All required CustomResourceDefinitions are installed, setting up the controllers";
                                 line_keysAndValues := [] |} in
            let '(w, err) := setupControllers r (Manager r) w in
            (r, w, err)) in
        match startControllersErr with
        | Some err => (r, w, (zeroResult, Some err))
        | None => (r, w, (zeroResult, None))
        end
  end.

(** Successive calls of [Reconcile] on one controller, each with the world
    as it is found at the time of the call: the controller after the last,
    and what each call left and returned. *)
Fixpoint Reconciles (r : DynamicController) (calls : list (World * Request))
  : DynamicController * list (World * (Result * option error)) :=
  match calls with
  | [] => (r, [])
  | (w, req) :: rest =>
      let '(r, w, res) := Reconcile r w req in
      let '(r, results) := Reconciles r rest in
      (r, (w, res) :: results)
  end.

End crds.
End crds.

(** *** Vocabulary of the properties of crds *)

Section crdsVocabulary.

Context {Mgr World Duration : Type}.

(** The controllers set up in turn, each in the world the one before it
    left, whatever that one returned: the world after the last, and what
    each returned. *)
Fixpoint attempts (controllers : list (@crds.Controller Mgr World)) (mgr : Mgr) (w : World)
  : World * list (option crds.error) :=
  match controllers with
  | [] => (w, [])
  | c :: rest =>
      let '(w, err) := crds.SetupWithManager c mgr w in
      let '(w, errs) := attempts rest mgr w in
      (w, err :: errs)
  end.


(** The CRD is one the requirement asks for. *)
Definition provides (crd : crds.CustomResourceDefinition)
    (gvr : crds.GroupVersionResource) : Prop :=
  crds.Spec_Group crd = crds.Group gvr
  /\ crds.Status_AcceptedNames_Plural crd = crds.Resource gvr
  /\ In (crds.Version gvr) (List.map crds.crdv_Name (crds.Spec_Versions crd)).

End crdsVocabulary.

(** How often the start of the controllers has been logged. *)
Definition setupLines (log : list crds.logLine) : nat :=
  length (List.filter (fun line =>
            String.eqb (crds.line_msg line)
              "All required CustomResourceDefinitions are installed, setting up the controllers")
            log).

(** *** A sample cluster *)

(** A world is the plural names of the installed CRDs and the names of
    what has been registered with the manager. *)
Definition sampleWorld : Type := list string * list string.

Definition registering (name : string) (failure : option string)
  : @crds.Controller unit sampleWorld :=
  {| crds.SetupWithManager := fun _ w =>
       match failure with
       | None => ((fst w, snd w ++ [name]), None)
       | Some msg => (w, Some (crds.Foreign {| Error := msg |}))
       end |}.

Definition sampleRuntime : @crds.Runtime unit sampleWorld Z unit :=
  {| crds.CRDExists := fun w _ gvr => existsb (String.eqb (crds.Resource gvr)) (fst w);
     crds.client_Get := fun w _ name =>
       if existsb (String.eqb (crds.Name name)) (fst w) then None
       else Some (crds.Foreign {| Error := "not found" |});
     crds.IsNotFound := fun err =>
       match err with
       | crds.Foreign e => String.eqb (Error e) "not found"
       | crds.joinError _ => false
       end;
     crds.controller_New := fun _ _ _ w => (w, inl tt);
     crds.Watch := fun _ _ w => ((fst w, snd w ++ ["watch"]), None) |}.

Definition tcpIngresses : crds.GroupVersionResource :=
  {| crds.Group := "configuration.konghq.com";
     crds.Version := "v1beta1";
     crds.Resource := "tcpingresses" |}.

Definition tcpIngressCRD : crds.CustomResourceDefinition :=
  {| crds.Spec_Group := "configuration.konghq.com";
     crds.Spec_Versions := [ {| crds.crdv_Name := "v1alpha1" |};
                             {| crds.crdv_Name := "v1beta1" |} ];
     crds.Status_AcceptedNames_Plural := "tcpingresses" |}.

(** A dynamic controller of two controllers, the first of which fails. *)
Definition sampleDynamic : @crds.DynamicController unit sampleWorld Z :=
  {| crds.Log := [];
     crds.Manager := tt;
     crds.CacheSyncTimeout := 60%Z;
     crds.Controllers := [registering "UDPIngress" (Some "no kind is registered");
                          registering "TCPIngress" None];
     crds.RequiredCRDs := [tcpIngresses];
     crds.startControllersOnce := false |}.

Definition tcpIngressRequest : crds.Request :=
  {| crds.req_NamespacedName :=
       {| crds.Namespace := ""; crds.Name := "tcpingresses" |} |}.

Definition installed : sampleWorld := (["tcpingresses"], []).


(* ===================================================================== *)
(** * Properties                                                          *)
(* ===================================================================== *)

(** Goals that are settled by running the definitions. *)
Ltac by_evaluation := vm_compute; reflexivity.

(** Split a conjunction into its parts, and nothing else. *)
Ltac conjunctions := repeat match goal with |- _ /\ _ => split end.

(** ** Classification *)

Lemma derefTags_all_present (values acc : list string) :
  derefTags (List.map Some values) acc = Returned (acc ++ values).
Proof.
  revert acc. induction values as [|v values IH]; intros acc; simpl.
  - by rewrite app_nil_r.
  - rewrite IH. by rewrite <- app_assoc.
Qed.

Lemma derefTags_nil_entry (tags : list (option string)) (acc : list string) :
  In None tags ->
  derefTags tags acc =
    Panicked "runtime error: invalid memory address or nil pointer dereference".
Proof.
  revert acc. induction tags as [|t tags IH]; intros acc Hin; simpl in *.
  - contradiction.
  - destruct t as [x|]; simpl.
    + apply IH. destruct Hin as [Heq|Hin]; [discriminate | exact Hin].
    + reflexivity.
Qed.

Section ClassificationFacts.

Variable parse : rawResourceError.t -> ResourceError.t * option error.

(** On a record with a non-nil tag list the classifier gets as far as the
    dereferencing loop. *)
Lemma classifier_reaches_loop event typ fields tags :
  structuredRecord event typ fields ->
  tagList fields tags ->
  resourceErrorFromEntityAction parse event =
    let! actualTags := derefTags tags [] in
    Returned (parse (rawOf event actualTags)).
Proof.
  unfold structuredRecord, tagList, selectedSnapshot, resourceErrorFromEntityAction.
  intros Hrec Htags. rewrite Hrec. simpl. rewrite Htags. simpl. reflexivity.
Qed.

(** With all tags present, the result is the parser's, on the raw record
    made of the entity name, the tag values in order and the error text. *)
Lemma classifier_hands_raw_to_parser event typ fields values :
  structuredRecord event typ fields ->
  tagList fields (List.map Some values) ->
  resourceErrorFromEntityAction parse event = Returned (parse (rawOf event values)).
Proof.
  intros Hrec Htags.
  rewrite (classifier_reaches_loop _ _ _ _ Hrec Htags).
  by rewrite derefTags_all_present.
Qed.

(** A snapshot that is not a record (nil, a nil pointer, a scalar, a
    slice) is answered with an error, not with a panic. *)
Lemma classifier_rejects_non_record event :
  reflect.KindOf (reflect.Indirect (reflect.ValueOf (selectedSnapshot event)))
    <> reflect.Struct ->
  exists err,
    resourceErrorFromEntityAction parse event = Returned (ResourceError.zero, Some err).
Proof.
  unfold selectedSnapshot, resourceErrorFromEntityAction. intros Hk.
  destruct (reflect.KindOf _) eqn:E; try (eexists; reflexivity).
  contradiction.
Qed.

(** A record whose field "Tags" holds the zero value of its type (a nil
    slice, for one) is reported as lacking the field. *)
Lemma classifier_rejects_zero_tags event typ fields v :
  structuredRecord event typ fields ->
  reflect.lookupField "Tags" fields = Some v ->
  reflect.isZeroValue v = true ->
  exists err,
    resourceErrorFromEntityAction parse event = Returned (ResourceError.zero, Some err).
Proof.
  unfold structuredRecord, selectedSnapshot, resourceErrorFromEntityAction.
  intros Hrec Hf Hz. rewrite Hrec. simpl. rewrite Hf. simpl. rewrite Hz.
  eexists; reflexivity.
Qed.

End ClassificationFacts.

(** C1 (as stated) does not hold, whatever the parser of raw resource
    errors does: the raw record handed to it carries the entity's name,
    tags and error text but not its kind, so two failed events that differ
    in their kind only (a service and a route of the same name and tags)
    get the same resource error, and its kind cannot be the kind of both. *)
Lemma classification_kind_counterexample :
  ~ exists parse,
      classifiedAsClaimed parse failedServiceUpdate teamTags "schema violation"
      /\ classifiedAsClaimed parse failedRouteCreate teamTags "schema violation".
Proof.
  intros (parse & (re1 & H1 & _ & K1 & _) & (re2 & H2 & _ & K2 & _)).
  assert (E1 : resourceErrorFromEntityAction parse failedServiceUpdate
               = Returned (parse (rawOf failedServiceUpdate teamTags))).
  { eapply classifier_hands_raw_to_parser; reflexivity. }
  assert (E2 : resourceErrorFromEntityAction parse failedRouteCreate
               = Returned (parse (rawOf failedRouteCreate teamTags))).
  { eapply classifier_hands_raw_to_parser; reflexivity. }
  rewrite E1 in H1. rewrite E2 in H2.
  assert (Hraw : rawOf failedServiceUpdate teamTags = rawOf failedRouteCreate teamTags)
    by reflexivity.
  rewrite Hraw in H1. rewrite H1 in H2.
  injection H2 as Hre. subst re2.
  rewrite K1 in K2. discriminate K2.
Qed.

(** C1 (amended): for an event carrying an error whose selected snapshot
    (the new one if present, else the old one) is a structured record with
    a non-nil tag list of non-null strings, classification returns a
    resource error whose name is the event's entity name, whose tags are
    the tag values in order and whose problems map is exactly
    {"": the error text}. Nothing is said of its kind, which is not taken
    from the event. *)
Theorem classification_of_well_formed_event
    (event : EntityAction.t) (typ : string) (fields : list (string * Value))
    (values : list string) (e : opaqueError) :
  EntityAction.Error event = Some e ->
  structuredRecord event typ fields ->
  tagList fields (List.map Some values) ->
  exists re,
    resourceErrorFromEntityAction parseRawResourceError_spec event = Returned (re, None)
    /\ ResourceError.Name re = Entity.Name (EntityAction.Entity event)
    /\ ResourceError.Tags re = values
    /\ ResourceError.Problems re = {[ "" := Error e ]}.
Proof.
  intros He Hrec Htags.
  rewrite (classifier_hands_raw_to_parser _ _ _ _ _ Hrec Htags).
  unfold parseRawResourceError_spec, rawOf. rewrite He. simpl.
  eexists. repeat split; reflexivity.
Qed.

(** The failed update of the sample service is classified so. *)
Lemma classification_of_well_formed_event_witness :
  EntityAction.Error failedServiceUpdate = Some {| Error := "schema violation" |}
  /\ exists re,
       resourceErrorFromEntityAction parseRawResourceError_spec failedServiceUpdate
         = Returned (re, None)
       /\ ResourceError.Name re = "svc-1"
       /\ ResourceError.Tags re = ["team-a"; "team-a/svc-1"]
       /\ ResourceError.Problems re = {[ "" := "schema violation" ]}.
Proof.
  split; [reflexivity |].
  apply (classification_of_well_formed_event failedServiceUpdate "kong.Service"
           [("Host", strp "svc-1.example"); ("Name", strp "svc-1");
            ("Tags", VStringPtrs (Some (List.map Some teamTags)))]
           teamTags {| Error := "schema violation" |});
    reflexivity.
Defined.

(** C4 (the code departs from the specification): a nil entry in the tag
    list is not skipped. The loop dereferences every entry, so
    classification of such an event panics with a nil pointer dereference,
    whatever the parser. *)
Theorem classification_panics_on_nil_tag
    (parse : rawResourceError.t -> ResourceError.t * option error)
    (event : EntityAction.t) (typ : string) (fields : list (string * Value))
    (tags : list (option string)) :
  structuredRecord event typ fields ->
  tagList fields tags ->
  In None tags ->
  resourceErrorFromEntityAction parse event =
    Panicked "runtime error: invalid memory address or nil pointer dereference".
Proof.
  intros Hrec Htags Hnil.
  rewrite (classifier_reaches_loop _ _ _ _ _ Hrec Htags).
  by rewrite (derefTags_nil_entry _ _ Hnil).
Qed.

(** The sample service with a nil entry among its tags. *)
Lemma classification_panics_on_nil_tag_witness :
  In None [Some "team-a"; None; Some "team-a/svc-1"]
  /\ resourceErrorFromEntityAction parseRawResourceError_spec failedServiceNilTag =
       Panicked "runtime error: invalid memory address or nil pointer dereference".
Proof.
  split; [right; left; reflexivity |].
  apply (classification_panics_on_nil_tag parseRawResourceError_spec
           failedServiceNilTag "kong.Service"
           [("Host", strp "svc-1.example"); ("Name", strp "svc-1");
            ("Tags", VStringPtrs (Some [Some "team-a"; None; Some "team-a/svc-1"]))]
           [Some "team-a"; None; Some "team-a/svc-1"]);
    [reflexivity | reflexivity | right; left; reflexivity].
Defined.

(** ** The event consumer *)

Section ConsumerFacts.

Context {Client DumpConfig Version : Type}.
Variable parse : rawResourceError.t -> ResourceError.t * option error.

Local Abbreviation consumer := (@DBMode.consumer Client DumpConfig Version).
Local Abbreviation runState := (@DBMode.runState Client DumpConfig Version).

(** An event without error becomes an entity diff at the end of the
    buffer; the strategy is left alone. *)
Lemma handleEvent_applied (c : consumer) event :
  EntityAction.Error event = None ->
  exists c',
    DBMode.handleEvent parse c event = Returned c'
    /\ DBMode.c_s c' = DBMode.c_s c
    /\ DBMode.c_diff c' =
         ConfigDiff.mk (ConfigDiff.Hash (DBMode.c_diff c))
           (ConfigDiff.Entities (DBMode.c_diff c)
              ++ [NewEntityDiff (EntityAction.Diff event) (EntityAction.Action event)]).
Proof.
  intros He. unfold DBMode.handleEvent. rewrite He.
  eexists. repeat split; reflexivity.
Qed.

(** A failed event that is classified is appended to the strategy's
    resource errors. *)
Lemma handleEvent_classified (c : consumer) event e parsed :
  EntityAction.Error event = Some e ->
  resourceErrorFromEntityAction parse event = Returned (parsed, None) ->
  exists c',
    DBMode.handleEvent parse c event = Returned c'
    /\ DBMode.c_s c' =
         DBMode.set_resourceErrors (DBMode.c_s c)
           (DBMode.resourceErrors (DBMode.c_s c) ++ [parsed])
    /\ DBMode.c_diff c' = DBMode.c_diff c.
Proof.
  intros He Hr. unfold DBMode.handleEvent. rewrite He, Hr. simpl.
  eexists. repeat split; reflexivity.
Qed.

(** A failed event whose classification returns an error is logged and
    dropped: strategy and buffer stay as they are, the consumer goes on. *)
Lemma handleEvent_unclassified (c : consumer) event e re err :
  EntityAction.Error event = Some e ->
  resourceErrorFromEntityAction parse event = Returned (re, Some err) ->
  DBMode.handleEvent parse c event =
    Returned {| DBMode.c_s := DBMode.c_s c;
                DBMode.c_diff := DBMode.c_diff c;
                DBMode.c_log :=
                  (DBMode.c_log c
                     ++ [LogError (Opaque e) "failed updating gateway entity"
                                  (DBMode.eventKeysAndValues event)])
                     ++ [LogError err "could not parse entity update error" []] |}.
Proof.
  intros He Hr. unfold DBMode.handleEvent. rewrite He, Hr. reflexivity.
Qed.

(** A panic of the classifier is a panic of the consumer. *)
Lemma handleEvent_panics (c : consumer) event e msg :
  EntityAction.Error event = Some e ->
  resourceErrorFromEntityAction parse event = Panicked msg ->
  DBMode.handleEvent parse c event = Panicked msg.
Proof.
  intros He Hr. unfold DBMode.handleEvent. rewrite He, Hr. reflexivity.
Qed.

(** What the consumer has collected once it has handled [events]. *)
Lemma handleAll_collects events : forall (c c' : consumer),
  DBMode.handleAll parse c events = Returned c' ->
  DBMode.resourceErrors (DBMode.c_s c') =
    DBMode.resourceErrors (DBMode.c_s c) ++ classifiedErrors parse events
  /\ ConfigDiff.Entities (DBMode.c_diff c') =
       ConfigDiff.Entities (DBMode.c_diff c) ++ errorFreeDiffs events
  /\ ConfigDiff.Hash (DBMode.c_diff c') = ConfigDiff.Hash (DBMode.c_diff c)
  /\ DBMode.diagnostic (DBMode.c_s c') = DBMode.diagnostic (DBMode.c_s c)
  /\ DBMode.isKonnect (DBMode.c_s c') = DBMode.isKonnect (DBMode.c_s c).
Proof.
  induction events as [|event events IH]; intros c c' H; simpl in H.
  - injection H as <-. unfold classifiedErrors, errorFreeDiffs. simpl.
    by rewrite !app_nil_r.
  - destruct (DBMode.handleEvent parse c event) as [c1|msg] eqn:Hev; simpl in H;
      [|discriminate].
    destruct (IH _ _ H) as (Hre & Hdf & Hh & Hd & Hk).
    unfold classifiedErrors, errorFreeDiffs in *. simpl.
    unfold DBMode.handleEvent in Hev.
    destruct (EntityAction.Error event) as [e|] eqn:He.
    + destruct (resourceErrorFromEntityAction parse event) as [[parsed [err|]]|m] eqn:Hr;
        simpl in Hev; try discriminate; injection Hev as <-; simpl in *.
      * by rewrite Hre, Hdf, Hh, Hd, Hk.
      * rewrite Hre, Hdf, Hh, Hd, Hk. by rewrite <- app_assoc.
    + injection Hev as <-. simpl in *.
      rewrite Hre, Hdf, Hh, Hd, Hk. by rewrite <- app_assoc.
Qed.

End ConsumerFacts.

(** C5 (the code departs from the specification): classification is not
    total. For a failed event whose snapshot is a record without a field
    "Tags", the lookup by name yields the zero Value and the zero test on
    it panics, so the classifier does not return its "lacks 'Tags' field"
    error; the panic is the consumer's, which neither logs nor drops the
    event: the process is gone and the events still to be sent are never
    consumed. *)
Theorem classification_panics_without_tags_field
    {Client DumpConfig Version : Type}
    (parse : rawResourceError.t -> ResourceError.t * option error)
    (event : EntityAction.t) (typ : string) (fields : list (string * Value))
    (e : opaqueError) :
  EntityAction.Error event = Some e ->
  structuredRecord event typ fields ->
  reflect.lookupField "Tags" fields = None ->
  let msg := "reflect: call of reflect.Value.IsZero on zero Value" in
  resourceErrorFromEntityAction parse event = Panicked msg
  /\ (forall c : @DBMode.consumer Client DumpConfig Version,
        DBMode.handleEvent parse c event = Panicked msg)
  /\ (forall cap errs diag hash (c : @DBMode.consumer Client DumpConfig Version)
             rest schedule Diffs,
        exists st,
          DBMode.run parse cap errs diag hash (DBMode.Handoff :: schedule)
            {| DBMode.r_update := DBMode.InSolve; DBMode.r_consumer := DBMode.InSelect;
               DBMode.r_c := c; DBMode.r_locked := true; DBMode.r_cancelled := false;
               DBMode.r_unsent := event :: rest; DBMode.r_events := [];
               DBMode.r_Diffs := Diffs |} = Some st
          /\ DBMode.r_consumer st = DBMode.Crashed msg
          /\ DBMode.r_unsent st = rest
          /\ DBMode.r_c st = c
          /\ DBMode.resultOf (Some st) = DBMode.ProcessCrashed msg).
Proof.
  intros He Hrec Hno msg.
  assert (Hp : resourceErrorFromEntityAction parse event = Panicked msg).
  { unfold structuredRecord, selectedSnapshot in Hrec.
    unfold resourceErrorFromEntityAction. rewrite Hrec. simpl. rewrite Hno.
    reflexivity. }
  assert (Hh : forall c : @DBMode.consumer Client DumpConfig Version,
             DBMode.handleEvent parse c event = Panicked msg).
  { intros c. unfold DBMode.handleEvent. rewrite He, Hp. reflexivity. }
  split; [exact Hp | split; [exact Hh |]].
  intros cap errs diag hash c rest schedule Diffs.
  eexists. split.
  - cbn [DBMode.run DBMode.alive DBMode.r_consumer negb DBMode.step
         DBMode.r_update DBMode.r_unsent DBMode.r_events].
    unfold DBMode.consume. cbn [DBMode.r_c]. rewrite Hh.
    destruct schedule; reflexivity.
  - repeat split; reflexivity.
Qed.

(** The failed creation of a license: classifier and consumer panic. *)
Lemma classification_panics_without_tags_field_witness :
  EntityAction.Error failedLicenseCreate = Some {| Error := "invalid license" |}
  /\ resourceErrorFromEntityAction parseRawResourceError_spec failedLicenseCreate
       = Panicked "reflect: call of reflect.Value.IsZero on zero Value"
  /\ DBMode.handleEvent parseRawResourceError_spec (freshConsumer gatewayStrategy "abc123")
       failedLicenseCreate
       = Panicked "reflect: call of reflect.Value.IsZero on zero Value".
Proof.
  split; [reflexivity |].
  destruct (@classification_panics_without_tags_field unit unit unit
              parseRawResourceError_spec failedLicenseCreate "kong.License"
              [("ID", strp "0b2f"); ("Payload", strp "...")]
              {| Error := "invalid license" |}
              eq_refl eq_refl eq_refl) as (H1 & H2 & _).
  split; [exact H1 | exact (H2 _)].
Defined.

(** ** Runs of one call *)

Section RunFacts.

Context {Client DumpConfig Version : Type}.
Variable parse : rawResourceError.t -> ResourceError.t * option error.
Variable cap : nat.
Variable errs : option (list error).
Variable diag : option ClientDiagnostic.
Variable hash : string.

Local Abbreviation runState := (@DBMode.runState Client DumpConfig Version).
Local Abbreviation run := (@DBMode.run Client DumpConfig Version parse cap errs diag hash).
Local Abbreviation step := (@DBMode.step Client DumpConfig Version parse cap errs diag hash).

Lemma run_crashed schedule (st : runState) :
  DBMode.alive st = false -> run schedule st = Some st.
Proof.
  intros Hdead. destruct schedule as [|a rest]; simpl; [reflexivity |].
  by rewrite Hdead.
Qed.

Lemma run_app (a b : list DBMode.action) : forall st : runState,
  run (a ++ b) st = match run a st with
                    | Some st' => run b st'
                    | None => None
                    end.
Proof.
  induction a as [|x a IH]; intros st; simpl; [reflexivity |].
  destruct (DBMode.alive st) eqn:Halive; simpl.
  - destruct (step x st) as [st'|]; [apply IH | reflexivity].
  - symmetry. by apply run_crashed.
Qed.

(** A property kept by every step is kept by every schedule. *)
Lemma run_invariant (I : runState -> Prop) :
  (forall a st st', I st -> step a st = Some st' -> I st') ->
  forall schedule st st', I st -> run schedule st = Some st' -> I st'.
Proof.
  intros Hstep. induction schedule as [|a rest IH]; intros st st' HI Hrun; simpl in Hrun.
  - by injection Hrun as <-.
  - destruct (DBMode.alive st); simpl in Hrun.
    + destruct (step a st) as [st1|] eqn:Hs; [|discriminate].
      eapply IH; [|exact Hrun]. eapply Hstep; eauto.
    + by injection Hrun as <-.
Qed.

(** The consumer at its select takes the events as [Solve] sends them. *)
Lemma run_handoffs events : forall c c' locked cancelled Diffs,
  DBMode.handleAll parse c events = Returned c' ->
  run (List.map (fun _ => DBMode.Handoff) events)
      {| DBMode.r_update := DBMode.InSolve; DBMode.r_consumer := DBMode.InSelect;
         DBMode.r_c := c; DBMode.r_locked := locked; DBMode.r_cancelled := cancelled;
         DBMode.r_unsent := events; DBMode.r_events := []; DBMode.r_Diffs := Diffs |}
  = Some {| DBMode.r_update := DBMode.InSolve; DBMode.r_consumer := DBMode.InSelect;
            DBMode.r_c := c'; DBMode.r_locked := locked; DBMode.r_cancelled := cancelled;
            DBMode.r_unsent := []; DBMode.r_events := []; DBMode.r_Diffs := Diffs |}.
Proof.
  induction events as [|event events IH]; intros c c' locked cancelled Diffs H; simpl in H.
  - by injection H as <-.
  - destruct (DBMode.handleEvent parse c event) as [c1|msg] eqn:Hev; simpl in H;
      [|discriminate].
    cbn [List.map DBMode.run DBMode.alive DBMode.r_consumer negb DBMode.step
         DBMode.r_update DBMode.r_unsent DBMode.r_events].
    unfold DBMode.consume. cbn [DBMode.r_c]. rewrite Hev.
    cbn [DBMode.r_update DBMode.r_locked DBMode.r_cancelled DBMode.r_Diffs].
    by apply IH.
Qed.

(** The drained schedule can be run whenever no event makes the consumer
    panic, for every capacity of the channel; [Update] then returns the
    aggregate of what the consumer collected, after the flush. *)
Lemma run_drained (s : DBMode.UpdateStrategyDBMode) events log Diffs c' :
  DBMode.handleAll parse
    {| DBMode.c_s := s; DBMode.c_diff := ConfigDiff.mk hash []; DBMode.c_log := log |}
    events = Returned c' ->
  run (DBMode.drained events) (DBMode.spawn s hash events log Diffs)
  = Some {| DBMode.r_update := DBMode.HasReturned (DBMode.aggregate (DBMode.c_s c') errs);
            DBMode.r_consumer := DBMode.Terminated;
            DBMode.r_c := c'; DBMode.r_locked := false; DBMode.r_cancelled := true;
            DBMode.r_unsent := []; DBMode.r_events := [];
            DBMode.r_Diffs := DBMode.flushOnDone diag c' Diffs |}.
Proof.
  intros H. unfold DBMode.drained, DBMode.spawn.
  cbn [DBMode.run DBMode.alive DBMode.r_consumer negb DBMode.step DBMode.r_locked
       DBMode.r_update DBMode.r_c DBMode.c_s DBMode.c_log DBMode.r_cancelled
       DBMode.r_unsent DBMode.r_events DBMode.r_Diffs].
  rewrite run_app. rewrite (run_handoffs _ _ _ _ _ _ H). reflexivity.
Qed.

End RunFacts.

(** ** Aggregation *)

Section UpdateFacts.

Context {Client DumpConfig Version Content RawState KongState Syncer : Type}.
Variable env : @DBMode.Collaborators Client DumpConfig Version Content RawState KongState Syncer.
Variable parse : rawResourceError.t -> ResourceError.t * option error.

Lemma aggregate_reads_resourceErrors (s1 s2 : @DBMode.UpdateStrategyDBMode Client DumpConfig Version)
    (errs : option (list error)) :
  DBMode.resourceErrors s1 = DBMode.resourceErrors s2 ->
  DBMode.aggregate s1 errs = DBMode.aggregate s2 errs.
Proof. intros H. unfold DBMode.aggregate. by rewrite H. Qed.

(** A call that gets as far as the syncer and whose consumer is drained
    returns the aggregate of what the consumer collected. *)
Lemma Update_drained s (targetContent : ContentWithHash Content) syncer events errs c :
  DBMode.prepare env s targetContent = Ok syncer ->
  DBMode.Solve env syncer (DBMode.concurrency s) false false = (events, errs) ->
  DBMode.handleAll parse
    {| DBMode.c_s := s; DBMode.c_diff := ConfigDiff.mk (Hash targetContent) [];
       DBMode.c_log := [] |} events = Returned c ->
  DBMode.Update env parse s targetContent (DBMode.drained events)
  = DBMode.Returns (DBMode.aggregate c.(DBMode.c_s) errs).
Proof.
  intros Hprep Hsolve Hall. unfold DBMode.Update, DBMode.execute.
  rewrite Hprep, Hsolve. by rewrite (run_drained _ _ _ _ _ _ _ _ _ _ Hall).
Qed.

(** C3: once the consumer is drained, [Update] returns by a trichotomy over
    the global errors of [Solve] and the accumulated resource errors: none
    of either is success (nil); no global but some resource errors is an
    UpdateError with the resource list and a synthesized cause; some global
    errors is an UpdateError with the resource list and the global errors.
    [Solve] reports the absence of global errors by a nil slice, which is
    what [Update] tests. *)
Theorem Update_aggregation s (targetContent : ContentWithHash Content) syncer events errs c :
  DBMode.prepare env s targetContent = Ok syncer ->
  DBMode.Solve env syncer (DBMode.concurrency s) false false = (events, errs) ->
  DBMode.handleAll parse
    {| DBMode.c_s := s; DBMode.c_diff := ConfigDiff.mk (Hash targetContent) [];
       DBMode.c_log := [] |} events = Returned c ->
  errs <> Some [] ->
  let accumulated := DBMode.resourceErrors s ++ classifiedErrors parse events in
  DBMode.resourceErrors c.(DBMode.c_s) = accumulated
  /\ DBMode.Update env parse s targetContent (DBMode.drained events)
     = DBMode.Returns
         match elements errs, accumulated with
         | [], [] => None
         | [], _ :: _ =>
             Some (UpdateError accumulated
                     (errorString "go-database-reconciler found resource errors"))
         | _ :: _, _ => Some (UpdateError accumulated (ErrArray (elements errs)))
         end.
Proof.
  intros Hprep Hsolve Hall Hnil accumulated.
  destruct (handleAll_collects _ _ _ _ Hall) as (Hre & _). simpl in Hre.
  split; [exact Hre |].
  rewrite (Update_drained _ _ _ _ _ _ Hprep Hsolve Hall).
  unfold DBMode.aggregate, resourceErrorsToResourceFailures, NewUpdateError.
  rewrite Hre. fold accumulated.
  destruct errs as [[|g gs]|]; simpl.
  - contradiction.
  - reflexivity.
  - destruct accumulated; reflexivity.
Qed.

End UpdateFacts.

(** One failed event and no global error: the synthesized cause. *)
Lemma Update_aggregation_witness :
  DBMode.Update (collaborators [failedServiceUpdate] None 0) parseRawResourceError_spec
    gatewayStrategy (target "abc123") (DBMode.drained [failedServiceUpdate])
  = DBMode.Returns
      (Some (UpdateError [sampleResourceError]
               (errorString "go-database-reconciler found resource errors"))).
Proof.
  exact (proj2 (Update_aggregation (collaborators [failedServiceUpdate] None 0)
           parseRawResourceError_spec gatewayStrategy (target "abc123") tt
           [failedServiceUpdate] None
           {| DBMode.c_s := DBMode.set_resourceErrors gatewayStrategy [sampleResourceError];
              DBMode.c_diff := ConfigDiff.mk "abc123" [];
              DBMode.c_log := [LogError (Opaque {| Error := "schema violation" |})
                                        "failed updating gateway entity"
                                        (DBMode.eventKeysAndValues failedServiceUpdate)] |}
           eq_refl eq_refl eq_refl ltac:(discriminate))).
Defined.


(** ** Diagnostics *)

Section InvariantFacts.

Context {Client DumpConfig Version : Type}.
Variable parse : rawResourceError.t -> ResourceError.t * option error.
Variable cap : nat.
Variable errs : option (list error).
Variable diag : option ClientDiagnostic.
Variable hash : string.

Local Abbreviation runState := (@DBMode.runState Client DumpConfig Version).
Local Abbreviation step := (@DBMode.step Client DumpConfig Version parse cap errs diag hash).

Lemma handleEvent_keeps_hash (c c' : @DBMode.consumer Client DumpConfig Version) event :
  DBMode.handleEvent parse c event = Returned c' ->
  ConfigDiff.Hash (DBMode.c_diff c') = ConfigDiff.Hash (DBMode.c_diff c).
Proof.
  unfold DBMode.handleEvent. intros H.
  destruct (EntityAction.Error event).
  - destruct (resourceErrorFromEntityAction parse event) as [[parsed [err|]]|m];
      simpl in H; try discriminate; by injection H as <-.
  - by injection H as <-.
Qed.

Lemma consume_flushDiscipline (st : runState) event unsent events :
  DBMode.r_consumer st = DBMode.InSelect ->
  flushDiscipline diag hash st ->
  flushDiscipline diag hash (DBMode.consume parse st event unsent events).
Proof.
  intros Hsel [Hh Hd]. rewrite Hsel in Hd. unfold DBMode.consume.
  destruct (DBMode.handleEvent parse (DBMode.r_c st) event) as [c|msg] eqn:Hev.
  - split; simpl; [|exact Hd]. by rewrite (handleEvent_keeps_hash _ _ _ Hev).
  - split; simpl; [exact Hh | exact Hd].
Qed.

Lemma step_flushDiscipline a (st st' : runState) :
  flushDiscipline diag hash st -> step a st = Some st' -> flushDiscipline diag hash st'.
Proof.
  intros HI Hs. destruct a; unfold DBMode.step in Hs.
  - (* ConsumerLock *)
    destruct HI as [Hh Hd].
    destruct (DBMode.r_consumer st) eqn:Hc; try discriminate.
    destruct (DBMode.r_locked st); try discriminate.
    injection Hs as <-. split; simpl; [reflexivity | exact Hd].
  - (* Send *)
    destruct (DBMode.r_update st); try discriminate.
    destruct (DBMode.r_unsent st); try discriminate.
    destruct (Nat.ltb _ _); try discriminate.
    injection Hs as <-. exact HI.
  - (* Handoff *)
    destruct (DBMode.r_update st); try discriminate.
    destruct (DBMode.r_unsent st); try discriminate.
    destruct (DBMode.r_consumer st) eqn:Hc; try discriminate.
    destruct (DBMode.r_events st); try discriminate.
    injection Hs as <-. by apply consume_flushDiscipline.
  - (* Receive *)
    destruct (DBMode.r_consumer st) eqn:Hc; try discriminate.
    destruct (DBMode.r_events st); try discriminate.
    injection Hs as <-. by apply consume_flushDiscipline.
  - (* SolveReturn *)
    destruct (DBMode.r_update st); try discriminate.
    destruct (DBMode.r_unsent st); try discriminate.
    injection Hs as <-. exact HI.
  - (* CancelCtx *)
    destruct (DBMode.r_update st); try discriminate.
    injection Hs as <-. destruct HI as [Hh Hd]. split; simpl; [exact Hh |].
    destruct (DBMode.r_consumer st); try exact Hd.
    destruct Hd as [_ Hd]. by split.
  - (* ConsumerDone *)
    destruct HI as [Hh Hd].
    destruct (DBMode.r_consumer st) eqn:Hc; try discriminate.
    destruct (DBMode.r_cancelled st); try discriminate.
    injection Hs as <-. split; simpl; [exact Hh |]. split; [reflexivity |].
    by rewrite Hd.
  - (* UpdateLock *)
    destruct (DBMode.r_update st); try discriminate.
    destruct (DBMode.r_locked st); try discriminate.
    injection Hs as <-. exact HI.
  - (* UpdateAggregate *)
    destruct (DBMode.r_update st); try discriminate.
    injection Hs as <-. exact HI.
Qed.

Lemma consume_keeps_update (st : runState) event unsent events :
  DBMode.r_update (DBMode.consume parse st event unsent events) = DBMode.r_update st.
Proof.
  unfold DBMode.consume. by destruct (DBMode.handleEvent parse (DBMode.r_c st) event).
Qed.

Lemma step_returnsAggregate a (st st' : runState) :
  returnsAggregate errs st -> step a st = Some st' -> returnsAggregate errs st'.
Proof.
  unfold returnsAggregate. intros HI Hs err Hret.
  destruct a; unfold DBMode.step in Hs;
    repeat match type of Hs with
           | match ?x with _ => _ end = Some _ => destruct x eqn:?; try discriminate
           | (if ?x then _ else _) = Some _ => destruct x eqn:?; try discriminate
           end;
    (injection Hs as Hs; subst st');
    try rewrite consume_keeps_update in Hret;
    simpl in Hret; try (by eapply HI; congruence); try discriminate.
  injection Hret as <-. eexists; reflexivity.
Qed.

End InvariantFacts.

Section DiagnosticsFacts.

Context {Client DumpConfig Version Content RawState KongState Syncer : Type}.
Variable env : @DBMode.Collaborators Client DumpConfig Version Content RawState KongState Syncer.
Variable parse : rawResourceError.t -> ResourceError.t * option error.

Lemma execute_flushDiscipline s (targetContent : ContentWithHash Content) syncer schedule st :
  DBMode.execute env parse s targetContent syncer schedule = Some st ->
  flushDiscipline (DBMode.diagnostic s) (Hash targetContent) st.
Proof.
  unfold DBMode.execute.
  destruct (DBMode.Solve env syncer (DBMode.concurrency s) false false) as [events errs].
  apply run_invariant.
  - intros a st0 st1. apply step_flushDiscipline.
  - split; reflexivity.
Qed.

(** C6 (amended): in every run of the diff-apply strategy, under every
    schedule, the diagnostics channel is sent at most one record; it is
    sent by the consumer when it returns on cancellation, only when the
    strategy was given a diagnostics sink, and the record is the consumer's
    buffer under the hash of the target. Whether the strategy is the
    Konnect variant plays no part. *)
Theorem diagnostics_flushed_at_most_once
    s (targetContent : ContentWithHash Content) syncer schedule st :
  DBMode.execute env parse s targetContent syncer schedule = Some st ->
  (length (DBMode.r_Diffs st) <= 1)%nat
  /\ (DBMode.r_Diffs st <> [] ->
        DBMode.diagnostic s <> None
        /\ DBMode.r_cancelled st = true
        /\ DBMode.r_consumer st = DBMode.Terminated
        /\ DBMode.r_Diffs st = [DBMode.c_diff (DBMode.r_c st)]
        /\ ConfigDiff.Hash (DBMode.c_diff (DBMode.r_c st)) = Hash targetContent)
  /\ (DBMode.r_consumer st = DBMode.Terminated -> DBMode.diagnostic s <> None ->
        DBMode.r_Diffs st = [DBMode.c_diff (DBMode.r_c st)]).
Proof.
  intros Hex. destruct (execute_flushDiscipline _ _ _ _ _ Hex) as [Hh Hd].
  destruct (DBMode.r_consumer st) eqn:Hc;
    try (rewrite Hd; split; [simpl; lia | split; [congruence | discriminate]]).
  destruct Hd as [Hcan Hd]. rewrite Hd. unfold DBMode.flushOnDone.
  destruct (DBMode.diagnostic s) as [d|]; simpl.
  - split; [lia |]. split; [|reflexivity]. intros _. repeat split; try exact Hcan.
    + discriminate.
    + exact Hh.
  - split; [lia |]. split; [congruence | congruence].
Qed.

End DiagnosticsFacts.

(** A drained run with one applied event flushes one record. *)
Lemma diagnostics_flushed_at_most_once_witness :
  exists st,
    DBMode.execute (collaborators [appliedRouteCreate] None 0) parseRawResourceError_spec
      gatewayStrategy (target "abc123") tt (DBMode.drained [appliedRouteCreate]) = Some st
    /\ (length (DBMode.r_Diffs st) <= 1)%nat
    /\ DBMode.r_Diffs st = [ConfigDiff.mk "abc123" [NewEntityDiff "+ route r-1" "create"]].
Proof.
  eexists. split; [by_evaluation |].
  split; [| by_evaluation].
  refine (proj1 (diagnostics_flushed_at_most_once
                   (collaborators [appliedRouteCreate] None 0) parseRawResourceError_spec
                   gatewayStrategy (target "abc123") tt
                   (DBMode.drained [appliedRouteCreate]) _ _)).
  by_evaluation.
Defined.

(** C6 (as stated) does not hold: the Konnect constructor passes the
    diagnostics sink it is given on to the strategy, and the consumer looks
    at the sink only, so a Konnect strategy built with a sink flushes its
    diff record like any other. *)
Lemma konnect_strategy_flushes_diagnostics :
  DBMode.isKonnect konnectStrategy = true
  /\ exists st,
       DBMode.execute (collaborators [appliedRouteCreate] None 0) parseRawResourceError_spec
         konnectStrategy (target "abc123") tt (DBMode.drained [appliedRouteCreate]) = Some st
       /\ DBMode.r_Diffs st
          = [ConfigDiff.mk "abc123" [NewEntityDiff "+ route r-1" "create"]].
Proof.
  split; [reflexivity |]. eexists. conjunctions; by_evaluation.
Qed.

(** ** The join of consumer and caller *)

(** What the consumer has collected when the drained schedule has run:
    the diagnostics buffer holds exactly the error-free events in arrival
    order and, when a sink is there, is what was flushed; the resource
    errors are those of the strategy followed by exactly the classified
    error events. *)
Lemma drained_run_collects
    {Client DumpConfig Version : Type}
    (parse : rawResourceError.t -> ResourceError.t * option error)
    (cap : nat) (errs : option (list error)) (d : ClientDiagnostic) (hash : string)
    (s : @DBMode.UpdateStrategyDBMode Client DumpConfig Version) events c :
  DBMode.handleAll parse
    {| DBMode.c_s := s; DBMode.c_diff := ConfigDiff.mk hash []; DBMode.c_log := [] |}
    events = Returned c ->
  exists st,
    DBMode.run parse cap errs (Some d) hash (DBMode.drained events)
      (DBMode.spawn s hash events [] []) = Some st
    /\ DBMode.r_consumer st = DBMode.Terminated
    /\ DBMode.r_Diffs st = [ConfigDiff.mk hash (errorFreeDiffs events)]
    /\ DBMode.resourceErrors (DBMode.c_s (DBMode.r_c st))
       = DBMode.resourceErrors s ++ classifiedErrors parse events
    /\ DBMode.r_update st
       = DBMode.HasReturned (DBMode.aggregate (DBMode.c_s (DBMode.r_c st)) errs).
Proof.
  intros Hall. eexists. split; [exact (run_drained _ _ _ _ _ _ _ _ _ _ Hall) |].
  destruct (handleAll_collects _ _ _ _ Hall) as (Hre & Hdf & Hh & _).
  simpl in Hre, Hdf, Hh. conjunctions; try reflexivity; try exact Hre.
  simpl. destruct (DBMode.c_diff c) as [h entities]. simpl in *. by subst.
Qed.

Section JoinFacts.

Context {Client DumpConfig Version Content RawState KongState Syncer : Type}.
Variable env : @DBMode.Collaborators Client DumpConfig Version Content RawState KongState Syncer.
Variable parse : rawResourceError.t -> ResourceError.t * option error.

(** C7 (the code departs from the specification): the consumer takes the
    lock inside its own goroutine, so nothing orders its start before
    [Update] asks for the lock. When [Solve] has no event to send, it can
    return, the context be cancelled and [Update] take the free lock, read
    the resource errors and return while the consumer has not run at all;
    the diagnostics record is flushed only afterwards. On a buffered result
    channel, moreover, the select can take the cancellation while an event
    sits in the buffer: [Update] then returns without that event having
    been handled. *)
Theorem Update_may_return_before_the_consumer_is_done
    s (targetContent : ContentWithHash Content) syncer d errs :
  DBMode.diagnostic s = Some d ->
  (DBMode.Solve env syncer (DBMode.concurrency s) false false = ([], errs) ->
   exists st st',
     DBMode.execute env parse s targetContent syncer
       [DBMode.SolveReturn; DBMode.CancelCtx; DBMode.UpdateLock; DBMode.UpdateAggregate]
     = Some st
     /\ DBMode.resultOf (Some st) = DBMode.Returns (DBMode.aggregate s errs)
     /\ DBMode.r_consumer st = DBMode.Spawned
     /\ DBMode.r_Diffs st = []
     /\ DBMode.execute env parse s targetContent syncer
          [DBMode.SolveReturn; DBMode.CancelCtx; DBMode.UpdateLock; DBMode.UpdateAggregate;
           DBMode.ConsumerLock; DBMode.ConsumerDone]
        = Some st'
     /\ DBMode.r_consumer st' = DBMode.Terminated
     /\ DBMode.r_Diffs st' = [ConfigDiff.mk (Hash targetContent) []])
  /\ (forall event,
        DBMode.Solve env syncer (DBMode.concurrency s) false false = ([event], errs) ->
        (0 < DBMode.resultChanCap env syncer)%nat ->
        exists st,
          DBMode.execute env parse s targetContent syncer
            [DBMode.ConsumerLock; DBMode.Send; DBMode.SolveReturn; DBMode.CancelCtx;
             DBMode.ConsumerDone; DBMode.UpdateLock; DBMode.UpdateAggregate]
          = Some st
          /\ DBMode.resultOf (Some st) = DBMode.Returns (DBMode.aggregate s errs)
          /\ DBMode.r_consumer st = DBMode.Terminated
          /\ DBMode.r_events st = [event]
          /\ DBMode.r_c st
             = {| DBMode.c_s := s; DBMode.c_diff := ConfigDiff.mk (Hash targetContent) [];
                  DBMode.c_log := [] |}).
Proof.
  intros Hd. split.
  - intros Hsolve. unfold DBMode.execute. rewrite Hsolve, Hd.
    do 2 eexists. conjunctions; by_evaluation.
  - intros event Hsolve Hcap. unfold DBMode.execute. rewrite Hsolve, Hd.
    destruct (DBMode.resultChanCap env syncer) as [|cap]; [lia |].
    eexists. conjunctions; by_evaluation.
Qed.

End JoinFacts.

(** Both schedules on sample collaborators: an empty diff, and one failed
    event on a channel of capacity one whose error is missing from what
    [Update] returns. *)
Lemma Update_may_return_before_the_consumer_is_done_witness :
  DBMode.diagnostic gatewayStrategy = Some mkClientDiagnostic
  /\ DBMode.Update (collaborators [] None 0) parseRawResourceError_spec gatewayStrategy
       (target "abc123")
       [DBMode.SolveReturn; DBMode.CancelCtx; DBMode.UpdateLock; DBMode.UpdateAggregate]
     = DBMode.Returns None
  /\ (exists st,
        DBMode.execute (collaborators [] None 0) parseRawResourceError_spec gatewayStrategy
          (target "abc123") tt
          [DBMode.SolveReturn; DBMode.CancelCtx; DBMode.UpdateLock; DBMode.UpdateAggregate]
        = Some st
        /\ DBMode.r_consumer st = DBMode.Spawned
        /\ DBMode.r_Diffs st = [])
  /\ (exists st,
        DBMode.execute
          (collaborators [failedServiceUpdate]
                         (Some [Opaque {| Error := "1 errors occurred" |}]) 1)
          parseRawResourceError_spec gatewayStrategy (target "abc123") tt
          [DBMode.ConsumerLock; DBMode.Send; DBMode.SolveReturn; DBMode.CancelCtx;
           DBMode.ConsumerDone; DBMode.UpdateLock; DBMode.UpdateAggregate]
        = Some st
        /\ DBMode.resultOf (Some st)
           = DBMode.Returns
               (Some (UpdateError [] (ErrArray [Opaque {| Error := "1 errors occurred" |}])))
        /\ DBMode.r_events st = [failedServiceUpdate]).
Proof.
  split; [reflexivity |].
  destruct (Update_may_return_before_the_consumer_is_done
              (collaborators [] None 0) parseRawResourceError_spec gatewayStrategy
              (target "abc123") tt mkClientDiagnostic None eq_refl)
    as [Hfirst _].
  destruct (Hfirst eq_refl) as (st & st' & Hex & Hres & Hcons & Hdiffs & _).
  destruct (Update_may_return_before_the_consumer_is_done
              (collaborators [failedServiceUpdate]
                             (Some [Opaque {| Error := "1 errors occurred" |}]) 1)
              parseRawResourceError_spec gatewayStrategy
              (target "abc123") tt mkClientDiagnostic
              (Some [Opaque {| Error := "1 errors occurred" |}]) eq_refl)
    as [_ Hsecond].
  destruct (Hsecond failedServiceUpdate eq_refl ltac:(simpl; lia))
    as (st2 & Hex2 & Hres2 & _ & Hev2 & _).
  conjunctions.
  - unfold DBMode.Update. change (DBMode.prepare _ _ _) with (@Ok unit tt).
    cbv beta iota. rewrite Hex. exact Hres.
  - exists st. by conjunctions.
  - exists st2. by conjunctions.
Defined.

(** ** Successive calls *)

Section CallsFacts.

Context {Client DumpConfig Version Content RawState KongState Syncer : Type}.
Variables env1 env2 :
  @DBMode.Collaborators Client DumpConfig Version Content RawState KongState Syncer.
Variable parse : rawResourceError.t -> ResourceError.t * option error.

(** C8 (amended): [Update] does not reset the resource-error list, and
    within a call the consumer only appends to it; but [Update] has a value
    receiver, so the list that grows is the one of the call's own copy of
    the strategy. Of two successive drained calls on one strategy value,
    each reports the strategy's list as the caller holds it followed by the
    errors classified in that call: the errors of the first call are not in
    what the second reports. *)
Theorem successive_Updates_accumulate_in_their_own_copy
    s (t1 t2 : ContentWithHash Content) syncer1 syncer2 events1 events2 errs1 errs2 c1 c2 :
  DBMode.prepare env1 s t1 = Ok syncer1 ->
  DBMode.Solve env1 syncer1 (DBMode.concurrency s) false false = (events1, errs1) ->
  DBMode.handleAll parse
    {| DBMode.c_s := s; DBMode.c_diff := ConfigDiff.mk (Hash t1) []; DBMode.c_log := [] |}
    events1 = Returned c1 ->
  DBMode.prepare env2 s t2 = Ok syncer2 ->
  DBMode.Solve env2 syncer2 (DBMode.concurrency s) false false = (events2, errs2) ->
  DBMode.handleAll parse
    {| DBMode.c_s := s; DBMode.c_diff := ConfigDiff.mk (Hash t2) []; DBMode.c_log := [] |}
    events2 = Returned c2 ->
  DBMode.resourceErrors c1.(DBMode.c_s)
    = DBMode.resourceErrors s ++ classifiedErrors parse events1
  /\ DBMode.resourceErrors c2.(DBMode.c_s)
    = DBMode.resourceErrors s ++ classifiedErrors parse events2
  /\ UpdateTwice env1 env2 parse s t1 t2 (DBMode.drained events1) (DBMode.drained events2)
     = (DBMode.Returns (DBMode.aggregate c1.(DBMode.c_s) errs1),
        DBMode.Returns (DBMode.aggregate c2.(DBMode.c_s) errs2)).
Proof.
  intros Hp1 Hs1 Ha1 Hp2 Hs2 Ha2.
  destruct (handleAll_collects _ _ _ _ Ha1) as (Hre1 & _).
  destruct (handleAll_collects _ _ _ _ Ha2) as (Hre2 & _).
  simpl in Hre1, Hre2.
  split; [exact Hre1 | split; [exact Hre2 |]].
  unfold UpdateTwice.
  rewrite (Update_drained _ _ _ _ _ _ _ _ Hp1 Hs1 Ha1).
  by rewrite (Update_drained _ _ _ _ _ _ _ _ Hp2 Hs2 Ha2).
Qed.

End CallsFacts.

(** A call with one failed event, then a call with one applied event. *)
Lemma successive_Updates_accumulate_in_their_own_copy_witness :
  UpdateTwice
    (collaborators [failedServiceUpdate] (Some [Opaque {| Error := "1 errors occurred" |}]) 0)
    (collaborators [appliedRouteCreate] None 0)
    parseRawResourceError_spec gatewayStrategy (target "h1") (target "h2")
    (DBMode.drained [failedServiceUpdate]) (DBMode.drained [appliedRouteCreate])
  = (DBMode.Returns
       (Some (UpdateError [sampleResourceError]
                (ErrArray [Opaque {| Error := "1 errors occurred" |}]))),
     DBMode.Returns None).
Proof.
  exact (proj2 (proj2 (successive_Updates_accumulate_in_their_own_copy
    (collaborators [failedServiceUpdate] (Some [Opaque {| Error := "1 errors occurred" |}]) 0)
    (collaborators [appliedRouteCreate] None 0)
    parseRawResourceError_spec gatewayStrategy (target "h1") (target "h2") tt tt
    [failedServiceUpdate] [appliedRouteCreate]
    (Some [Opaque {| Error := "1 errors occurred" |}]) None
    {| DBMode.c_s := DBMode.set_resourceErrors gatewayStrategy [sampleResourceError];
       DBMode.c_diff := ConfigDiff.mk "h1" [];
       DBMode.c_log := [LogError (Opaque {| Error := "schema violation" |})
                                 "failed updating gateway entity"
                                 (DBMode.eventKeysAndValues failedServiceUpdate)] |}
    {| DBMode.c_s := gatewayStrategy;
       DBMode.c_diff := ConfigDiff.mk "h2" [NewEntityDiff "+ route r-1" "create"];
       DBMode.c_log := [LogInfo "updated gateway entity"
                                (DBMode.eventKeysAndValues appliedRouteCreate)] |}
    eq_refl eq_refl eq_refl eq_refl eq_refl eq_refl))).
Defined.

(** C8 (as stated) does not hold: the first call classifies one resource
    error and accumulates it in its copy of the strategy, and the second
    call on the same strategy value, whose run has no failed event,
    returns nil: the error of the first call is neither present in nor
    reported by the second. *)
Lemma second_Update_does_not_report_first_errors :
  (exists st1,
     DBMode.execute
       (collaborators [failedServiceUpdate] (Some [Opaque {| Error := "1 errors occurred" |}]) 0)
       parseRawResourceError_spec gatewayStrategy (target "h1") tt
       (DBMode.drained [failedServiceUpdate]) = Some st1
     /\ DBMode.resourceErrors (DBMode.c_s (DBMode.r_c st1)) = [sampleResourceError])
  /\ DBMode.resourceErrors gatewayStrategy = []
  /\ snd (UpdateTwice
            (collaborators [failedServiceUpdate]
                           (Some [Opaque {| Error := "1 errors occurred" |}]) 0)
            (collaborators [appliedRouteCreate] None 0)
            parseRawResourceError_spec gatewayStrategy (target "h1") (target "h2")
            (DBMode.drained [failedServiceUpdate]) (DBMode.drained [appliedRouteCreate]))
     = DBMode.Returns None.
Proof.
  split; [eexists; split; by_evaluation |]. split; by_evaluation.
Qed.

(** ** Early returns *)

Section ConflictFacts.

Context {Client DumpConfig Version Content RawState KongState Syncer : Type}.
Variable env : @DBMode.Collaborators Client DumpConfig Version Content RawState KongState Syncer.
Variable parse : rawResourceError.t -> ResourceError.t * option error.

Lemma aggregate_is_no_conflict (s : @DBMode.UpdateStrategyDBMode Client DumpConfig Version)
    errs e :
  DBMode.aggregate s errs = Some e -> isConfigConflictError e = false.
Proof.
  unfold DBMode.aggregate, NewUpdateError. intros H.
  destruct errs; [by injection H as <- |].
  destruct (Nat.ltb _ _); [by injection H as <- | discriminate].
Qed.

Lemma execute_returnsAggregate s (targetContent : ContentWithHash Content) syncer schedule st e :
  DBMode.execute env parse s targetContent syncer schedule = Some st ->
  DBMode.r_update st = DBMode.HasReturned (Some e) ->
  isConfigConflictError e = false.
Proof.
  unfold DBMode.execute.
  destruct (DBMode.Solve env syncer (DBMode.concurrency s) false false) as [events errs].
  intros Hrun Hret.
  assert (HI : returnsAggregate errs st).
  { eapply run_invariant; [| |exact Hrun].
    - intros a st0 st1. apply step_returnsAggregate.
    - intros err Hinit. discriminate Hinit. }
  destruct (HI _ Hret) as [s' Hs'].
  eapply aggregate_is_no_conflict. symmetry. exact Hs'.
Qed.

(** C9: a failure to render the target state against the live state is
    returned as a [ConfigConflictError] holding the failure, under every
    schedule; a failure to fetch the live state or to build the syncer is
    returned as a formatted error wrapping the failure, which is not a
    conflict error; and no other error [Update] returns is one. *)
Theorem render_failure_is_the_conflict_error
    s (targetContent : ContentWithHash Content) schedule :
  let url := DBMode.BaseRootURL env (DBMode.client s) in
  let returned := DBMode.Update env parse s targetContent schedule in
  (forall cs err,
      DBMode.currentState env s = Ok cs ->
      DBMode.targetState env s cs (Content_ targetContent) = Err err ->
      returned = DBMode.Returns (Some (ConfigConflictError err)))
  /\ (forall err,
        DBMode.currentState env s = Err err ->
        returned = DBMode.Returns
                     (Some (Errorf "failed getting current state for %s: %w" [url] [err])))
  /\ (forall cs ts err,
        DBMode.currentState env s = Ok cs ->
        DBMode.targetState env s cs (Content_ targetContent) = Ok ts ->
        DBMode.diff_NewSyncer env
          {| DBMode.so_CurrentState := cs; DBMode.so_TargetState := ts;
             DBMode.so_KongClient := DBMode.client s;
             DBMode.so_SilenceWarnings := true;
             DBMode.so_IsKonnect := DBMode.isKonnect s;
             DBMode.so_IncludeLicenses := true;
             DBMode.so_EnableEntityActions := true |} = Err err ->
        returned = DBMode.Returns
                     (Some (Errorf "creating a new syncer for %s: %w" [url] [err])))
  /\ (forall e,
        returned = DBMode.Returns (Some e) ->
        isConfigConflictError e = true ->
        exists cs err,
          DBMode.currentState env s = Ok cs
          /\ DBMode.targetState env s cs (Content_ targetContent) = Err err
          /\ e = ConfigConflictError err).
Proof.
  intros url returned. subst url returned. unfold DBMode.Update, DBMode.prepare.
  conjunctions.
  - intros cs err Hcs Hts. by rewrite Hcs, Hts.
  - intros err Hcs. by rewrite Hcs.
  - intros cs ts err Hcs Hts Hsy. by rewrite Hcs, Hts, Hsy.
  - intros e Hret Hconf.
    destruct (DBMode.currentState env s) as [cs|err1] eqn:Hcs.
    + destruct (DBMode.targetState env s cs (Content_ targetContent)) as [ts|err2] eqn:Hts.
      * destruct (DBMode.diff_NewSyncer env _) as [syncer|err3] eqn:Hsy.
        -- unfold DBMode.resultOf in Hret.
           destruct (DBMode.execute env parse s targetContent syncer schedule)
             as [st|] eqn:Hex; [|discriminate].
           destruct (DBMode.r_update st) eqn:Hu;
             try (destruct (DBMode.r_consumer st); discriminate).
           injection Hret as ->.
           rewrite (execute_returnsAggregate _ _ _ _ _ _ Hex Hu) in Hconf. discriminate.
        -- injection Hret as <-. discriminate Hconf.
      * injection Hret as <-. by exists cs, err2.
    + injection Hret as <-. discriminate Hconf.
Qed.

End ConflictFacts.

(** Collaborators whose rendering fails. *)
Lemma render_failure_is_the_conflict_error_witness :
  DBMode.targetState conflictingCollaborators gatewayStrategy tt tt
    = Err (Opaque {| Error := "service svc-1: upstream not found" |})
  /\ DBMode.Update conflictingCollaborators parseRawResourceError_spec gatewayStrategy
       (target "abc123") (DBMode.drained [])
     = DBMode.Returns
         (Some (ConfigConflictError (Opaque {| Error := "service svc-1: upstream not found" |}))).
Proof.
  split; [reflexivity |].
  exact (proj1 (render_failure_is_the_conflict_error conflictingCollaborators
                  parseRawResourceError_spec gatewayStrategy (target "abc123")
                  (DBMode.drained []))
               tt (Opaque {| Error := "service svc-1: upstream not found" |})
               eq_refl eq_refl).
Defined.

(** ** Whole-state strategy *)

Section InMemoryFacts.

Context {Content DBLessConfig FlatEntityError : Type}.
Variable json_Marshal : DBLessConfig -> result (list Byte.byte).
Variable parseFlatEntityErrors :
  option (list Byte.byte) -> option (list FlatEntityError) * option error.

Local Abbreviation Update :=
  (@InMemory.Update Content DBLessConfig FlatEntityError json_Marshal parseFlatEntityErrors).

(** C2: when the reload fails, [Update] returns the reload error, the
    parsed entity errors and the returned body if the body parses; if it
    does not, [Update] returns an error that wraps the reload error and the
    parse error, no entity errors, and the returned body all the same. *)
Theorem Update_reload_failure
    (s : InMemory.UpdateStrategyInMemory) (targetState : ContentWithHash Content)
    (config : list Byte.byte) (errBody : option (list Byte.byte)) (reloadErr : error) :
  json_Marshal (InMemory.Convert (InMemory.configConverter s) (Content_ targetState))
    = Ok config ->
  InMemory.ReloadDeclarativeRawConfig (InMemory.configService s) config true true
    = (errBody, Some reloadErr) ->
  match parseFlatEntityErrors errBody with
  | (entityErrs, None) =>
      Update s targetState = (Some reloadErr, entityErrs, errBody)
  | (_, Some parseErr) =>
      exists err,
        Update s targetState = (Some err, None, errBody)
        /\ fmtWrapped err = Some [reloadErr; parseErr]
  end.
Proof.
  intros Hm Hr. unfold InMemory.Update. rewrite Hm, Hr.
  destruct (parseFlatEntityErrors errBody) as [entityErrs [parseErr|]].
  - eexists. split; reflexivity.
  - reflexivity.
Qed.

(** C10: when serialization succeeds and the reload returns no error,
    [Update] returns nil for the error, for the entity errors and for the
    raw body, whatever body the reload handed back. *)
Theorem Update_reload_success
    (s : InMemory.UpdateStrategyInMemory) (targetState : ContentWithHash Content)
    (config : list Byte.byte) (body : option (list Byte.byte)) :
  json_Marshal (InMemory.Convert (InMemory.configConverter s) (Content_ targetState))
    = Ok config ->
  InMemory.ReloadDeclarativeRawConfig (InMemory.configService s) config true true
    = (body, None) ->
  Update s targetState = (None, None, None).
Proof.
  intros Hm Hr. unfold InMemory.Update. by rewrite Hm, Hr.
Qed.

(** A failure to serialize is returned on its own, before any reload. *)
Lemma Update_marshal_failure
    (s : InMemory.UpdateStrategyInMemory) (targetState : ContentWithHash Content) err :
  json_Marshal (InMemory.Convert (InMemory.configConverter s) (Content_ targetState))
    = Err err ->
  Update s targetState
    = (Some (Errorf "constructing kong configuration: %w" [] [err]), None, None).
Proof.
  intros Hm. unfold InMemory.Update. by rewrite Hm.
Qed.

End InMemoryFacts.

(** A reload that fails with a flattened body: parsed, and not parsed. *)
Lemma Update_reload_failure_witness :
  (InMemory.Update marshalString parseAsOne
     (InMemory.NewUpdateStrategyInMemory failingService identityConverter) wholeStateTarget
   = (Some (Opaque {| Error := "HTTP status 400" |}), Some ["svc1"], flattenedBody))
  /\ exists err,
       InMemory.Update marshalString parseFails
         (InMemory.NewUpdateStrategyInMemory failingService identityConverter) wholeStateTarget
       = (Some err, None, flattenedBody)
       /\ fmtWrapped err = Some [Opaque {| Error := "HTTP status 400" |};
                                 errorString "could not unmarshal config error"].
Proof.
  split.
  - exact (Update_reload_failure marshalString parseAsOne
             (InMemory.NewUpdateStrategyInMemory failingService identityConverter)
             wholeStateTarget (bytesOf "{}") flattenedBody
             (Opaque {| Error := "HTTP status 400" |}) eq_refl eq_refl).
  - exact (Update_reload_failure marshalString parseFails
             (InMemory.NewUpdateStrategyInMemory failingService identityConverter)
             wholeStateTarget (bytesOf "{}") flattenedBody
             (Opaque {| Error := "HTTP status 400" |}) eq_refl eq_refl).
Defined.

(** A reload that succeeds. *)
Lemma Update_reload_success_witness :
  InMemory.Update marshalString parseAsOne
    (InMemory.NewUpdateStrategyInMemory acceptingService identityConverter) wholeStateTarget
  = (None, None, None).
Proof.
  exact (Update_reload_success marshalString parseAsOne
           (InMemory.NewUpdateStrategyInMemory acceptingService identityConverter)
           wholeStateTarget (bytesOf "{}") None eq_refl eq_refl).
Defined.

(* ===================================================================== *)
(** * Further properties of the code                                      *)
(* ===================================================================== *)

(** ** The classifier's returns and panics *)

Lemma derefTags_panics_only_on_nil (tags : list (option string)) :
  forall (acc : list string) (msg : string),
  derefTags tags acc = Panicked msg ->
  In None tags
  /\ msg = "runtime error: invalid memory address or nil pointer dereference".
Proof.
  induction tags as [|t tags IH]; intros acc msg H; simpl in H.
  - discriminate.
  - destruct t as [x|]; simpl in H.
    + destruct (IH _ _ H) as [Hin Hmsg]. split; [by right | exact Hmsg].
    + injection H as <-. split; [by left | reflexivity].
Qed.

Section ClassifierReturns.

Variable parse : rawResourceError.t -> ResourceError.t * option error.

(** X1: when the selected snapshot is not a struct behind at most one
    pointer (no snapshot at all, a nil pointer, a scalar, a slice), the
    classifier returns the zero resource error and an error that names the
    entity's kind and name and the kind found; it neither panics nor calls
    the parser. *)
Theorem classification_of_a_non_record event :
  reflect.KindOf (reflect.Indirect (reflect.ValueOf (selectedSnapshot event)))
    <> reflect.Struct ->
  resourceErrorFromEntityAction parse event =
    Returned
      (ResourceError.zero,
       Some (Errorf "entity %s/%s is %s, not Struct"
               [Entity.Kind (EntityAction.Entity event);
                Entity.Name (EntityAction.Entity event);
                reflect.Kind_String
                  (reflect.KindOf
                     (reflect.Indirect (reflect.ValueOf (selectedSnapshot event))))]
               [])).
Proof.
  unfold selectedSnapshot, resourceErrorFromEntityAction. intros Hk.
  destruct (reflect.KindOf _) eqn:E; try reflexivity. contradiction.
Qed.

(** X2: a record whose field "Tags" holds the zero value of its type, a
    nil tag slice in particular, is answered with the "lacks 'Tags' field"
    error, which names the entity and the type of the snapshot. *)
Theorem classification_of_zero_tags event typ fields v :
  structuredRecord event typ fields ->
  reflect.lookupField "Tags" fields = Some v ->
  reflect.isZeroValue v = true ->
  resourceErrorFromEntityAction parse event =
    Returned
      (ResourceError.zero,
       Some (Errorf "entity %s/%s of type %s lacks 'Tags' field"
               [Entity.Kind (EntityAction.Entity event);
                Entity.Name (EntityAction.Entity event);
                reflect.TypeOf (selectedSnapshot event)]
               [])).
Proof.
  unfold structuredRecord, selectedSnapshot, resourceErrorFromEntityAction.
  intros Hrec Hf Hz. rewrite Hrec. simpl. rewrite Hf. simpl. by rewrite Hz.
Qed.

(** X3: a record whose field "Tags" is not zero and not a [[]*string] is
    answered with the "Tags field is not []*string" error. *)
Theorem classification_of_other_tags event typ fields v :
  structuredRecord event typ fields ->
  reflect.lookupField "Tags" fields = Some v ->
  reflect.isZeroValue v = false ->
  snd (assertStringPtrs v) = false ->
  resourceErrorFromEntityAction parse event =
    Returned
      (ResourceError.zero,
       Some (Errorf "entity %s/%s Tags field is not []*string"
               [Entity.Kind (EntityAction.Entity event);
                Entity.Name (EntityAction.Entity event)]
               [])).
Proof.
  unfold structuredRecord, selectedSnapshot, resourceErrorFromEntityAction.
  intros Hrec Hf Hz Hok. rewrite Hrec. simpl. rewrite Hf. simpl. rewrite Hz. simpl.
  destruct (assertStringPtrs v) as [tags ok]. simpl in Hok. by rewrite Hok.
Qed.

(** X4: when the event has a new snapshot, the old one plays no part,
    whatever the new one is. *)
Theorem classification_ignores_old_beside_new event n old :
  Entity.New (EntityAction.Entity event) = Some n ->
  resourceErrorFromEntityAction parse (withOld event old)
  = resourceErrorFromEntityAction parse event.
Proof.
  intros Hn. unfold resourceErrorFromEntityAction, withOld. simpl. by rewrite Hn.
Qed.

(** X5: the classifier panics in two cases and no other: the snapshot is a
    record without a field "Tags", or it is a record whose "Tags" is a
    [[]*string] with a nil entry. *)
Theorem classification_panics_exactly event msg :
  resourceErrorFromEntityAction parse event = Panicked msg <->
  exists typ fields,
    structuredRecord event typ fields
    /\ ((reflect.lookupField "Tags" fields = None
         /\ msg = "reflect: call of reflect.Value.IsZero on zero Value")
        \/ (exists tags,
              tagList fields tags /\ In None tags
              /\ msg = "runtime error: invalid memory address or nil pointer dereference")).
Proof.
  split.
  - unfold structuredRecord, tagList, selectedSnapshot, resourceErrorFromEntityAction.
    intros H.
    destruct (reflect.Indirect _) as [[b|z|str|l|l|typ fields|typ target]|] eqn:Hrec;
      simpl in H; try discriminate.
    exists typ, fields. split; [reflexivity |].
    destruct (reflect.lookupField "Tags" fields) as [v|] eqn:Hf; simpl in H.
    + right. destruct (reflect.isZeroValue v) eqn:Hz; [discriminate |].
      simpl in H. destruct v as [b|z|str|l|[tags|]|typ' fields'|typ' target];
        simpl in H; try discriminate.
      exists tags.
      destruct (derefTags tags []) as [actualTags|m] eqn:Hd; simpl in H; [discriminate |].
      injection H as <-.
      destruct (derefTags_panics_only_on_nil _ _ _ Hd) as [Hin Hmsg].
      by repeat split.
    + left. injection H as <-. by split.
  - intros (typ & fields & Hrec & [[Hno Hmsg] | (tags & Htags & Hin & Hmsg)]); subst msg.
    + unfold structuredRecord, selectedSnapshot in Hrec.
      unfold resourceErrorFromEntityAction. rewrite Hrec. simpl. by rewrite Hno.
    + rewrite (classifier_reaches_loop _ _ _ _ _ Hrec Htags).
      by rewrite (derefTags_nil_entry _ _ Hin).
Qed.

(** X6: the classifier looks at nothing but the entity's name, its tag
    values and the error: two failed events with records of whatever type,
    kind, action and diff that agree on these three are classified alike,
    by the parser's answer on the raw record made of them. *)
Theorem classification_depends_on_name_tags_and_error
    event1 typ1 fields1 event2 typ2 fields2 values :
  structuredRecord event1 typ1 fields1 -> tagList fields1 (List.map Some values) ->
  structuredRecord event2 typ2 fields2 -> tagList fields2 (List.map Some values) ->
  Entity.Name (EntityAction.Entity event1) = Entity.Name (EntityAction.Entity event2) ->
  EntityAction.Error event1 = EntityAction.Error event2 ->
  resourceErrorFromEntityAction parse event1 = resourceErrorFromEntityAction parse event2
  /\ resourceErrorFromEntityAction parse event1
     = Returned (parse (rawResourceError.mk
                          (Entity.Name (EntityAction.Entity event1)) values
                          {[ "" := Sprintf_s (EntityAction.Error event1) ]})).
Proof.
  intros Hr1 Ht1 Hr2 Ht2 Hname Herr.
  rewrite (classifier_hands_raw_to_parser _ _ _ _ _ Hr1 Ht1).
  rewrite (classifier_hands_raw_to_parser _ _ _ _ _ Hr2 Ht2).
  unfold rawOf. by rewrite Hname, Herr.
Qed.

End ClassifierReturns.

(** A deletion whose old snapshot is a bare string, and an update whose new
    snapshot is a nil pointer. *)
Lemma classification_of_a_non_record_witness :
  resourceErrorFromEntityAction parseRawResourceError_spec failedNoSnapshotDelete
  = Returned (ResourceError.zero,
              Some (Errorf "entity %s/%s is %s, not Struct"
                           ["service"; "svc-1"; "string"] []))
  /\ resourceErrorFromEntityAction parseRawResourceError_spec failedNilNewUpdate
     = Returned (ResourceError.zero,
                 Some (Errorf "entity %s/%s is %s, not Struct"
                              ["service"; "svc-1"; "invalid"] [])).
Proof.
  split.
  - exact (classification_of_a_non_record parseRawResourceError_spec
             failedNoSnapshotDelete ltac:(discriminate)).
  - exact (classification_of_a_non_record parseRawResourceError_spec
             failedNilNewUpdate ltac:(discriminate)).
Defined.

(** A service whose tags are a nil slice. *)
Lemma classification_of_zero_tags_witness :
  resourceErrorFromEntityAction parseRawResourceError_spec failedUntaggedUpdate
  = Returned (ResourceError.zero,
              Some (Errorf "entity %s/%s of type %s lacks 'Tags' field"
                           ["service"; "svc-1"; "*kong.Service"] [])).
Proof.
  exact (classification_of_zero_tags parseRawResourceError_spec failedUntaggedUpdate
           "kong.Service"
           [("Host", strp "svc-1.example"); ("Name", strp "svc-1");
            ("Tags", VStringPtrs None)]
           (VStringPtrs None) eq_refl eq_refl eq_refl).
Defined.

(** A record with tags of type [[]string]. *)
Lemma classification_of_other_tags_witness :
  resourceErrorFromEntityAction parseRawResourceError_spec failedPlainTagsUpdate
  = Returned (ResourceError.zero,
              Some (Errorf "entity %s/%s Tags field is not []*string"
                           ["service"; "svc-1"] [])).
Proof.
  exact (classification_of_other_tags parseRawResourceError_spec failedPlainTagsUpdate
           "konnect.Service"
           [("Name", strp "svc-1"); ("Tags", VStrings (Some ["team-a"]))]
           (VStrings (Some ["team-a"])) eq_refl eq_refl eq_refl eq_refl).
Defined.

(** The nil new snapshot hides the good old one. *)
Lemma classification_ignores_old_beside_new_witness :
  Entity.New (EntityAction.Entity failedNilNewUpdate) = Some (VPtr "kong.Service" None)
  /\ resourceErrorFromEntityAction parseRawResourceError_spec failedNilNewUpdate
     = resourceErrorFromEntityAction parseRawResourceError_spec
         (withOld failedNilNewUpdate None).
Proof.
  split; [reflexivity |]. symmetry.
  exact (classification_ignores_old_beside_new parseRawResourceError_spec
           failedNilNewUpdate (VPtr "kong.Service" None) None eq_refl).
Defined.

(** The failed service update and the failed route creation. *)
Lemma classification_depends_on_name_tags_and_error_witness :
  resourceErrorFromEntityAction parseRawResourceError_spec failedServiceUpdate
  = resourceErrorFromEntityAction parseRawResourceError_spec failedRouteCreate.
Proof.
  exact (proj1 (classification_depends_on_name_tags_and_error parseRawResourceError_spec
           failedServiceUpdate "kong.Service"
           [("Host", strp "svc-1.example"); ("Name", strp "svc-1");
            ("Tags", VStringPtrs (Some (List.map Some teamTags)))]
           failedRouteCreate "kong.Route"
           [("Name", strp "svc-1"); ("Tags", VStringPtrs (Some (List.map Some teamTags)))]
           teamTags eq_refl eq_refl eq_refl eq_refl eq_refl eq_refl)).
Defined.

(** ** The consumer, event by event *)

Section ConsumerSteps.

Context {Client DumpConfig Version : Type}.
Variable parse : rawResourceError.t -> ResourceError.t * option error.

Local Abbreviation consumer := (@DBMode.consumer Client DumpConfig Version).

Lemma handleAll_app (events1 events2 : list EntityAction.t) : forall c : consumer,
  DBMode.handleAll parse c (events1 ++ events2)
  = let! c' := DBMode.handleAll parse c events1 in DBMode.handleAll parse c' events2.
Proof.
  induction events1 as [|event events1 IH]; intros c; simpl; [reflexivity |].
  destruct (DBMode.handleEvent parse c event) as [c1|msg]; simpl; [apply IH | reflexivity].
Qed.

(** X7: a failed event whose classification returns an error is logged
    twice (the failure, then the classification error) and dropped: the
    resource errors and the diagnostics buffer stay as they are and the
    consumer goes on with the events that follow. *)
Theorem unclassifiable_event_is_logged_and_dropped (c : consumer) event e re err rest :
  EntityAction.Error event = Some e ->
  resourceErrorFromEntityAction parse event = Returned (re, Some err) ->
  DBMode.handleAll parse c (event :: rest)
  = DBMode.handleAll parse
      {| DBMode.c_s := DBMode.c_s c;
         DBMode.c_diff := DBMode.c_diff c;
         DBMode.c_log :=
           (DBMode.c_log c
              ++ [LogError (Opaque e) "failed updating gateway entity"
                           (DBMode.eventKeysAndValues event)])
              ++ [LogError err "could not parse entity update error" []] |}
      rest.
Proof.
  intros He Hr. simpl. unfold DBMode.handleEvent. by rewrite He, Hr.
Qed.

End ConsumerSteps.

(** A deletion with a bare string for a snapshot, followed by a failed
    update that is classified. *)
Lemma unclassifiable_event_is_logged_and_dropped_witness :
  exists c,
    DBMode.handleAll parseRawResourceError_spec (freshConsumer gatewayStrategy "abc123")
      [failedNoSnapshotDelete; failedServiceUpdate] = Returned c
    /\ DBMode.resourceErrors (DBMode.c_s c) = [sampleResourceError]
    /\ length (DBMode.c_log c) = 3%nat.
Proof.
  rewrite (unclassifiable_event_is_logged_and_dropped parseRawResourceError_spec
             (freshConsumer gatewayStrategy "abc123") failedNoSnapshotDelete
             {| Error := "not found" |} ResourceError.zero
             (Errorf "entity %s/%s is %s, not Struct" ["service"; "svc-1"; "string"] [])
             [failedServiceUpdate] eq_refl eq_refl).
  eexists. conjunctions; by_evaluation.
Defined.

(** ** A panic of the consumer *)

Section CrashFacts.

Context {Client DumpConfig Version Content RawState KongState Syncer : Type}.
Variable env : @DBMode.Collaborators Client DumpConfig Version Content RawState KongState Syncer.
Variable parse : rawResourceError.t -> ResourceError.t * option error.

Lemma run_handoffs_panic cap errs diag hash events :
  forall (c : @DBMode.consumer Client DumpConfig Version) locked cancelled Diffs msg rest,
  DBMode.handleAll parse c events = Panicked msg ->
  exists st,
    DBMode.run parse cap errs diag hash (List.map (fun _ => DBMode.Handoff) events ++ rest)
      {| DBMode.r_update := DBMode.InSolve; DBMode.r_consumer := DBMode.InSelect;
         DBMode.r_c := c; DBMode.r_locked := locked; DBMode.r_cancelled := cancelled;
         DBMode.r_unsent := events; DBMode.r_events := []; DBMode.r_Diffs := Diffs |}
    = Some st
    /\ DBMode.r_update st = DBMode.InSolve
    /\ DBMode.r_consumer st = DBMode.Crashed msg
    /\ DBMode.r_Diffs st = Diffs.
Proof.
  induction events as [|event events IH]; intros c locked cancelled Diffs msg rest H;
    simpl in H; [discriminate |].
  cbn [List.map app DBMode.run DBMode.alive DBMode.r_consumer negb DBMode.step
       DBMode.r_update DBMode.r_unsent DBMode.r_events].
  unfold DBMode.consume. cbn [DBMode.r_c].
  destruct (DBMode.handleEvent parse c event) as [c1|m] eqn:Hev; simpl in H.
  - cbn [DBMode.r_update DBMode.r_locked DBMode.r_cancelled DBMode.r_Diffs].
    by apply IH.
  - injection H as ->.
    cbn [DBMode.r_update DBMode.r_locked DBMode.r_cancelled DBMode.r_Diffs DBMode.r_c].
    rewrite run_crashed; [|reflexivity]. eexists. by conjunctions.
Qed.

(** X8: when handling the events of a run in order makes the consumer
    panic, the drained call does not return: the process has crashed with
    the consumer's panic, before any diagnostics were flushed. *)
Theorem drained_call_crashes_with_the_consumer
    s (targetContent : ContentWithHash Content) syncer events errs msg :
  DBMode.prepare env s targetContent = Ok syncer ->
  DBMode.Solve env syncer (DBMode.concurrency s) false false = (events, errs) ->
  DBMode.handleAll parse
    {| DBMode.c_s := s; DBMode.c_diff := ConfigDiff.mk (Hash targetContent) [];
       DBMode.c_log := [] |} events = Panicked msg ->
  DBMode.Update env parse s targetContent (DBMode.drained events)
  = DBMode.ProcessCrashed msg
  /\ exists st,
       DBMode.execute env parse s targetContent syncer (DBMode.drained events) = Some st
       /\ DBMode.r_Diffs st = [].
Proof.
  intros Hprep Hsolve Hall. unfold DBMode.Update, DBMode.execute.
  rewrite Hprep, Hsolve. unfold DBMode.drained, DBMode.spawn.
  cbn [DBMode.run DBMode.alive DBMode.r_consumer negb DBMode.step DBMode.r_locked
       DBMode.r_update DBMode.r_c DBMode.c_s DBMode.c_log DBMode.r_cancelled
       DBMode.r_unsent DBMode.r_events DBMode.r_Diffs].
  destruct (run_handoffs_panic (DBMode.resultChanCap env syncer) errs (DBMode.diagnostic s)
              (Hash targetContent) events _ true false [] msg
              [DBMode.SolveReturn; DBMode.CancelCtx; DBMode.ConsumerDone;
               DBMode.UpdateLock; DBMode.UpdateAggregate] Hall)
    as (st & Hrun & Hu & Hc & Hd).
  rewrite Hrun. split.
  - unfold DBMode.resultOf. by rewrite Hu, Hc.
  - by exists st.
Qed.

End CrashFacts.

(** An applied event followed by the failed creation of a license. *)
Lemma drained_call_crashes_with_the_consumer_witness :
  DBMode.Update (collaborators [appliedRouteCreate; failedLicenseCreate] None 0)
    parseRawResourceError_spec gatewayStrategy (target "abc123")
    (DBMode.drained [appliedRouteCreate; failedLicenseCreate])
  = DBMode.ProcessCrashed "reflect: call of reflect.Value.IsZero on zero Value".
Proof.
  exact (proj1 (drained_call_crashes_with_the_consumer
                  (collaborators [appliedRouteCreate; failedLicenseCreate] None 0)
                  parseRawResourceError_spec gatewayStrategy (target "abc123") tt
                  [appliedRouteCreate; failedLicenseCreate] None
                  "reflect: call of reflect.Value.IsZero on zero Value"
                  eq_refl eq_refl ltac:(by_evaluation))).
Defined.

(** ** What every schedule keeps *)

(** The cases of an enabled step. *)
Ltac step_cases Hs :=
  unfold DBMode.step in Hs;
  repeat match type of Hs with
         | match ?x with _ => _ end = Some _ => destruct x eqn:?; try discriminate
         | (if ?x then _ else _) = Some _ => destruct x eqn:?; try discriminate
         end;
  injection Hs as Hs; subst.

Section DisciplineFacts.

Context {Client DumpConfig Version : Type}.
Variable parse : rawResourceError.t -> ResourceError.t * option error.
Variable cap : nat.
Variable errs : option (list error).
Variable diag : option ClientDiagnostic.
Variable hash : string.
Variable s : @DBMode.UpdateStrategyDBMode Client DumpConfig Version.
Variable log : list logEntry.
Variable events : list EntityAction.t.

Local Abbreviation runState := (@DBMode.runState Client DumpConfig Version).
Local Abbreviation step := (@DBMode.step Client DumpConfig Version parse cap errs diag hash).
Local Abbreviation run := (@DBMode.run Client DumpConfig Version parse cap errs diag hash).

Lemma step_lockDiscipline a (st st' : runState) :
  lockDiscipline st -> step a st = Some st' -> lockDiscipline st'.
Proof.
  unfold lockDiscipline. intros HI Hs. destruct a; step_cases Hs;
    try (unfold DBMode.consume;
         destruct (DBMode.handleEvent parse (DBMode.r_c st) _));
    simpl in *;
    repeat match goal with
           | H : DBMode.r_consumer st = _ |- _ => rewrite H in *
           | H : DBMode.r_update st = _ |- _ => rewrite H in *
           end;
    try (destruct (DBMode.r_consumer st)); try (destruct (DBMode.r_update st));
    simpl in *; try congruence; try contradiction; try reflexivity.
Qed.

Lemma step_phaseDiscipline a (st st' : runState) :
  phaseDiscipline st -> step a st = Some st' -> phaseDiscipline st'.
Proof.
  unfold phaseDiscipline. intros [HI HT] Hs. destruct a; step_cases Hs;
    try (unfold DBMode.consume;
         destruct (DBMode.handleEvent parse (DBMode.r_c st) _));
    simpl in *;
    repeat match goal with
           | H : DBMode.r_consumer st = _ |- _ => rewrite H in *
           | H : DBMode.r_update st = _ |- _ => rewrite H in *
           | H : DBMode.r_cancelled st = _ |- _ => rewrite H in *
           | H : DBMode.r_unsent st = _ |- _ => rewrite H in *
           end;
    try (destruct (DBMode.r_update st)); simpl in *;
    intuition (try congruence; try discriminate).
Qed.

Lemma handleAll_snoc (handled : list EntityAction.t) event
    (c : @DBMode.consumer Client DumpConfig Version) :
  DBMode.handleAll parse c (handled ++ [event])
  = let! c' := DBMode.handleAll parse c handled in DBMode.handleEvent parse c' event.
Proof.
  rewrite handleAll_app. destruct (DBMode.handleAll parse c handled) as [c'|msg]; simpl;
    [|reflexivity].
  by destruct (DBMode.handleEvent parse c' event).
Qed.

Lemma consume_orderDiscipline (st : runState) event unsent queued handled :
  (length queued <= cap)%nat ->
  events = handled ++ event :: queued ++ unsent ->
  DBMode.handleAll parse (consumerAtStart hash s log) handled = Returned (DBMode.r_c st) ->
  orderDiscipline parse cap hash s log events (DBMode.consume parse st event unsent queued).
Proof.
  intros Hcap Hev Hh. unfold orderDiscipline, DBMode.consume.
  destruct (DBMode.handleEvent parse (DBMode.r_c st) event) as [c|msg] eqn:Hhe; simpl.
  - split; [exact Hcap |]. exists (handled ++ [event]). split.
    + rewrite Hev. by rewrite <- app_assoc.
    + rewrite handleAll_snoc, Hh. exact Hhe.
  - split; [exact Hcap |]. exists handled, event. by conjunctions.
Qed.

Lemma step_orderDiscipline a (st st' : runState) :
  orderDiscipline parse cap hash s log events st ->
  step a st = Some st' ->
  orderDiscipline parse cap hash s log events st'.
Proof.
  intros [Hcap HI] Hs. destruct a; step_cases Hs.
  - (* ConsumerLock *)
    try match goal with H : DBMode.r_consumer st = _ |- _ => rewrite H in HI end.
    destruct HI as [Hc Hev]. split; [exact Hcap |]. simpl.
    exists []. split; [exact Hev |]. simpl. by rewrite Hc.
  - (* Send *)
    match goal with H : Nat.ltb _ _ = true |- _ => apply Nat.ltb_lt in H end.
    try match goal with H : DBMode.r_unsent st = _ |- _ => rewrite H in HI end.
    split; simpl.
    + rewrite length_app. simpl. lia.
    + destruct (DBMode.r_consumer st).
      * destruct HI as [Hc Hev]. split; [exact Hc |]. rewrite Hev.
        by rewrite <- app_assoc.
      * destruct HI as (handled & Hev & Hh). exists handled. split; [|exact Hh].
        rewrite Hev. by rewrite <- app_assoc.
      * destruct HI as (handled & Hev & Hh). exists handled. split; [|exact Hh].
        rewrite Hev. by rewrite <- app_assoc.
      * destruct HI as (handled & event & Hev & Hh & Hp). exists handled, event.
        conjunctions; [|exact Hh | exact Hp].
        rewrite Hev. by rewrite <- app_assoc.
  - (* Handoff *)
    repeat match goal with
           | H : DBMode.r_consumer st = _ |- _ => rewrite H in HI
           | H : DBMode.r_unsent st = _ |- _ => rewrite H in HI
           | H : DBMode.r_events st = _ |- _ => rewrite H in HI
           end.
    destruct HI as (handled & Hev & Hh).
    apply consume_orderDiscipline with (handled := handled);
      [simpl; lia | exact Hev | exact Hh].
  - (* Receive *)
    repeat match goal with
           | H : DBMode.r_consumer st = _ |- _ => rewrite H in HI
           | H : DBMode.r_events st = _ |- _ => rewrite H in HI, Hcap
           end.
    destruct HI as (handled & Hev & Hh). simpl in Hcap.
    apply consume_orderDiscipline with (handled := handled);
      [lia | exact Hev | exact Hh].
  - (* SolveReturn *)
    try match goal with H : DBMode.r_unsent st = _ |- _ => rewrite H in HI end.
    split; [exact Hcap | exact HI].
  - (* CancelCtx *)
    split; [exact Hcap | exact HI].
  - (* ConsumerDone *)
    try match goal with H : DBMode.r_consumer st = _ |- _ => rewrite H in HI end.
    split; [exact Hcap | exact HI].
  - (* UpdateLock *)
    split; [exact Hcap | exact HI].
  - (* UpdateAggregate *)
    split; [exact Hcap | exact HI].
Qed.

Lemma step_keeps_returned a (st st' : runState) err :
  step a st = Some st' ->
  DBMode.r_update st' = DBMode.HasReturned err ->
  DBMode.r_update st = DBMode.HasReturned err
  \/ (a = DBMode.UpdateAggregate
      /\ DBMode.r_update st = DBMode.AtAggregate
      /\ err = DBMode.aggregate (DBMode.c_s (DBMode.r_c st)) errs).
Proof.
  intros Hs Hret. destruct a; step_cases Hs;
    try rewrite consume_keeps_update in Hret; simpl in Hret;
    try (left; exact Hret); try (left; congruence); try discriminate.
  right. injection Hret as <-. by conjunctions.
Qed.

Lemma step_runDiscipline a (st st' : runState) :
  runDiscipline parse cap errs hash s log events st ->
  step a st = Some st' ->
  runDiscipline parse cap errs hash s log events st'.
Proof.
  intros (Hlock & Hphase & Horder & Hreport) Hs.
  unfold runDiscipline. conjunctions.
  - eapply step_lockDiscipline; eauto.
  - eapply step_phaseDiscipline; eauto.
  - eapply step_orderDiscipline; eauto.
  - intros err Hret.
    destruct (step_keeps_returned _ _ _ _ Hs Hret) as [Hold | (_ & Hagg & ->)].
    + exact (Hreport _ Hold).
    + unfold lockDiscipline in Hlock. unfold phaseDiscipline in Hphase.
      rewrite Hagg in Hlock, Hphase. destruct Hphase as [[_ Hunsent] _].
      destruct Horder as [Hcap Horder]. rewrite Hunsent in Horder.
      destruct (DBMode.r_consumer st); try contradiction.
      * destruct Horder as [Hc Hev]. rewrite app_nil_r in Hev.
        exists [], (DBMode.r_events st), (consumerAtStart hash s log).
        conjunctions; [exact Hev | reflexivity | by rewrite Hc |].
        intros ->. destruct (DBMode.r_events st); [reflexivity | simpl in Hcap; lia].
      * destruct Horder as (handled & Hev & Hh). rewrite app_nil_r in Hev.
        exists handled, (DBMode.r_events st), (DBMode.r_c st).
        conjunctions; [exact Hev | exact Hh | reflexivity |].
        intros ->. destruct (DBMode.r_events st); [reflexivity | simpl in Hcap; lia].
Qed.

Lemma spawn_runDiscipline :
  runDiscipline parse cap errs hash s log events (DBMode.spawn s hash events log []).
Proof.
  unfold runDiscipline, lockDiscipline, phaseDiscipline, orderDiscipline,
    reportDiscipline, DBMode.spawn. simpl.
  conjunctions; try reflexivity; try discriminate; try lia.
Qed.

(** Every state a schedule leads to from the start of the run keeps the
    four disciplines. *)
Lemma run_runDiscipline schedule (st : runState) :
  run schedule (DBMode.spawn s hash events log []) = Some st ->
  runDiscipline parse cap errs hash s log events st.
Proof.
  apply (run_invariant parse cap errs diag hash
           (runDiscipline parse cap errs hash s log events)).
  - intros a st0 st1. apply step_runDiscipline.
  - apply spawn_runDiscipline.
Qed.

End DisciplineFacts.

(** ** No schedule leaves the call stuck *)

Section ProgressFacts.

Context {Client DumpConfig Version : Type}.
Variable parse : rawResourceError.t -> ResourceError.t * option error.
Variable cap : nat.
Variable errs : option (list error).
Variable diag : option ClientDiagnostic.
Variable hash : string.

Local Abbreviation runState := (@DBMode.runState Client DumpConfig Version).
Local Abbreviation run := (@DBMode.run Client DumpConfig Version parse cap errs diag hash).





End ProgressFacts.

(** ** Every schedule of a call *)

Section ScheduleFacts.

Context {Client DumpConfig Version Content RawState KongState Syncer : Type}.
Variable env : @DBMode.Collaborators Client DumpConfig Version Content RawState KongState Syncer.
Variable parse : rawResourceError.t -> ResourceError.t * option error.

Lemma execute_runDiscipline
    s (targetContent : ContentWithHash Content) syncer schedule st events errs :
  DBMode.Solve env syncer (DBMode.concurrency s) false false = (events, errs) ->
  DBMode.execute env parse s targetContent syncer schedule = Some st ->
  runDiscipline parse (DBMode.resultChanCap env syncer) errs (Hash targetContent)
    s [] events st.
Proof.
  unfold DBMode.execute. intros ->. apply run_runDiscipline.
Qed.

(** X9: under every schedule the consumer in its loop and [Update] between
    its Lock and its return exclude each other, and the mutex is locked
    exactly while one of them is there (a consumer that panicked in its
    loop keeps it locked). *)
Theorem consumer_and_Update_exclude_each_other
    s (targetContent : ContentWithHash Content) syncer schedule st :
  DBMode.execute env parse s targetContent syncer schedule = Some st ->
  ~ (DBMode.r_consumer st = DBMode.InSelect /\ DBMode.r_update st = DBMode.AtAggregate)
  /\ (DBMode.r_locked st = true <->
      (DBMode.r_consumer st = DBMode.InSelect
       \/ (exists msg, DBMode.r_consumer st = DBMode.Crashed msg)
       \/ DBMode.r_update st = DBMode.AtAggregate)).
Proof.
  intros Hex.
  destruct (DBMode.Solve env syncer (DBMode.concurrency s) false false)
    as [events errs] eqn:Hsolve.
  destruct (execute_runDiscipline _ _ _ _ _ _ _ Hsolve Hex) as (Hl & _).
  unfold lockDiscipline in Hl.
  destruct (DBMode.r_consumer st) as [| | |msg]; destruct (DBMode.r_update st);
    try contradiction; rewrite Hl;
    (split; [intros [? ?]; discriminate |]);
    (split; [intros H; try discriminate H; eauto
            | intros [H | [[m H] | H]]; try discriminate H; reflexivity]).
Qed.

(** X10: under every schedule the events of the run are handled in the
    order in which [Solve] sends them, none twice and none skipped: while
    the consumer has not panicked, its resource errors and its diagnostics
    buffer are those of having handled a first part of the events, and the
    rest is what the channel holds followed by what is still to be sent. *)
Theorem events_are_handled_in_order
    s (targetContent : ContentWithHash Content) syncer schedule st events errs :
  DBMode.Solve env syncer (DBMode.concurrency s) false false = (events, errs) ->
  DBMode.execute env parse s targetContent syncer schedule = Some st ->
  DBMode.alive st = true ->
  exists handled,
    events = handled ++ DBMode.r_events st ++ DBMode.r_unsent st
    /\ DBMode.resourceErrors (DBMode.c_s (DBMode.r_c st))
       = DBMode.resourceErrors s ++ classifiedErrors parse handled
    /\ DBMode.c_diff (DBMode.r_c st)
       = ConfigDiff.mk (Hash targetContent) (errorFreeDiffs handled).
Proof.
  intros Hsolve Hex Halive.
  destruct (execute_runDiscipline _ _ _ _ _ _ _ Hsolve Hex) as (_ & _ & [_ Ho] & _).
  unfold DBMode.alive in Halive.
  assert (Hh : exists handled,
             events = handled ++ DBMode.r_events st ++ DBMode.r_unsent st
             /\ DBMode.handleAll parse (consumerAtStart (Hash targetContent) s []) handled
                = Returned (DBMode.r_c st)).
  { destruct (DBMode.r_consumer st); try discriminate; try exact Ho.
    destruct Ho as [Hc Hev]. exists []. split; [exact Hev | by rewrite Hc]. }
  destruct Hh as (handled & Hev & Hh). exists handled.
  destruct (handleAll_collects _ _ _ _ Hh) as (Hre & Hdf & Hhash & _).
  simpl in Hre, Hdf, Hhash.
  conjunctions; [exact Hev | exact Hre |].
  destruct (DBMode.c_diff (DBMode.r_c st)) as [h entities]. simpl in *. by subst.
Qed.

(** X11: whatever the schedule, the error [Update] returns is the aggregate
    over the strategy's resource errors followed by the classified errors
    of a first part of the run's events, in order: an interleaving can make
    errors miss only from the end. *)
Theorem Update_reports_a_first_part_of_the_errors
    s (targetContent : ContentWithHash Content) syncer schedule events errs err :
  DBMode.prepare env s targetContent = Ok syncer ->
  DBMode.Solve env syncer (DBMode.concurrency s) false false = (events, errs) ->
  DBMode.Update env parse s targetContent schedule = DBMode.Returns err ->
  exists handled rest,
    events = handled ++ rest
    /\ err = DBMode.aggregate
               (DBMode.set_resourceErrors s
                  (DBMode.resourceErrors s ++ classifiedErrors parse handled))
               errs.
Proof.
  intros Hprep Hsolve Hret. unfold DBMode.Update in Hret. rewrite Hprep in Hret.
  unfold DBMode.resultOf in Hret.
  destruct (DBMode.execute env parse s targetContent syncer schedule) as [st|] eqn:Hex;
    [|discriminate].
  destruct (execute_runDiscipline _ _ _ _ _ _ _ Hsolve Hex) as (_ & _ & _ & Hr).
  destruct (DBMode.r_update st) eqn:Hu;
    try (destruct (DBMode.r_consumer st); discriminate).
  injection Hret as ->.
  destruct (Hr _ Hu) as (handled & rest & c & Hev & Hh & -> & _).
  exists handled, rest. split; [exact Hev |].
  destruct (handleAll_collects _ _ _ _ Hh) as (Hre & _). simpl in Hre.
  apply aggregate_reads_resourceErrors. by rewrite Hre.
Qed.

(** X12: on an unbuffered result channel, whatever the schedule, the error
    [Update] returns is the aggregate over the strategy's resource errors
    followed by the classified errors of all the events of the run. *)
Theorem Update_reports_every_error_on_an_unbuffered_channel
    s (targetContent : ContentWithHash Content) syncer schedule events errs err :
  DBMode.prepare env s targetContent = Ok syncer ->
  DBMode.Solve env syncer (DBMode.concurrency s) false false = (events, errs) ->
  DBMode.resultChanCap env syncer = 0%nat ->
  DBMode.Update env parse s targetContent schedule = DBMode.Returns err ->
  err = DBMode.aggregate
          (DBMode.set_resourceErrors s
             (DBMode.resourceErrors s ++ classifiedErrors parse events))
          errs.
Proof.
  intros Hprep Hsolve Hcap Hret. unfold DBMode.Update in Hret. rewrite Hprep in Hret.
  unfold DBMode.resultOf in Hret.
  destruct (DBMode.execute env parse s targetContent syncer schedule) as [st|] eqn:Hex;
    [|discriminate].
  destruct (execute_runDiscipline _ _ _ _ _ _ _ Hsolve Hex) as (_ & _ & _ & Hr).
  destruct (DBMode.r_update st) eqn:Hu;
    try (destruct (DBMode.r_consumer st); discriminate).
  injection Hret as ->.
  destruct (Hr _ Hu) as (handled & rest & c & Hev & Hh & -> & Hrest).
  rewrite (Hrest Hcap), app_nil_r in Hev. subst handled.
  destruct (handleAll_collects _ _ _ _ Hh) as (Hre & _). simpl in Hre.
  apply aggregate_reads_resourceErrors. by rewrite Hre.
Qed.



End ScheduleFacts.

(** The consumer in its loop, one event handled and one in the channel. *)
Lemma consumer_and_Update_exclude_each_other_witness :
  exists st,
    DBMode.execute (collaborators twoEvents None 1) parseRawResourceError_spec
      gatewayStrategy (target "abc123") tt midRun = Some st
    /\ DBMode.r_consumer st = DBMode.InSelect
    /\ DBMode.r_locked st = true
    /\ DBMode.r_update st <> DBMode.AtAggregate.
Proof.
  eexists. split; [by_evaluation |].
  split; [by_evaluation |]. split; [by_evaluation |].
  intros Hu.
  refine (proj1 (consumer_and_Update_exclude_each_other
                   (collaborators twoEvents None 1) parseRawResourceError_spec
                   gatewayStrategy (target "abc123") tt midRun _ _) (conj _ Hu));
    by_evaluation.
Defined.

Lemma events_are_handled_in_order_witness :
  exists st,
    DBMode.execute (collaborators twoEvents None 1) parseRawResourceError_spec
      gatewayStrategy (target "abc123") tt midRun = Some st
    /\ DBMode.r_events st = [appliedRouteCreate]
    /\ exists handled,
         twoEvents = handled ++ DBMode.r_events st ++ DBMode.r_unsent st
         /\ DBMode.resourceErrors (DBMode.c_s (DBMode.r_c st))
            = DBMode.resourceErrors gatewayStrategy
                ++ classifiedErrors parseRawResourceError_spec handled
         /\ DBMode.c_diff (DBMode.r_c st)
            = ConfigDiff.mk "abc123" (errorFreeDiffs handled).
Proof.
  eexists. split; [by_evaluation |]. split; [by_evaluation |].
  refine (events_are_handled_in_order
            (collaborators twoEvents None 1) parseRawResourceError_spec
            gatewayStrategy (target "abc123") tt midRun _ twoEvents None _ _ _);
    by_evaluation.
Defined.

(** The failed event left in the channel: nothing of it is reported. *)
Lemma Update_reports_a_first_part_of_the_errors_witness :
  DBMode.Update (collaborators [failedServiceUpdate] None 1) parseRawResourceError_spec
    gatewayStrategy (target "abc123") cancelledEarly = DBMode.Returns None
  /\ exists handled rest,
       [failedServiceUpdate] = handled ++ rest
       /\ None = DBMode.aggregate
                   (DBMode.set_resourceErrors gatewayStrategy
                      (DBMode.resourceErrors gatewayStrategy
                         ++ classifiedErrors parseRawResourceError_spec handled))
                   None.
Proof.
  split; [by_evaluation |].
  refine (Update_reports_a_first_part_of_the_errors
            (collaborators [failedServiceUpdate] None 1) parseRawResourceError_spec
            gatewayStrategy (target "abc123") tt cancelledEarly
            [failedServiceUpdate] None None _ _ _);
    by_evaluation.
Defined.

(** The same events on an unbuffered channel, drained. *)
Lemma Update_reports_every_error_on_an_unbuffered_channel_witness :
  DBMode.Update (collaborators twoEvents None 0) parseRawResourceError_spec
    gatewayStrategy (target "abc123") (DBMode.drained twoEvents)
  = DBMode.Returns
      (Some (UpdateError [sampleResourceError]
               (errorString "go-database-reconciler found resource errors")))
  /\ Some (UpdateError [sampleResourceError]
             (errorString "go-database-reconciler found resource errors"))
     = DBMode.aggregate
         (DBMode.set_resourceErrors gatewayStrategy
            (DBMode.resourceErrors gatewayStrategy
               ++ classifiedErrors parseRawResourceError_spec twoEvents))
         None.
Proof.
  assert (H : DBMode.Update (collaborators twoEvents None 0) parseRawResourceError_spec
                gatewayStrategy (target "abc123") (DBMode.drained twoEvents)
              = DBMode.Returns
                  (Some (UpdateError [sampleResourceError]
                           (errorString "go-database-reconciler found resource errors"))))
    by by_evaluation.
  split; [exact H |].
  exact (Update_reports_every_error_on_an_unbuffered_channel
           (collaborators twoEvents None 0) parseRawResourceError_spec
           gatewayStrategy (target "abc123") tt (DBMode.drained twoEvents)
           twoEvents None _ eq_refl eq_refl eq_refl H).
Defined.



(** ** The whole-state strategy, further *)

Section InMemoryMore.

Context {Content DBLessConfig FlatEntityError : Type}.
Variable json_Marshal : DBLessConfig -> result (list Byte.byte).
Variable parseFlatEntityErrors :
  option (list Byte.byte) -> option (list FlatEntityError) * option error.

Local Abbreviation Update :=
  (@InMemory.Update Content DBLessConfig FlatEntityError json_Marshal parseFlatEntityErrors).

(** X15: [Update] returns a nil error exactly when the serialization and
    the reload both succeed, and then it returns nothing else either:
    entity errors or a raw body never come without an error. *)
Theorem whole_state_Update_is_nil_exactly_on_success
    (s : InMemory.UpdateStrategyInMemory) (targetState : ContentWithHash Content) :
  (fst (fst (Update s targetState)) = None <->
   exists config body,
     json_Marshal (InMemory.Convert (InMemory.configConverter s) (Content_ targetState))
       = Ok config
     /\ InMemory.ReloadDeclarativeRawConfig (InMemory.configService s) config true true
        = (body, None))
  /\ (fst (fst (Update s targetState)) = None -> Update s targetState = (None, None, None)).
Proof.
  unfold InMemory.Update.
  destruct (json_Marshal _) as [config|err] eqn:Hm; simpl.
  - destruct (InMemory.ReloadDeclarativeRawConfig _ config true true)
      as [body [reloadErr|]] eqn:Hr; simpl.
    + destruct (parseFlatEntityErrors body) as [entityErrs [parseErr|]]; simpl;
        (split; [split; [discriminate | intros (c & b & Hc & Hb)] | discriminate]);
        injection Hc as <-; rewrite Hr in Hb; discriminate.
    + split; [|reflexivity]. split; [|reflexivity]. intros _. by exists config, body.
  - split; [|discriminate]. split; [discriminate |].
    intros (c & b & Hc & _). discriminate.
Qed.

(** X16: [Update] consults the config service for nothing but the reload
    of the serialized configuration with hash check and flattened errors
    both on, and it does not look at the target's hash: two strategies with
    the same converter whose services agree on that one call, given targets
    of the same content, return the same. *)
Theorem whole_state_Update_makes_one_reload_call
    (service1 service2 : InMemory.ConfigService)
    (converter : InMemory.ContentToDBLessConfigConverter)
    (target1 target2 : ContentWithHash Content) :
  Content_ target1 = Content_ target2 ->
  (forall config,
     json_Marshal (InMemory.Convert converter (Content_ target1)) = Ok config ->
     InMemory.ReloadDeclarativeRawConfig service1 config true true
     = InMemory.ReloadDeclarativeRawConfig service2 config true true) ->
  Update (InMemory.NewUpdateStrategyInMemory service1 converter) target1
  = Update (InMemory.NewUpdateStrategyInMemory service2 converter) target2.
Proof.
  intros Hc Hagree. unfold InMemory.Update. simpl. rewrite <- Hc.
  destruct (json_Marshal _) as [config|err] eqn:Hm; [|reflexivity].
  by rewrite (Hagree config eq_refl).
Qed.

(** X17: a failure to serialize the converted configuration is returned
    wrapped, with no entity errors and no raw body, whatever the config
    service and the parser would do. *)
Theorem serialization_failure_is_returned_alone
    (s : InMemory.UpdateStrategyInMemory) (targetState : ContentWithHash Content) err :
  json_Marshal (InMemory.Convert (InMemory.configConverter s) (Content_ targetState))
    = Err err ->
  Update s targetState
  = (Some (Errorf "constructing kong configuration: %w" [] [err]), None, None)
  /\ fmtWrapped (Errorf "constructing kong configuration: %w" [] [err]) = Some [err].
Proof.
  intros Hm. unfold InMemory.Update. by rewrite Hm.
Qed.

End InMemoryMore.

(** A service that accepts the reload. *)
Lemma whole_state_Update_is_nil_exactly_on_success_witness :
  InMemory.Update marshalString parseAsOne
    (InMemory.NewUpdateStrategyInMemory acceptingService identityConverter) wholeStateTarget
  = (None, None, None).
Proof.
  apply (proj2 (whole_state_Update_is_nil_exactly_on_success marshalString parseAsOne
                  (InMemory.NewUpdateStrategyInMemory acceptingService identityConverter)
                  wholeStateTarget)).
  reflexivity.
Defined.

(** A service that fails on other flags is as good as one that accepts
    everything, and the hash makes no difference. *)
Lemma whole_state_Update_makes_one_reload_call_witness :
  InMemory.Update marshalString parseAsOne
    (InMemory.NewUpdateStrategyInMemory pickyService identityConverter) wholeStateTarget
  = InMemory.Update marshalString parseAsOne
      (InMemory.NewUpdateStrategyInMemory acceptingService identityConverter)
      {| Content_ := "{}"; Hash := "def456" |}.
Proof.
  apply (whole_state_Update_makes_one_reload_call marshalString parseAsOne
           pickyService acceptingService identityConverter
           wholeStateTarget {| Content_ := "{}"; Hash := "def456" |}).
  - reflexivity.
  - intros config _. reflexivity.
Defined.

Lemma serialization_failure_is_returned_alone_witness :
  InMemory.Update marshalFails parseAsOne
    (InMemory.NewUpdateStrategyInMemory failingService identityConverter) wholeStateTarget
  = (Some (Errorf "constructing kong configuration: %w" []
                  [Opaque {| Error := "json: unsupported value" |}]),
     None, None).
Proof.
  exact (proj1 (serialization_failure_is_returned_alone marshalFails parseAsOne
                  (InMemory.NewUpdateStrategyInMemory failingService identityConverter)
                  wholeStateTarget (Opaque {| Error := "json: unsupported value" |})
                  eq_refl)).
Defined.

(** ** The stages before the syncer *)

Section StageFacts.

Context {Client DumpConfig Version Content RawState KongState Syncer : Type}.
Variable env : @DBMode.Collaborators Client DumpConfig Version Content RawState KongState Syncer.
Variable parse : rawResourceError.t -> ResourceError.t * option error.

(** X18: a failure to dump the live configuration reaches the caller
    wrapped twice, by [currentState] and then by [Update], with the
    original error innermost; no schedule matters, the run is not started. *)
Theorem dump_failure_is_wrapped_twice
    s (targetContent : ContentWithHash Content) schedule err :
  DBMode.dump_Get env (DBMode.client s) (DBMode.dumpConfig s) = Err err ->
  DBMode.Update env parse s targetContent schedule
  = DBMode.Returns
      (Some (Errorf "failed getting current state for %s: %w"
               [DBMode.BaseRootURL env (DBMode.client s)]
               [Errorf "loading configuration from kong: %w" [] [err]])).
Proof.
  intros Hd. unfold DBMode.Update, DBMode.prepare, DBMode.currentState. by rewrite Hd.
Qed.

(** X19: what a failure of [state.Get] comes to depends on the stage: on
    the dumped live state it is returned wrapped as a failure to get the
    current state; on the rendered target state it is returned as a
    conflict, bare, just as a failure of the rendering itself is. *)
Theorem state_failure_by_stage
    s (targetContent : ContentWithHash Content) schedule rawState err :
  DBMode.dump_Get env (DBMode.client s) (DBMode.dumpConfig s) = Ok rawState ->
  let returned := DBMode.Update env parse s targetContent schedule in
  let render cs :=
    DBMode.file_Get env (Content_ targetContent)
      {| DBMode.CurrentState := cs; DBMode.KongVersion := DBMode.version s |}
      (DBMode.dumpConfig s) (DBMode.client s) in
  (DBMode.state_Get env rawState = Err err ->
   returned = DBMode.Returns
                (Some (Errorf "failed getting current state for %s: %w"
                         [DBMode.BaseRootURL env (DBMode.client s)] [err])))
  /\ (forall cs,
        DBMode.state_Get env rawState = Ok cs ->
        render cs = Err err ->
        returned = DBMode.Returns (Some (ConfigConflictError err)))
  /\ (forall cs rendered,
        DBMode.state_Get env rawState = Ok cs ->
        render cs = Ok rendered ->
        DBMode.state_Get env rendered = Err err ->
        returned = DBMode.Returns (Some (ConfigConflictError err))).
Proof.
  intros Hd returned render. subst returned render.
  unfold DBMode.Update, DBMode.prepare, DBMode.currentState, DBMode.targetState.
  rewrite Hd. conjunctions.
  - intros Hs. by rewrite Hs.
  - intros cs Hs Hf. by rewrite Hs, Hf.
  - intros cs rendered Hs Hf Hs'. by rewrite Hs, Hf, Hs'.
Qed.

(** X20: the call gets as far as its run exactly when the dump, the two
    state constructions, the rendering and the construction of the syncer
    all succeed; the syncer is then the one built from the live and the
    rendered state for the strategy's client, with warnings silenced,
    licenses included, entity actions enabled and the strategy's Konnect
    flag. *)
Theorem prepare_succeeds_exactly s (targetContent : ContentWithHash Content) syncer :
  DBMode.prepare env s targetContent = Ok syncer <->
  exists rawState cs rendered ts,
    DBMode.dump_Get env (DBMode.client s) (DBMode.dumpConfig s) = Ok rawState
    /\ DBMode.state_Get env rawState = Ok cs
    /\ DBMode.file_Get env (Content_ targetContent)
         {| DBMode.CurrentState := cs; DBMode.KongVersion := DBMode.version s |}
         (DBMode.dumpConfig s) (DBMode.client s) = Ok rendered
    /\ DBMode.state_Get env rendered = Ok ts
    /\ DBMode.diff_NewSyncer env
         {| DBMode.so_CurrentState := cs; DBMode.so_TargetState := ts;
            DBMode.so_KongClient := DBMode.client s;
            DBMode.so_SilenceWarnings := true;
            DBMode.so_IsKonnect := DBMode.isKonnect s;
            DBMode.so_IncludeLicenses := true;
            DBMode.so_EnableEntityActions := true |} = Ok syncer.
Proof.
  unfold DBMode.prepare, DBMode.currentState, DBMode.targetState. split.
  - intros H.
    destruct (DBMode.dump_Get env _ _) as [rawState|e1] eqn:Hd; [|discriminate].
    destruct (DBMode.state_Get env rawState) as [cs|e2] eqn:Hs; [|discriminate].
    destruct (DBMode.file_Get env _ _ _ _) as [rendered|e3] eqn:Hf; [|discriminate].
    destruct (DBMode.state_Get env rendered) as [ts|e4] eqn:Hs'; [|discriminate].
    destruct (DBMode.diff_NewSyncer env _) as [sy|e5] eqn:Hn; [|discriminate].
    injection H as ->. by exists rawState, cs, rendered, ts.
  - intros (rawState & cs & rendered & ts & Hd & Hs & Hf & Hs' & Hn).
    by rewrite Hd, Hs, Hf, Hs', Hn.
Qed.

End StageFacts.

Lemma dump_failure_is_wrapped_twice_witness :
  DBMode.Update unreachableCollaborators parseRawResourceError_spec gatewayStrategy
    (target "abc123") (DBMode.drained [])
  = DBMode.Returns
      (Some (Errorf "failed getting current state for %s: %w" ["http://kong:8001"]
               [Errorf "loading configuration from kong: %w" []
                       [Opaque {| Error := "connection refused" |}]])).
Proof.
  exact (dump_failure_is_wrapped_twice unreachableCollaborators parseRawResourceError_spec
           gatewayStrategy (target "abc123") (DBMode.drained [])
           (Opaque {| Error := "connection refused" |}) eq_refl).
Defined.

(** A live state and a rendered state that [state.Get] refuses. *)
Lemma state_failure_by_stage_witness :
  DBMode.Update (stagedCollaborators false true) parseRawResourceError_spec gatewayStrategy
    (target "abc123") (DBMode.drained [])
  = DBMode.Returns
      (Some (Errorf "failed getting current state for %s: %w" ["http://kong:8001"]
               [Opaque {| Error := "building state: duplicate id" |}]))
  /\ DBMode.Update (stagedCollaborators true false) parseRawResourceError_spec
       gatewayStrategy (target "abc123") (DBMode.drained [])
     = DBMode.Returns
         (Some (ConfigConflictError (Opaque {| Error := "building state: duplicate id" |}))).
Proof.
  split.
  - exact (proj1 (state_failure_by_stage (stagedCollaborators false true)
                    parseRawResourceError_spec gatewayStrategy (target "abc123")
                    (DBMode.drained []) false
                    (Opaque {| Error := "building state: duplicate id" |}) eq_refl)
                 eq_refl).
  - exact (proj2 (proj2 (state_failure_by_stage (stagedCollaborators true false)
                    parseRawResourceError_spec gatewayStrategy (target "abc123")
                    (DBMode.drained []) true
                    (Opaque {| Error := "building state: duplicate id" |}) eq_refl))
                 tt false eq_refl eq_refl eq_refl).
Defined.

(** ** What the hash and the Konnect flag reach *)

Section RelabellingFacts.

Context {Client DumpConfig Version : Type}.
Variable parse : rawResourceError.t -> ResourceError.t * option error.
Variable onStrategy :
  @DBMode.UpdateStrategyDBMode Client DumpConfig Version ->
  @DBMode.UpdateStrategyDBMode Client DumpConfig Version.
Hypothesis Hkeeps : keepsResourceErrors onStrategy.
Variable cap : nat.
Variable errs : option (list error).
Variable diag : option ClientDiagnostic.
Variables hash hash' : string.

Lemma handleEvent_relabel c event :
  DBMode.handleEvent parse (relabelConsumer onStrategy hash' c) event
  = match DBMode.handleEvent parse c event with
    | Returned c' => Returned (relabelConsumer onStrategy hash' c')
    | Panicked msg => Panicked msg
    end.
Proof.
  destruct Hkeeps as [Hres Hset].
  unfold DBMode.handleEvent. destruct (EntityAction.Error event) as [eventError|]; simpl.
  - destruct (resourceErrorFromEntityAction parse event) as [[parsed [err|]]|msg];
      simpl; try reflexivity.
    unfold relabelConsumer. simpl. by rewrite Hset, Hres.
  - reflexivity.
Qed.

Lemma consume_relabel st event unsent events :
  DBMode.consume parse (relabel onStrategy hash' st) event unsent events
  = relabel onStrategy hash' (DBMode.consume parse st event unsent events).
Proof.
  unfold DBMode.consume. simpl. rewrite handleEvent_relabel.
  by destruct (DBMode.handleEvent parse (DBMode.r_c st) event).
Qed.

Lemma aggregate_relabel s :
  DBMode.aggregate (onStrategy s) errs = DBMode.aggregate s errs.
Proof.
  destruct Hkeeps as [Hres _]. unfold DBMode.aggregate. by rewrite Hres.
Qed.

Lemma step_relabel a st :
  DBMode.step parse cap errs diag hash' a (relabel onStrategy hash' st)
  = option_map (relabel onStrategy hash') (DBMode.step parse cap errs diag hash a st).
Proof.
  destruct st as [u c k l cn un ev D].
  destruct a; simpl.
  - by destruct c, l.
  - destruct u; try reflexivity. destruct un; try reflexivity.
    by destruct (Nat.ltb (length ev) cap).
  - destruct u; try reflexivity. destruct un; try reflexivity.
    destruct c; try reflexivity. destruct ev; try reflexivity.
    simpl. f_equal. by rewrite <- consume_relabel.
  - destruct c; try reflexivity. destruct ev; try reflexivity.
    simpl. f_equal. by rewrite <- consume_relabel.
  - destruct u; try reflexivity. by destruct un.
  - by destruct u.
  - destruct c; try reflexivity. destruct cn; try reflexivity.
    simpl. f_equal. unfold relabel. simpl. f_equal.
    unfold DBMode.flushOnDone. destruct diag; [|reflexivity].
    by rewrite List.map_app.
  - destruct u; try reflexivity. by destruct l.
  - destruct u; try reflexivity. simpl. f_equal. unfold relabel. simpl.
    by rewrite aggregate_relabel.
Qed.

Lemma run_relabel schedule st :
  DBMode.run parse cap errs diag hash' schedule (relabel onStrategy hash' st)
  = option_map (relabel onStrategy hash') (DBMode.run parse cap errs diag hash schedule st).
Proof.
  revert st. induction schedule as [|a rest IH]; intros st; [reflexivity|].
  simpl. change (DBMode.alive (relabel onStrategy hash' st)) with (DBMode.alive st).
  destruct (DBMode.alive st); simpl; [|reflexivity].
  rewrite step_relabel.
  destruct (DBMode.step parse cap errs diag hash a st) as [st'|]; simpl; [apply IH | reflexivity].
Qed.

Lemma resultOf_relabel st :
  DBMode.resultOf (option_map (relabel onStrategy hash') st) = DBMode.resultOf st.
Proof. by destruct st. Qed.

End RelabellingFacts.

Section ReachFacts.

Context {Client DumpConfig Version Content RawState KongState Syncer : Type}.
Variable env : @DBMode.Collaborators Client DumpConfig Version Content RawState KongState Syncer.
Variable parse : rawResourceError.t -> ResourceError.t * option error.

(** X21: the target's hash reaches nothing but the diagnostics record.
    For two targets of the same content, [Update] comes to the same under
    every schedule, and what the run has sent to the diagnostics sink is
    the same up to the hash the records carry. *)
Theorem hash_reaches_only_the_diagnostics
    s (target1 target2 : ContentWithHash Content) schedule :
  Content_ target1 = Content_ target2 ->
  DBMode.Update env parse s target1 schedule = DBMode.Update env parse s target2 schedule
  /\ forall syncer,
       option_map (fun st => List.map (relabelDiff (Hash target2)) (DBMode.r_Diffs st))
                  (DBMode.execute env parse s target1 syncer schedule)
       = option_map DBMode.r_Diffs (DBMode.execute env parse s target2 syncer schedule).
Proof.
  intros Hc.
  assert (Hk : keepsResourceErrors (fun s0 : @DBMode.UpdateStrategyDBMode
                                              Client DumpConfig Version => s0))
    by (split; reflexivity).
  assert (Hex : forall syncer,
             DBMode.execute env parse s target2 syncer schedule
             = option_map (relabel (fun s0 => s0) (Hash target2))
                 (DBMode.execute env parse s target1 syncer schedule)).
  { intros syncer. unfold DBMode.execute.
    destruct (DBMode.Solve env syncer (DBMode.concurrency s) false false) as [events errs].
    rewrite <- (run_relabel parse _ Hk). reflexivity. }
  split.
  - unfold DBMode.Update.
    replace (DBMode.prepare env s target2) with (DBMode.prepare env s target1)
      by (unfold DBMode.prepare; by rewrite Hc).
    destruct (DBMode.prepare env s target1) as [syncer|err]; [|reflexivity].
    by rewrite Hex, resultOf_relabel.
  - intros syncer. rewrite Hex.
    by destruct (DBMode.execute env parse s target1 syncer schedule).
Qed.

(** X22: past the construction of the syncer the Konnect flag plays no
    part. Run with the same syncer, the strategy with the flag set either
    way comes to the same result under every schedule and sends the same to
    the diagnostics sink; the consumer classifies failed events and buffers
    diffs for both. *)
Theorem konnect_flag_reaches_only_the_syncer
    s (targetContent : ContentWithHash Content) syncer schedule b :
  DBMode.resultOf (DBMode.execute env parse (DBMode.set_isKonnect s b)
                     targetContent syncer schedule)
  = DBMode.resultOf (DBMode.execute env parse s targetContent syncer schedule)
  /\ option_map DBMode.r_Diffs
       (DBMode.execute env parse (DBMode.set_isKonnect s b) targetContent syncer schedule)
     = option_map DBMode.r_Diffs
         (DBMode.execute env parse s targetContent syncer schedule).
Proof.
  assert (Hk : keepsResourceErrors (fun s0 : @DBMode.UpdateStrategyDBMode
                                              Client DumpConfig Version =>
                                      DBMode.set_isKonnect s0 b))
    by (split; reflexivity).
  assert (Hex :
            DBMode.execute env parse (DBMode.set_isKonnect s b) targetContent syncer schedule
            = option_map (relabel (fun s0 => DBMode.set_isKonnect s0 b) (Hash targetContent))
                (DBMode.execute env parse s targetContent syncer schedule)).
  { unfold DBMode.execute. simpl.
    destruct (DBMode.Solve env syncer (DBMode.concurrency s) false false) as [events errs].
    rewrite <- (run_relabel parse _ Hk). reflexivity. }
  rewrite Hex. split; [apply resultOf_relabel|].
  destruct (DBMode.execute env parse s targetContent syncer schedule) as [st|] eqn:He;
    [|reflexivity].
  simpl. f_equal.
  destruct (execute_flushDiscipline env parse s targetContent syncer schedule st He)
    as [Hh Hd].
  assert (HD : DBMode.r_Diffs st = [] \/ DBMode.r_Diffs st = [DBMode.c_diff (DBMode.r_c st)]).
  { destruct (DBMode.r_consumer st); try (by left).
    destruct Hd as [_ ->]. unfold DBMode.flushOnDone.
    destruct (DBMode.diagnostic s); [by right | by left]. }
  destruct HD as [-> | ->]; [reflexivity|]. simpl. f_equal.
  unfold relabelDiff. rewrite <- Hh. by destruct (DBMode.c_diff (DBMode.r_c st)).
Qed.

End ReachFacts.

(** Two targets of one content under the schedule that leaves an event in
    the channel. *)
Lemma hash_reaches_only_the_diagnostics_witness :
  DBMode.Update (collaborators [failedServiceUpdate] None 1) parseRawResourceError_spec
    gatewayStrategy (target "abc123") cancelledEarly
  = DBMode.Update (collaborators [failedServiceUpdate] None 1) parseRawResourceError_spec
      gatewayStrategy (target "def456") cancelledEarly.
Proof.
  exact (proj1 (hash_reaches_only_the_diagnostics
                  (collaborators [failedServiceUpdate] None 1) parseRawResourceError_spec
                  gatewayStrategy (target "abc123") (target "def456") cancelledEarly
                  eq_refl)).
Defined.

(* ===================================================================== *)
(** * Properties of crds                                                  *)
(* ===================================================================== *)

Section loFacts.

Context {A : Type}.

Lemma ContainsBy_of_a_total_predicate (collection : list A) (p : A -> bool) :
  lo.ContainsBy collection (fun x => Returned (p x)) = Returned (existsb p collection).
Proof.
  induction collection as [|x rest IH]; [reflexivity|].
  simpl. destruct (p x); [reflexivity | exact IH].
Qed.

Lemma EveryBy_forallb (collection : list A) (p : A -> bool) :
  lo.EveryBy collection p = forallb p collection.
Proof.
  induction collection as [|x rest IH]; [reflexivity|].
  simpl. destruct (p x); [exact IH | reflexivity].
Qed.

End loFacts.

Lemma omap_id_Some {A : Type} (l : list A) : omap id (List.map Some l) = l.
Proof. induction l as [|x l IH]; [reflexivity|]. simpl. f_equal. exact IH. Qed.

Lemma errors_Join_nil (errs : list (option crds.error)) :
  crds.errors_Join errs = None <-> Forall (eq None) errs.
Proof.
  unfold crds.errors_Join. induction errs as [|[e|] errs IH]; simpl.
  - split; [constructor | reflexivity].
  - split; [discriminate | intros H; inversion H; discriminate].
  - rewrite IH. split; [by constructor | intros H; by inversion H].
Qed.

Section crdsFacts.

Context {Mgr World Duration Handle : Type}.
Variable rt : @crds.Runtime Mgr World Duration Handle.

Local Abbreviation DynamicController := (@crds.DynamicController Mgr World Duration).

Lemma FilterMap_loop_attempts (controllers : list crds.Controller) (mgr : Mgr) :
  forall i (w : World) result,
    lo.FilterMap_loop i controllers
      (fun c (_ : nat) w =>
         match crds.SetupWithManager c mgr w with
         | (w', Some err) => (w', (Some err, true))
         | (w', None) => (w', (None, false))
         end) w result
    = (fst (attempts controllers mgr w),
       result ++ List.map Some (omap id (snd (attempts controllers mgr w)))).
Proof.
  induction controllers as [|c rest IH]; intros i w result; simpl.
  - by rewrite app_nil_r.
  - destruct (crds.SetupWithManager c mgr w) as [w' [err|]]; simpl; rewrite IH;
      destruct (attempts rest mgr w') as [w'' errs]; simpl; [|reflexivity].
    by rewrite <- app_assoc.
Qed.

Lemma setupControllers_attempts (r : DynamicController) mgr w :
  crds.setupControllers r mgr w
  = (fst (attempts (crds.Controllers r) mgr w),
     crds.errors_Join (snd (attempts (crds.Controllers r) mgr w))).
Proof.
  unfold crds.setupControllers, lo.FilterMap. rewrite FilterMap_loop_attempts. simpl.
  unfold crds.errors_Join. by rewrite omap_id_Some.
Qed.

(** X23: [setupControllers] sets up every controller, in order, each in
    the world the one before it left and whatever that one returned; it
    returns nil exactly when none of them failed, and otherwise the join
    of exactly the errors returned, in order. *)
Theorem setupControllers_attempts_every_controller (r : DynamicController) mgr w :
  let outcome := attempts (crds.Controllers r) mgr w in
  length (snd outcome) = length (crds.Controllers r)
  /\ fst (crds.setupControllers r mgr w) = fst outcome
  /\ (snd (crds.setupControllers r mgr w) = None <-> Forall (eq None) (snd outcome))
  /\ (forall err,
        snd (crds.setupControllers r mgr w) = Some err ->
        err = crds.joinError (omap id (snd outcome))).
Proof.
  intros outcome. subst outcome. rewrite setupControllers_attempts. simpl. conjunctions.
  - generalize w. induction (crds.Controllers r) as [|c rest IH]; intros w0; [reflexivity|].
    simpl. destruct (crds.SetupWithManager c mgr w0) as [w' err].
    specialize (IH w'). destruct (attempts rest mgr w') as [w'' errs]. simpl in *.
    by rewrite IH.
  - reflexivity.
  - apply errors_Join_nil.
  - intros err. unfold crds.errors_Join.
    destruct (omap id (snd (attempts (crds.Controllers r) mgr w))); [discriminate|].
    by intros [= <-].
Qed.

Lemma isOneOfRequiredCRDs_of_a_CRD (r : DynamicController) crd :
  crds.isOneOfRequiredCRDs r (crds.CRDObject (Some crd))
  = Returned (existsb (fun gvr =>
                String.eqb (crds.Spec_Group crd) (crds.Group gvr)
                && String.eqb (crds.Status_AcceptedNames_Plural crd) (crds.Resource gvr)
                && existsb (fun crdv => String.eqb (crds.crdv_Name crdv) (crds.Version gvr))
                     (crds.Spec_Versions crd))
              (crds.RequiredCRDs r)).
Proof.
  unfold crds.isOneOfRequiredCRDs.
  induction (crds.RequiredCRDs r) as [|gvr rest IH]; [reflexivity|].
  simpl. rewrite ContainsBy_of_a_total_predicate. simpl.
  destruct (_ && _); [reflexivity | exact IH].
Qed.

(** X24: for a CustomResourceDefinition, [isOneOfRequiredCRDs] returns,
    and returns true exactly when one of [RequiredCRDs] has the group of
    the definition's spec, the plural name accepted in its status as the
    resource, and one of the spec's versions as the version. *)
Theorem isOneOfRequiredCRDs_finds_a_provided_requirement (r : DynamicController) crd :
  (exists found, crds.isOneOfRequiredCRDs r (crds.CRDObject (Some crd)) = Returned found)
  /\ (crds.isOneOfRequiredCRDs r (crds.CRDObject (Some crd)) = Returned true
      <-> exists gvr, In gvr (crds.RequiredCRDs r) /\ provides crd gvr).
Proof.
  rewrite isOneOfRequiredCRDs_of_a_CRD. split; [by eexists|].
  split.
  - intros [= H]. apply existsb_exists in H as (gvr & Hin & H).
    apply andb_true_iff in H as [H Hv]. apply andb_true_iff in H as [Hg Hp].
    exists gvr. split; [exact Hin|]. unfold provides. conjunctions.
    + by apply String.eqb_eq.
    + by apply String.eqb_eq.
    + apply existsb_exists in Hv as (crdv & Hcv & He).
      apply String.eqb_eq in He. rewrite <- He. by apply in_map.
  - intros (gvr & Hin & Hg & Hp & Hv). f_equal.
    apply existsb_exists. exists gvr. split; [exact Hin|].
    apply andb_true_iff. split; [apply andb_true_iff; split; by apply String.eqb_eq|].
    apply in_map_iff in Hv as (crdv & He & Hcv).
    apply existsb_exists. exists crdv. split; [exact Hcv | by apply String.eqb_eq].
Qed.

(** X25: [isOneOfRequiredCRDs] panics exactly on a nil
    [*CustomResourceDefinition] when there is a required CRD to compare it
    with; objects of other types and the nil interface are not required
    CRDs. *)
Theorem isOneOfRequiredCRDs_panics_exactly (r : DynamicController) obj :
  ((exists msg, crds.isOneOfRequiredCRDs r obj = Panicked msg)
   <-> obj = crds.CRDObject None /\ crds.RequiredCRDs r <> [])
  /\ (forall typeName, obj = crds.NilObject \/ obj = crds.OtherObject typeName ->
                       crds.isOneOfRequiredCRDs r obj = Returned false).
Proof.
  split.
  - destruct obj as [|[crd|]|typeName].
    + split; [intros [msg H]; discriminate | intros [H _]; discriminate].
    + rewrite isOneOfRequiredCRDs_of_a_CRD.
      split; [intros [msg H]; discriminate | intros [H _]; discriminate].
    + unfold crds.isOneOfRequiredCRDs.
      destruct (crds.RequiredCRDs r) as [|gvr rest]; simpl.
      * split; [intros [msg H]; discriminate | intros [_ H]; by destruct H].
      * split; [intros _; by split | intros _; by eexists].
    + split; [intros [msg H]; discriminate | intros [H _]; discriminate].
  - intros typeName [-> | ->]; reflexivity.
Qed.


Lemma Reconcile_when_done (r : DynamicController) w req :
  crds.startControllersOnce r = true ->
  exists r',
    crds.Reconcile rt r w req
    = (r', w,
       (crds.zeroResult,
        match crds.client_Get rt w (crds.Manager r) (crds.req_NamespacedName req) with
        | Some err => if crds.IsNotFound rt err then None else Some err
        | None => None
        end))
    /\ crds.startControllersOnce r' = true
    /\ setupLines (crds.Log r') = setupLines (crds.Log r).
Proof.
  intros Hdone. unfold crds.Reconcile.
  destruct (crds.client_Get rt w (crds.Manager r) (crds.req_NamespacedName req)) as [err|].
  - destruct (crds.IsNotFound rt err); eexists; (split; [reflexivity|]); split; try exact Hdone;
      try reflexivity.
    unfold setupLines. simpl. by rewrite List.filter_app, app_nil_r.
  - change (crds.allRequiredCRDsInstalled rt (crds.logged r _) w)
      with (crds.allRequiredCRDsInstalled rt r w).
    destruct (crds.allRequiredCRDsInstalled rt r w); simpl.
    + unfold crds.Once_Do. simpl. rewrite Hdone.
      eexists; split; [reflexivity|]. split; [exact Hdone|].
      unfold setupLines. simpl. by rewrite List.filter_app, app_nil_r.
    + eexists; split; [reflexivity|]. split; [exact Hdone|].
      unfold setupLines. simpl. rewrite !List.filter_app. simpl. by rewrite !app_nil_r.
Qed.

(** X27: what [Reconcile] never does. It returns the zero [Result], leaves
    the manager, the timeout, the controllers and the required CRDs of the
    controller as they are, only adds to the log, and never resets the
    [sync.Once]; and unless the object is there, all required CRDs are
    installed and the [Once] was not done, it leaves the world and the
    [Once] alone. *)
Theorem Reconcile_frame (r : DynamicController) w req :
  let after := crds.Reconcile rt r w req in
  let r' := fst (fst after) in
  fst (snd after) = crds.zeroResult
  /\ crds.Manager r' = crds.Manager r
  /\ crds.CacheSyncTimeout r' = crds.CacheSyncTimeout r
  /\ crds.Controllers r' = crds.Controllers r
  /\ crds.RequiredCRDs r' = crds.RequiredCRDs r
  /\ (exists lines, crds.Log r' = crds.Log r ++ lines)
  /\ (crds.startControllersOnce r = true -> crds.startControllersOnce r' = true)
  /\ (crds.client_Get rt w (crds.Manager r) (crds.req_NamespacedName req) <> None
      \/ crds.allRequiredCRDsInstalled rt r w = false
      \/ crds.startControllersOnce r = true ->
      snd (fst after) = w /\ crds.startControllersOnce r' = crds.startControllersOnce r).
Proof.
  intros after r'. subst r' after. unfold crds.Reconcile.
  destruct (crds.client_Get rt w (crds.Manager r) (crds.req_NamespacedName req)) as [err|].
  - destruct (crds.IsNotFound rt err); simpl; conjunctions; try reflexivity; try done;
      try (by eexists); try (exists []; by rewrite app_nil_r).
  - change (crds.allRequiredCRDsInstalled rt (crds.logged r _) w)
      with (crds.allRequiredCRDsInstalled rt r w).
    destruct (crds.allRequiredCRDsInstalled rt r w); simpl.
    + unfold crds.Once_Do. simpl.
      destruct (crds.startControllersOnce r) eqn:Hdone; simpl.
      * conjunctions; try reflexivity; try done; try (by eexists).
      * change (crds.setupControllers (crds.logged (crds.logged r _) _) (crds.Manager r) w)
          with (crds.setupControllers r (crds.Manager r) w).
        destruct (crds.setupControllers r (crds.Manager r) w) as [w1 [err|]]; simpl;
          conjunctions; try reflexivity; try done;
          try (rewrite <- app_assoc; by eexists);
          intros [H | [H | H]]; done.
    + conjunctions; try reflexivity; try done.
      rewrite <- app_assoc. by eexists.
Qed.

(** X28: once the [sync.Once] is done, [Reconcile] sets up no controller
    and reports no set-up error: the world stays as it is, nothing is
    logged about a start of the controllers, and the error returned is the
    error of [Get], unless that is a not-found error, or nil. *)
Theorem Reconcile_after_the_start (r : DynamicController) w req :
  crds.startControllersOnce r = true ->
  let after := crds.Reconcile rt r w req in
  snd (fst after) = w
  /\ snd after
     = (crds.zeroResult,
        match crds.client_Get rt w (crds.Manager r) (crds.req_NamespacedName req) with
        | Some err => if crds.IsNotFound rt err then None else Some err
        | None => None
        end)
  /\ crds.startControllersOnce (fst (fst after)) = true
  /\ setupLines (crds.Log (fst (fst after))) = setupLines (crds.Log r).
Proof.
  intros Hdone after. subst after.
  destruct (Reconcile_when_done r w req Hdone) as (r' & -> & Hd & Hl). by simpl.
Qed.

Lemma Reconcile_setupLines (r : DynamicController) w req :
  let r' := fst (fst (crds.Reconcile rt r w req)) in
  (crds.startControllersOnce r = true ->
   crds.startControllersOnce r' = true
   /\ setupLines (crds.Log r') = setupLines (crds.Log r))
  /\ (crds.startControllersOnce r = false ->
      (crds.startControllersOnce r' = false
       /\ setupLines (crds.Log r') = setupLines (crds.Log r))
      \/ (crds.startControllersOnce r' = true
          /\ setupLines (crds.Log r') = S (setupLines (crds.Log r)))).
Proof.
  intros r'. subst r'. split.
  - intros Hdone. destruct (Reconcile_when_done r w req Hdone) as (r' & -> & Hd & Hl).
    by simpl.
  - intros Hnot. unfold crds.Reconcile.
    destruct (crds.client_Get rt w (crds.Manager r) (crds.req_NamespacedName req)) as [err|].
    + left. destruct (crds.IsNotFound rt err); simpl; (split; [exact Hnot|]); try reflexivity.
      unfold setupLines. simpl. by rewrite List.filter_app, app_nil_r.
    + change (crds.allRequiredCRDsInstalled rt (crds.logged r _) w)
        with (crds.allRequiredCRDsInstalled rt r w).
      destruct (crds.allRequiredCRDsInstalled rt r w); simpl.
      * right. unfold crds.Once_Do. simpl. rewrite Hnot.
        change (crds.setupControllers (crds.logged (crds.logged r _) _) (crds.Manager r) w)
          with (crds.setupControllers r (crds.Manager r) w).
        destruct (crds.setupControllers r (crds.Manager r) w) as [w1 [err|]]; simpl;
          (split; [reflexivity|]); unfold setupLines; simpl;
          rewrite !List.filter_app; simpl; rewrite !length_app; simpl; lia.
      * left. split; [exact Hnot|]. unfold setupLines. simpl.
        rewrite !List.filter_app. simpl. by rewrite !app_nil_r.
Qed.

(** X29: over any sequence of [Reconcile] calls, in whatever worlds they
    are made, the controllers are started at most once: the start is logged
    at most once more than it had been, and not at all if the [sync.Once]
    was done before; the [Once] stays done, and is done when the start has
    been logged. There is one result for each call. *)
Theorem controllers_are_started_at_most_once (r : DynamicController) calls :
  let after := crds.Reconciles rt r calls in
  length (snd after) = length calls
  /\ (setupLines (crds.Log r) <= setupLines (crds.Log (fst after))
      <= setupLines (crds.Log r) + (if crds.startControllersOnce r then 0 else 1))%nat
  /\ (crds.startControllersOnce r = true -> crds.startControllersOnce (fst after) = true)
  /\ (setupLines (crds.Log (fst after)) = S (setupLines (crds.Log r)) ->
      crds.startControllersOnce (fst after) = true).
Proof.
  revert r. induction calls as [|[w req] rest IH]; intros r; simpl.
  - conjunctions; try lia; try done; try (destruct (crds.startControllersOnce r); lia).
  - pose proof (Reconcile_setupLines r w req) as [Hdone Hnot].
    destruct (crds.Reconcile rt r w req) as [[r1 w1] res]. simpl in *.
    specialize (IH r1). destruct (crds.Reconciles rt r1 rest) as [r2 results].
    simpl in *. destruct IH as (Hlen & Hle & Hmono & Hs).
    destruct (crds.startControllersOnce r) eqn:Hr.
    + destruct (Hdone eq_refl) as [H1 Hl]. rewrite H1 in *.
      conjunctions; try lia; intros _; by apply Hmono.
    + destruct (Hnot eq_refl) as [[H1 Hl] | [H1 Hl]]; rewrite H1 in *.
      * conjunctions; try lia; try done. intros H. apply Hs. lia.
      * conjunctions; try lia; try done. intros _. by apply Hmono.
Qed.

(** X30: a failed start is not tried again. When the first [Reconcile]
    that finds the object there and all required CRDs installed gets an
    error from [setupControllers], it returns that error and leaves the
    world as the controllers left it; every later [Reconcile], in whatever
    world, sets up nothing and returns nil when [Get] succeeds. *)
Theorem failed_start_is_not_retried (r : DynamicController) w req w1 err :
  crds.startControllersOnce r = false ->
  crds.client_Get rt w (crds.Manager r) (crds.req_NamespacedName req) = None ->
  crds.allRequiredCRDsInstalled rt r w = true ->
  crds.setupControllers r (crds.Manager r) w = (w1, Some err) ->
  let first := crds.Reconcile rt r w req in
  snd (fst first) = w1
  /\ snd first = (crds.zeroResult, Some err)
  /\ forall w2 req2,
       crds.client_Get rt w2 (crds.Manager r) (crds.req_NamespacedName req2) = None ->
       let second := crds.Reconcile rt (fst (fst first)) w2 req2 in
       snd (fst second) = w2 /\ snd second = (crds.zeroResult, None).
Proof.
  intros Hnot Hget Hall Hsetup first.
  assert (Hfirst : exists r1, first = (r1, w1, (crds.zeroResult, Some err))
                              /\ crds.startControllersOnce r1 = true
                              /\ crds.Manager r1 = crds.Manager r).
  { subst first. unfold crds.Reconcile. rewrite Hget.
    change (crds.allRequiredCRDsInstalled rt (crds.logged r _) w)
      with (crds.allRequiredCRDsInstalled rt r w).
    rewrite Hall. simpl. unfold crds.Once_Do. simpl. rewrite Hnot.
    change (crds.setupControllers (crds.logged (crds.logged r _) _) (crds.Manager r) w)
      with (crds.setupControllers r (crds.Manager r) w).
    rewrite Hsetup. by eexists. }
  destruct Hfirst as (r1 & -> & Hdone & Hmgr). simpl. conjunctions; try reflexivity.
  intros w2 req2 Hget2. cbv zeta.
  destruct (Reconcile_when_done r1 w2 req2 Hdone) as (r2 & -> & _ & _).
  rewrite Hmgr, Hget2. by simpl.
Qed.

End crdsFacts.

(** The second controller is set up although the first has failed. *)
Lemma setupControllers_attempts_every_controller_witness :
  fst (crds.setupControllers sampleDynamic tt installed) = (["tcpingresses"], ["TCPIngress"])
  /\ snd (crds.setupControllers sampleDynamic tt installed)
     = Some (crds.joinError [crds.Foreign {| Error := "no kind is registered" |}]).
Proof.
  pose proof (setupControllers_attempts_every_controller sampleDynamic tt installed)
    as (_ & Hworld & _ & _).
  split; [exact Hworld | reflexivity].
Defined.

Lemma isOneOfRequiredCRDs_finds_a_provided_requirement_witness :
  crds.isOneOfRequiredCRDs sampleDynamic (crds.CRDObject (Some tcpIngressCRD))
  = Returned true.
Proof.
  apply (proj2 (proj2 (isOneOfRequiredCRDs_finds_a_provided_requirement
                         sampleDynamic tcpIngressCRD))).
  exists tcpIngresses. split; [by left|].
  unfold provides. conjunctions; try reflexivity. right. by left.
Defined.

Lemma isOneOfRequiredCRDs_panics_exactly_witness :
  exists msg,
    crds.isOneOfRequiredCRDs sampleDynamic (crds.CRDObject None) = Panicked msg.
Proof.
  apply (proj2 (proj1 (isOneOfRequiredCRDs_panics_exactly
                         sampleDynamic (crds.CRDObject None)))).
  split; [reflexivity | discriminate].
Defined.


Lemma Reconcile_after_the_start_witness :
  snd (crds.Reconcile sampleRuntime (crds.done sampleDynamic) installed tcpIngressRequest)
  = (crds.zeroResult, None).
Proof.
  exact (proj1 (proj2 (Reconcile_after_the_start sampleRuntime (crds.done sampleDynamic)
                         installed tcpIngressRequest eq_refl))).
Defined.

(** The first call reports the failure of the first controller; the second
    call returns nil. *)
Lemma failed_start_is_not_retried_witness :
  let first := crds.Reconcile sampleRuntime sampleDynamic installed tcpIngressRequest in
  snd first
  = (crds.zeroResult,
     Some (crds.joinError [crds.Foreign {| Error := "no kind is registered" |}]))
  /\ snd (crds.Reconcile sampleRuntime (fst (fst first)) installed tcpIngressRequest)
     = (crds.zeroResult, None).
Proof.
  pose proof (failed_start_is_not_retried sampleRuntime sampleDynamic installed
                tcpIngressRequest (["tcpingresses"], ["TCPIngress"])
                (crds.joinError [crds.Foreign {| Error := "no kind is registered" |}])
                eq_refl eq_refl eq_refl eq_refl)
    as (_ & Hfirst & Hsecond).
  split; [exact Hfirst|].
  exact (proj2 (Hsecond installed tcpIngressRequest eq_refl)).
Defined.
